(** * Qualification engine of the Livesport H2H scraper

    A shallow embedding of the decision logic of [livesport_h2h_scraper.py]:
    the team-sport H2H qualifier of [process_match], the form analysers
    [_analyze_form_advantage] and [_analyze_away_form_advantage], the surface
    heuristic [calculate_surface_stats_from_h2h] and the verdict assembly of
    [process_match_tennis].

    Modelling conventions.
    - A Python [str] is a [string]; its characters are code points below 256.
    - A Python [int] is a [Z]; a Python [float] is an exact rational [Q]
      (rounding of binary64 is not modelled).
    - A value that may be [None] is an [option]; truthiness of a [str] is
      non-emptiness, of an [Optional[int]] presence and non-zero.
    - What the scraper reads from the page or receives from a collaborator
      module (the parsed H2H rows, the form lists, the odds client, the
      over/under analyser, the tennis analyser) is an input of the model. *)

From Stdlib Require Import ZArith QArith Qminmax Qabs Bool List Ascii String Lia.
From Stdlib Require Import Floats Uint63.
From stdpp Require Import gmap strings.

Import ListNotations.
Local Open Scope string_scope.
Local Open Scope Z_scope.

(** ** Python string operations *)

Module PyStr.

(** [c.isspace()], also the class [\s] of [re] on a [str] pattern. *)
Definition isspace (c : ascii) : bool :=
  let n := N_of_ascii c in
  ((9 <=? n) && (n <=? 13) || (28 <=? n) && (n <=? 32)
   || (n =? 133) || (n =? 160))%N.

(** The class [\d] of [re]: below 256 the decimal digits are 0-9 only. *)
Definition isdigit (c : ascii) : bool :=
  let n := N_of_ascii c in ((48 <=? n) && (n <=? 57))%N.

Definition lower_char (c : ascii) : ascii :=
  let n := N_of_ascii c in
  if ((65 <=? n) && (n <=? 90)
      || (192 <=? n) && (n <=? 222) && negb (n =? 215))%N
  then ascii_of_N (n + 32) else c.

(** [s.lower()] *)
Fixpoint lower (s : string) : string :=
  match s with
  | EmptyString => EmptyString
  | String c t => String (lower_char c) (lower t)
  end.

(** [s.lstrip()] *)
Fixpoint lstrip (s : string) : string :=
  match s with
  | EmptyString => EmptyString
  | String c t => if isspace c then lstrip t else s
  end.

(** [s.rstrip()]: a character is dropped when it and all that follows it
    is white space. *)
Fixpoint rstrip (s : string) : string :=
  match s with
  | EmptyString => EmptyString
  | String c t =>
      match rstrip t with
      | EmptyString => if isspace c then EmptyString else String c EmptyString
      | t' => String c t'
      end
  end.

(** [s.strip()] *)
Definition strip (s : string) : string := rstrip (lstrip s).

(** [sub in s] *)
Fixpoint contains (sub s : string) : bool :=
  String.prefix sub s
  || match s with
     | EmptyString => false
     | String _ t => contains sub t
     end.

(** Truthiness of a [str]. *)
Definition truthy (s : string) : bool :=
  match s with EmptyString => false | _ => true end.

(** Truthiness of an [Optional[str]]. *)
Definition otruthy (o : option string) : bool :=
  match o with Some s => truthy s | None => false end.

(** The longest prefix of digits, and what follows it. *)
Fixpoint span_digits (s : string) : string * string :=
  match s with
  | EmptyString => (EmptyString, EmptyString)
  | String c t =>
      if isdigit c
      then let '(d, r) := span_digits t in (String c d, r)
      else (EmptyString, s)
  end.

(** Every character of [s] is a decimal digit. *)
Fixpoint all_digits (s : string) : bool :=
  match s with
  | EmptyString => true
  | String c t => isdigit c && all_digits t
  end.

(** [int(d)] on a string of decimal digits, most significant first. *)
Fixpoint digits_value (acc : Z) (d : string) : Z :=
  match d with
  | EmptyString => acc
  | String c t => digits_value (10 * acc + (Z.of_N (N_of_ascii c) - 48)) t
  end.

(** CPython refuses to convert a string of more than 4300 digits
    ([sys.int_info.default_max_str_digits]) and raises [ValueError];
    [None] is that exception. *)
Definition int_of_digits (d : string) : option Z :=
  if (4300 <? String.length d)%nat then None else Some (digits_value 0 d).

(** A match of [(\d+)\s*[:\-]\s*(\d+)] that starts at the head of [s].
    Each greedy piece can only match in full: after a shorter run of digits
    or of white space the next character is again a digit or a space, which
    neither [\s*[:\-]] nor [\d+] accepts in that place. *)
Definition score_match_here (s : string) : option (string * string) :=
  let '(g1, r1) := span_digits s in
  match g1 with
  | EmptyString => None
  | _ =>
      match lstrip r1 with
      | String c r2 =>
          if (Ascii.eqb c ":" || Ascii.eqb c "-")%char
          then let '(g2, _) := span_digits (lstrip r2) in
               match g2 with
               | EmptyString => None
               | _ => Some (g1, g2)
               end
          else None
      | EmptyString => None
      end
  end.

(** [re.search(r"(\d+)\s*[:\-]\s*(\d+)", s)]: the leftmost match, as its
    two groups. *)
Fixpoint score_search (s : string) : option (string * string) :=
  match score_match_here s with
  | Some g => Some g
  | None =>
      match s with
      | EmptyString => None
      | String _ t => score_search t
      end
  end.

End PyStr.

(** ** Data model *)

(** A row of the H2H table as [_parse_h2h_rows] builds it. *)
Record H2HItem : Type := mkItem {
  h_date : string;
  h_home : string;
  h_away : string;
  h_score : string;
  h_winner : string        (* 'home', 'away', 'draw' or 'unknown' *)
}.

(** [a == b or a in b or b in a] on two normalised names. *)
Definition names_match (a b : string) : bool :=
  String.eqb a b || PyStr.contains a b || PyStr.contains b a.

Definition normalize (s : string) : string := PyStr.strip (PyStr.lower s).

(** ** Python values and dictionaries *)

(** The values the verdict dictionaries hold. *)
Inductive PyVal : Type :=
| VNone
| VBool (b : bool)
| VInt (z : Z)
| VFloat (q : Q)
| VStr (s : string)
| VForm (l : list string)          (* a list of result symbols *)
| VH2H (l : list H2HItem)          (* the parsed H2H rows *)
| VScores (l : list (string * Q)). (* named sub-scores *)

(** A [dict] with [str] keys. *)
Abbreviation PyDict := (gmap string PyVal).

Definition of_ostr (o : option string) : PyVal :=
  match o with Some s => VStr s | None => VNone end.

Definition of_ofloat (o : option Q) : PyVal :=
  match o with Some q => VFloat q | None => VNone end.

Definition of_oint (o : option Z) : PyVal :=
  match o with Some z => VInt z | None => VNone end.

(** ** A block of statements that updates [out] and may raise *)

Module Blk.

(** A computation over the dictionary [out]: the dictionary as the block
    left it, and the value returned, [None] when an exception was
    raised. *)
Definition t (A : Type) : Type := PyDict -> PyDict * option A.

Definition ret {A} (a : A) : t A := fun out => (out, Some a).

Definition raise {A} : t A := fun out => (out, None).

Definition bind {A B} (m : t A) (k : A -> t B) : t B :=
  fun out =>
    match m out with
    | (out', Some a) => k a out'
    | (out', None) => (out', None)
    end.

(** [out[key] = v] *)
Definition set (key : string) (v : PyVal) : t unit :=
  fun out => (<[key := v]> out, Some tt).

(** A value that is there, or an exception ([KeyError], [TypeError]). *)
Definition get {A} (o : option A) : t A :=
  match o with Some a => ret a | None => raise end.

(** [try: body except Exception: handler]; the handler sees the
    dictionary as the body left it. *)
Definition try_except (body handler : t unit) : t unit :=
  fun out =>
    match body out with
    | (out', Some tt) => (out', Some tt)
    | (out', None) => handler out'
    end.

(** The dictionary after a block. *)
Definition exec {A} (m : t A) (out : PyDict) : PyDict := fst (m out).

(** [true] when the block ends without an exception. *)
Definition completes {A} (m : t A) (out : PyDict) : bool :=
  match snd (m out) with Some _ => true | None => false end.

End Blk.

Notation "x <- m ;; k" := (Blk.bind m (fun x => k))
  (at level 100, m at next level, right associativity).
Notation "m ;;; k" := (Blk.bind m (fun _ => k))
  (at level 100, right associativity).

(** ** Form analysis *)

Module Form.

(** The local [form_points]: 3 for a ['W'], 1 for a ['D']. *)
Definition form_points (form_list : list string) : Z :=
  fold_left
    (fun points result =>
       if String.eqb result "W" then points + 3
       else if String.eqb result "D" then points + 1
       else points)
    form_list 0.

(** [form_data[key]] as the list of results the loop of [form_points]
    runs over. [None] is the exception: the [KeyError] of a missing key,
    the [TypeError] of a value that cannot be iterated. The dictionaries
    [extract_advanced_team_form] builds hold lists of results under these
    keys; other values are read as the exception too. *)
Definition form_at (form_data : PyDict) (key : string) : option (list string) :=
  match form_data !! key with
  | Some (VForm l) => Some l
  | _ => None
  end.

Definition _analyze_form_advantage (form_data : PyDict) : bool :=
  match form_at form_data "home_form_overall",
        form_at form_data "away_form_overall",
        form_at form_data "home_form_home",
        form_at form_data "away_form_away" with
  | Some ho, Some ao, Some hh, Some aa =>
      let home_overall_pts := form_points ho in
      let away_overall_pts := form_points ao in
      let home_home_pts := form_points hh in
      let away_away_pts := form_points aa in
      let home_good_form := home_overall_pts >=? 7 in
      let away_poor_form := away_overall_pts <=? 6 in
      let home_better :=
        (home_overall_pts >? away_overall_pts)
        && (home_home_pts >? away_away_pts) in
      (home_good_form && away_poor_form) || home_better
  | _, _, _, _ => false                               (* except Exception *)
  end.

Definition _analyze_away_form_advantage (form_data : PyDict) : bool :=
  match form_at form_data "home_form_overall",
        form_at form_data "away_form_overall",
        form_at form_data "home_form_home",
        form_at form_data "away_form_away" with
  | Some ho, Some ao, Some hh, Some aa =>
      let home_overall_pts := form_points ho in
      let away_overall_pts := form_points ao in
      let home_home_pts := form_points hh in
      let away_away_pts := form_points aa in
      let away_good_form := away_overall_pts >=? 7 in
      let home_poor_form := home_overall_pts <=? 6 in
      let away_better :=
        (away_overall_pts >? home_overall_pts)
        && (away_away_pts >? home_home_pts) in
      (away_good_form && home_poor_form) || away_better
  | _, _, _, _ => false                               (* except Exception *)
  end.

(** What [_extract_form_from_h2h_page] returned for the three pages
    (overall, home venue, away venue), each a pair (home_form,
    away_form); [None] when the visits did not all return (the driver
    raised outside that function's own handler). *)
Record Pages : Type := mkPages {
  overall : list string * list string;
  at_home : list string * list string;
  at_away : list string * list string
}.

Definition empty_result : PyDict :=
  {[ "home_form_overall" := VForm [];
     "home_form_home" := VForm [];
     "away_form_overall" := VForm [];
     "away_form_away" := VForm [];
     "form_advantage" := VBool false ]}.

(** [extract_advanced_team_form]: the dictionary it returns. *)
Definition extract_advanced_team_form (match_url : string)
    (pages : option Pages) : PyDict :=
  let result := empty_result in
  if PyStr.contains "/match/" match_url || PyStr.contains "/mecz/" match_url
  then
    match pages with
    | None => result
    | Some p =>
        let result := <["home_form_overall" := VForm (fst (overall p))]> result in
        let result := <["away_form_overall" := VForm (snd (overall p))]> result in
        let result := <["home_form_home" := VForm (fst (at_home p))]> result in
        let result := <["away_form_away" := VForm (snd (at_away p))]> result in
        let result :=
          <["form_advantage" := VBool (_analyze_form_advantage result)]> result in
        <["away_advantage" := VBool (_analyze_away_form_advantage result)]> result
    end
  else result.

End Form.

(** ** The over/under collaborator *)

(** [d.get(key)] and [d.get(key, v)] *)
Definition dget (d : PyDict) (key : string) : PyVal := default VNone (d !! key).
Definition dget_or (d : PyDict) (key : string) (v : PyVal) : PyVal :=
  default v (d !! key).

(** Truthiness of a value. *)
Definition py_truthy (v : PyVal) : bool :=
  match v with
  | VNone => false
  | VBool b => b
  | VInt z => negb (z =? 0)
  | VFloat q => negb (Qeq_bool q 0)
  | VStr s => PyStr.truthy s
  | VForm l => match l with [] => false | _ => true end
  | VH2H l => match l with [] => false | _ => true end
  | VScores l => match l with [] => false | _ => true end
  end.

(** Truthiness of a [dict]: it is not empty. *)
Definition dict_truthy (d : PyDict) : bool := negb (bool_decide (d = ∅)).

(** One call of [over_under_analyzer.analyze_over_under] with its keyword
    arguments; [call_line] is [None] when [line] is left out. *)
Record OUCall : Type := mkCall {
  call_sport : string;
  call_h2h_results : list H2HItem;
  call_home_form : list H2HItem;
  call_away_form : list H2HItem;
  call_line : option PyVal
}.

(** The collaborator: [None] when the call raises, [Some None] when it
    returns [None], else the dictionary it returns. *)
Definition OUAnalyzer : Type := OUCall -> option (option PyDict).

(** ** Team sports: [process_match] *)

Module Team.

(** The body of the [try] for one row. The outer [option] is the
    exception ([None]: raised before either counter was touched); the
    counters are [(cnt_home, cnt_away)]. *)
Definition count_try (current_home current_away : option string)
    (cnt : Z * Z) (item : H2HItem) : option (Z * Z) :=
  let h2h_home := PyStr.strip (h_home item) in
  let h2h_away := PyStr.strip (h_away item) in
  match PyStr.score_search (h_score item) with
  | None => Some cnt                                   (* continue *)
  | Some (g1, g2) =>
      match PyStr.int_of_digits g1 with
      | None => None
      | Some goals_home_side =>
      match PyStr.int_of_digits g2 with
      | None => None
      | Some goals_away_side =>
          let winner_team :=
            if goals_home_side >? goals_away_side then Some h2h_home
            else if goals_away_side >? goals_home_side then Some h2h_away
            else None in
          let cnt_home :=
            match winner_team, current_home with
            | Some w, Some h =>
                if PyStr.truthy w && PyStr.truthy h
                   && names_match (normalize w) (normalize h)
                then fst cnt + 1 else fst cnt
            | _, _ => fst cnt
            end in
          let cnt_away :=
            match winner_team, current_away with
            | Some w, Some a =>
                if PyStr.truthy w && PyStr.truthy a
                   && names_match (normalize w) (normalize a)
                then snd cnt + 1 else snd cnt
            | _, _ => snd cnt
            end in
          Some (cnt_home, cnt_away)
      end
      end
  end.

(** The [except] branch: the older heuristic on the row's [winner] tag. *)
Definition count_except (current_home current_away : option string)
    (cnt : Z * Z) (item : H2HItem) : Z * Z :=
  let cnt_home :=
    match current_home with
    | Some h =>
        if String.eqb (h_winner item) "home" && PyStr.truthy h
           && (PyStr.contains (normalize h) (normalize (h_home item))
               || PyStr.contains (normalize (h_home item)) (normalize h))
        then fst cnt + 1 else fst cnt
    | None => fst cnt
    end in
  let cnt_away :=
    match current_away with
    | Some a =>
        if String.eqb (h_winner item) "away" && PyStr.truthy a
           && (PyStr.contains (normalize a) (normalize (h_away item))
               || PyStr.contains (normalize (h_away item)) (normalize a))
        then snd cnt + 1 else snd cnt
    | None => snd cnt
    end in
  (cnt_home, cnt_away).

Definition count_item (current_home current_away : option string)
    (cnt : Z * Z) (item : H2HItem) : Z * Z :=
  match count_try current_home current_away cnt item with
  | Some cnt' => cnt'
  | None => count_except current_home current_away cnt item
  end.

(** [for item in h2h: ...] from [cnt_home = cnt_away = 0]. *)
Definition count_wins (current_home current_away : option string)
    (h2h : list H2HItem) : Z * Z :=
  fold_left (count_item current_home current_away) h2h (0, 0).

(** What [process_match] obtains from the page and from its
    collaborators once the H2H rows are parsed. *)
Record Env : Type := mkEnv {
  match_time : option string;
  (** the three form pages of [extract_advanced_team_form] *)
  pages : option Form.Pages;
  (** [extract_team_form] for both sides; [None] when it raises *)
  legacy_forms : option (list string * list string);
  (** [extract_betting_odds_with_api]: home and away price *)
  odds : option Q * option Q;
  (** [extract_event_id_from_url]; the outer [None] is an exception *)
  event_id : option (option string);
  (** [get_over_under_odds event_id sport] and [get_btts_odds event_id];
      the outer [None] is an exception *)
  over_under_odds : string -> string -> option (option PyDict);
  btts_odds : string -> option (option PyDict);
  analyze_over_under : OUAnalyzer;
  (** [str(v)] *)
  py_str : PyVal -> string
}.

(** [win_rate] and [basic_qualifies] for the counter of the focus side. *)
Definition win_rate_of (cnt : Z) (n : Z) : Q :=
  if n >? 0 then inject_Z cnt / inject_Z n else 0%Q.

Definition basic_qualifies_of (win_rate : Q) (n : Z) : bool :=
  Qle_bool (60 # 100) win_rate && (n >=? 1).

(** The [try] block that reads the advanced form into [out]. *)
Definition form_try (advanced_form : PyDict) (away_team_focus basic_qualifies : bool)
    : Blk.t unit :=
  v <- Blk.get (advanced_form !! "home_form_overall") ;;
  Blk.set "home_form_overall" v ;;;
  v <- Blk.get (advanced_form !! "home_form_home") ;;
  Blk.set "home_form_home" v ;;;
  v <- Blk.get (advanced_form !! "away_form_overall") ;;
  Blk.set "away_form_overall" v ;;;
  v <- Blk.get (advanced_form !! "away_form_away") ;;
  Blk.set "away_form_away" v ;;;
  (if away_team_focus
   then Blk.set "form_advantage" (dget_or advanced_form "away_advantage" (VBool false))
   else v <- Blk.get (advanced_form !! "form_advantage") ;;
        Blk.set "form_advantage" v) ;;;
  v <- Blk.get (advanced_form !! "home_form_overall") ;;
  Blk.set "home_form" v ;;;
  v <- Blk.get (advanced_form !! "away_form_overall") ;;
  Blk.set "away_form" v ;;;
  Blk.set "qualifies" (VBool basic_qualifies).

(** Its [except] branch: the old criterion and the old form extraction. *)
Definition form_except (env : Env) (basic_qualifies : bool) : Blk.t unit :=
  Blk.set "qualifies" (VBool basic_qualifies) ;;;
  match legacy_forms env with
  | Some (home_form, away_form) =>
      Blk.set "home_form" (VForm home_form) ;;;
      Blk.set "away_form" (VForm away_form)
  | None => Blk.ret tt                                       (* pass *)
  end.

Definition form_stage (env : Env) (url : string)
    (away_team_focus basic_qualifies : bool) : Blk.t unit :=
  Blk.set "home_form" (VForm []) ;;;
  Blk.set "away_form" (VForm []) ;;;
  Blk.set "home_form_overall" (VForm []) ;;;
  Blk.set "home_form_home" (VForm []) ;;;
  Blk.set "away_form_overall" (VForm []) ;;;
  Blk.set "away_form_away" (VForm []) ;;;
  Blk.set "form_advantage" (VBool false) ;;;
  if basic_qualifies
  then Blk.try_except
         (form_try (Form.extract_advanced_team_form url (pages env))
            away_team_focus basic_qualifies)
         (form_except env basic_qualifies)
  else Blk.set "qualifies" (VBool false).

(** The sport named by the URL. *)
Definition detect_sport (url : string) : string :=
  let u := PyStr.lower url in
  if PyStr.contains "koszykowka" u || PyStr.contains "basketball" u then "basketball"
  else if PyStr.contains "siatkowka" u || PyStr.contains "volleyball" u then "volleyball"
  else if PyStr.contains "pilka-reczna" u || PyStr.contains "handball" u then "handball"
  else if PyStr.contains "hokej" u || PyStr.contains "hockey" u then "hockey"
  else if PyStr.contains "tenis" u || PyStr.contains "tennis" u then "tennis"
  else "football".

Definition default_lines : gmap string Q :=
  {[ "football" := 25 # 10;
     "basketball" := 2205 # 10;
     "handball" := 555 # 10;
     "volleyball" := 45 # 10;
     "hockey" := 55 # 10;
     "tennis" := 25 # 10 ]}.

(** The O/U fields before any analysis. *)
Definition ou_defaults (out : PyDict) : PyDict :=
  let out := <["ou_qualifies" := VBool false]> out in
  let out := <["ou_recommendation" := VNone]> out in
  let out := <["ou_line" := VNone]> out in
  let out := <["ou_line_type" := VNone]> out in
  let out := <["ou_h2h_percentage" := VFloat 0]> out in
  let out := <["over_odds" := VNone]> out in
  let out := <["under_odds" := VNone]> out in
  let out := <["btts_qualifies" := VBool false]> out in
  let out := <["btts_h2h_percentage" := VFloat 0]> out in
  let out := <["btts_yes_odds" := VNone]> out in
  <["btts_no_odds" := VNone]> out.

(** Step 1: the prices and the live line of the odds API. The result is
    [out] and the local [api_line]; an exception leaves both as they were
    when it was raised. *)
Definition fetch_ou_odds (env : Env) (url sport : string) (n : Z)
    (out : PyDict) : PyDict * PyVal :=
  if PyStr.truthy url && PyStr.contains "?mid=" url && (n >=? 5) then
    match event_id env with
    | Some (Some eid) =>
        if PyStr.truthy eid then
          match over_under_odds env eid sport with
          | None => (out, VNone)
          | Some ou_odds =>
              let '(out, api_line) :=
                match ou_odds with
                | Some d =>
                    if dict_truthy d
                    then (<["under_odds" := dget d "under_odds"]>
                            (<["over_odds" := dget d "over_odds"]> out),
                          dget d "line")
                    else (out, VNone)
                | None => (out, VNone)
                end in
              if String.eqb sport "football" then
                match btts_odds env eid with
                | Some (Some b) =>
                    if dict_truthy b
                    then (<["btts_no_odds" := dget b "btts_no"]>
                            (<["btts_yes_odds" := dget b "btts_yes"]> out),
                          api_line)
                    else (out, api_line)
                | _ => (out, api_line)
                end
              else (out, api_line)
          end
        else (out, VNone)
    | _ => (out, VNone)
    end
  else (out, VNone).

(** [api_line if api_line else default_lines.get(sport, 2.5)] *)
Definition line_to_use (api_line : PyVal) (sport : string) : PyVal :=
  if py_truthy api_line then api_line
  else VFloat (default (25 # 10) (default_lines !! sport)).

(** Step 2: the analysis. The result is [out] and the calls made to the
    analyser. *)
Definition run_ou_analysis (env : Env) (sport : string) (h2h : list H2HItem)
    (api_line : PyVal) (out : PyDict) : PyDict * list OUCall :=
  if Z.of_nat (length h2h) >=? 5 then
    let call := mkCall sport h2h h2h h2h (Some (line_to_use api_line sport)) in
    match analyze_over_under env call with
    | Some (Some ou_analysis) =>
        if dict_truthy ou_analysis && py_truthy (dget ou_analysis "qualifies") then
          let out := <["ou_qualifies" := VBool true]> out in
          let out := <["ou_recommendation" := dget ou_analysis "recommendation"]> out in
          let out := <["ou_line" := VStr (py_str env (dget_or ou_analysis "line" (VStr "")))]> out in
          let out := <["ou_line_type" := dget_or ou_analysis "line_type" (VStr "")]> out in
          let out := <["ou_h2h_percentage" := dget_or ou_analysis "h2h_over_percentage" (VFloat 0)]> out in
          let out :=
            if String.eqb sport "football"
               && bool_decide (is_Some (ou_analysis !! "btts_qualifies"))
            then <["btts_h2h_percentage" := dget_or ou_analysis "btts_h2h_percentage" (VFloat 0)]>
                   (<["btts_qualifies" := dget_or ou_analysis "btts_qualifies" (VBool false)]> out)
            else out in
          (out, [call])
        else (out, [call])
    | _ => (out, [call])                  (* returned None, or raised *)
    end
  else (out, []).

(** The dictionary [process_match] starts from. *)
Definition initial_out (url : string) (away_team_focus : bool) : PyDict :=
  <["focus_team" := VStr (if away_team_focus then "away" else "home")]>
  (<["away_odds" := VNone]>
  (<["home_odds" := VNone]>
  (<["away_form" := VForm []]>
  (<["home_form" := VForm []]>
    {[ "match_url" := VStr url;
       "home_team" := VNone;
       "away_team" := VNone;
       "match_time" := VNone;
       "h2h_last5" := VH2H [];
       "home_wins_in_h2h_last5" := VInt 0;
       "away_wins_in_h2h_last5" := VInt 0;
       "h2h_count" := VInt 0;
       "win_rate" := VFloat 0;
       "qualifies" := VBool false ]})))).

(** [process_match] from the point where the page is loaded: [h2h] is
    what [parse_h2h_from_soup] returned, [home_team] and [away_team] the
    names found on the page. The result is the dictionary returned and
    the calls made to the over/under analyser. *)
Definition process_match (env : Env) (url : string)
    (home_team away_team : option string) (h2h : list H2HItem)
    (away_team_focus : bool) : PyDict * list OUCall :=
  let out := initial_out url away_team_focus in
  let out := <["home_team" := of_ostr home_team]> out in
  let out := <["away_team" := of_ostr away_team]> out in
  let out := <["match_time" := of_ostr (match_time env)]> out in
  let out := <["h2h_last5" := VH2H h2h]> out in
  let '(cnt_home, cnt_away) := count_wins home_team away_team h2h in
  let n := Z.of_nat (length h2h) in
  let out := <["home_wins_in_h2h_last5" := VInt cnt_home]> out in
  let out := <["away_wins_in_h2h_last5" := VInt cnt_away]> out in
  let out := <["h2h_count" := VInt n]> out in
  let win_rate := win_rate_of (if away_team_focus then cnt_away else cnt_home) n in
  let out := <["win_rate" := VFloat win_rate]> out in
  let basic_qualifies := basic_qualifies_of win_rate n in
  let out := Blk.exec (form_stage env url away_team_focus basic_qualifies) out in
  let sport := detect_sport url in
  let out := <["home_odds" := of_ofloat (fst (odds env))]> out in
  let out := <["away_odds" := of_ofloat (snd (odds env))]> out in
  let out := ou_defaults out in
  let '(out, api_line) := fetch_ou_odds env url sport n out in
  run_ou_analysis env sport h2h api_line out.

End Team.

(** ** Surface heuristic: [calculate_surface_stats_from_h2h] *)

Module Surface.

Definition surfaces : list string := ["clay"; "grass"; "hard"].

(** [sum(ord(c) for c in player_name)] *)
Fixpoint name_hash (player_name : string) : Z :=
  match player_name with
  | EmptyString => 0
  | String c t => Z.of_N (N_of_ascii c) + name_hash t
  end.

(** Step 1, the loop: [(wins, total)] over the rows the player is in. *)
Definition tally (player_normalized : string) (acc : Z * Z) (m : H2HItem)
    : Z * Z :=
  let home := normalize (h_home m) in
  let away := normalize (h_away m) in
  let winner := h_winner m in
  let '(wins, total) := acc in
  if PyStr.contains player_normalized home || PyStr.contains home player_normalized
  then (if String.eqb winner "home" then wins + 1 else wins, total + 1)
  else if PyStr.contains player_normalized away || PyStr.contains away player_normalized
  then (if String.eqb winner "away" then wins + 1 else wins, total + 1)
  else (wins, total).

(** Step 1: the base rate. *)
Definition h2h_base_rate (h2h_matches : list H2HItem) (player_name : string) : Q :=
  match h2h_matches with
  | [] => 60 # 100
  | _ =>
      let '(wins, total) :=
        fold_left (tally (normalize player_name)) h2h_matches (0, 0) in
      if total >? 0 then inject_Z wins / inject_Z total else 60 # 100
  end.

(** Step 2: the ranking tiers, skipped when [player_ranking] is falsy. *)
Definition rank_adjust (player_ranking : option Z) (base_rate : Q) : Q :=
  match player_ranking with
  | Some r =>
      if r =? 0 then base_rate
      else if r <=? 10 then Qmin (base_rate + (15 # 100)) (95 # 100)
      else if r <=? 30 then Qmin (base_rate + (10 # 100)) (90 # 100)
      else if r <=? 50 then Qmin (base_rate + (5 # 100)) (85 # 100)
      else if r <=? 100 then Qmin base_rate (75 # 100)
      else Qmax (base_rate - (5 # 100)) (45 # 100)
  | None => base_rate
  end.

(** [for surf in surfaces: body]; [None] as soon as a body raises. *)
Fixpoint for_each (body : gmap string Q -> string -> option (gmap string Q))
    (l : list string) (stats : gmap string Q) : option (gmap string Q) :=
  match l with
  | [] => Some stats
  | surf :: rest =>
      match body stats surf with
      | Some stats' => for_each body rest stats'
      | None => None
      end
  end.

(** The body of the [try]; [None] is an exception ([IndexError] of
    [surfaces[i]], [KeyError] of [stats[surf]]). *)
Definition stats_try (h2h_matches : list H2HItem) (player_name : string)
    (player_ranking : option Z) : option (gmap string Q) :=
  let base_rate := h2h_base_rate h2h_matches player_name in
  let base_rate := rank_adjust player_ranking base_rate in
  let h := name_hash player_name in
  let specialty_index := h mod 3 in
  let stats : gmap string Q :=
    {[ "clay" := base_rate; "grass" := base_rate; "hard" := base_rate ]} in
  specialty_surface ← surfaces !! Z.to_nat specialty_index;
  cur ← stats !! specialty_surface;
  let stats := <[specialty_surface := Qmin (cur + (8 # 100)) (98 # 100)]> stats in
  stats ← for_each
    (fun stats surf =>
       if bool_decide (surf ≠ specialty_surface)
       then cur ← stats !! surf;
            Some (<[surf := Qmax (cur - (4 # 100)) (30 # 100)]> stats)
       else Some stats)
    surfaces stats;
  let micro_variation : Q := (inject_Z (h mod 7 - 3) / 100)%Q in
  for_each
    (fun stats surf =>
       cur ← stats !! surf;
       Some (<[surf := Qmax (30 # 100) (Qmin (98 # 100) (cur + micro_variation))]> stats))
    surfaces stats.

(** The dictionary of the [except] branch. *)
Definition fallback_stats : gmap string Q :=
  {[ "clay" := 62 # 100; "grass" := 68 # 100; "hard" := 65 # 100 ]}.

(** [calculate_surface_stats_from_h2h]; [None] is Python's [None]. *)
Definition calculate_surface_stats_from_h2h (h2h_matches : list H2HItem)
    (player_name : option string) (current_surface : option string)
    (player_ranking : option Z) : option (gmap string Q) :=
  match player_name with
  | Some name =>
      if PyStr.truthy name then
        match stats_try h2h_matches name player_ranking with
        | Some stats => Some stats
        | None => Some fallback_stats
        end
      else None
  | None => None
  end.

End Surface.

(** ** Tennis: [process_match_tennis] *)

Module Tennis.

(** One row in the format of the tennis analyser. *)
Record V3Match : Type := mkV3 {
  v3_date : string;
  v3_winner : option string;
  v3_score : string;
  v3_surface : option string
}.

(** One form result in the format of the tennis analyser. *)
Record V3Form : Type := mkV3Form {
  v3_result : string;
  v3_form_date : string;
  v3_opponent_rank : option Z
}.

(** The keyword arguments of [analyze_match]. *)
Record V3Input : Type := mkV3Input {
  in_player_a : string;
  in_player_b : string;
  in_h2h_matches : list V3Match;
  in_form_a : list V3Form;
  in_form_b : list V3Form;
  in_surface : option string;
  in_surface_stats_a : option (gmap string Q);
  in_surface_stats_b : option (gmap string Q);
  in_tournament_info : string
}.

(** The dictionary [analyze_match] returns: its entries other than
    ['details'], and the dictionary under ['details'] when it is there. *)
Record Analysis : Type := mkAnalysis {
  an_fields : PyDict;
  an_details : option PyDict
}.

Record Env : Type := mkEnv {
  match_time : option string;
  ranking_a : option Z;                 (* extract_player_ranking *)
  ranking_b : option Z;
  surface : option string;              (* detect_tennis_surface *)
  form_a : list string;                 (* extract_player_form_simple *)
  form_b : list string;
  odds : option Q * option Q;
  analyze_over_under : OUAnalyzer;
  event_id : option (option string);
  over_under_odds : string -> string -> option (option PyDict);
  (** [from tennis_advanced_v3 import TennisMatchAnalyzerV3] and the
      constructor succeed *)
  analyzer_available : bool;
  (** [analyzer.analyze_match]; [None] when it raises *)
  analyze_match : V3Input -> option Analysis;
  py_str : PyVal -> string
}.

(** The body of the counting [try] for one row; [None] is an exception,
    and in both readings of [continue] the counters stay. *)
Definition count_try (player_a player_b : option string)
    (cnt : Z * Z) (item : H2HItem) : option (Z * Z) :=
  let h2h_player1 := PyStr.strip (h_home item) in
  let h2h_player2 := PyStr.strip (h_away item) in
  match PyStr.score_search (h_score item) with
  | None => Some cnt                                       (* continue *)
  | Some (g1, g2) =>
      match PyStr.int_of_digits g1 with
      | None => None
      | Some sets1 =>
      match PyStr.int_of_digits g2 with
      | None => None
      | Some sets2 =>
          let winner :=
            if sets1 >? sets2 then Some h2h_player1
            else if sets2 >? sets1 then Some h2h_player2
            else None in
          match winner with
          | None => Some cnt                               (* continue *)
          | Some winner =>
              let winner_normalized := normalize winner in
              let player_a_normalized :=
                if PyStr.otruthy player_a
                then normalize (default "" player_a) else "" in
              let player_b_normalized :=
                if PyStr.otruthy player_b
                then normalize (default "" player_b) else "" in
              if PyStr.otruthy player_a
                 && names_match winner_normalized player_a_normalized
              then Some (fst cnt + 1, snd cnt)
              else if PyStr.otruthy player_b
                      && names_match winner_normalized player_b_normalized
              then Some (fst cnt, snd cnt + 1)
              else Some cnt
          end
      end
      end
  end.

Definition count_item (player_a player_b : option string)
    (cnt : Z * Z) (item : H2HItem) : Z * Z :=
  match count_try player_a player_b cnt item with
  | Some cnt' => cnt'
  | None => cnt                                  (* except: continue *)
  end.

(** [(player_a_wins, player_b_wins)] *)
Definition count_wins (player_a player_b : option string)
    (h2h : list H2HItem) : Z * Z :=
  fold_left (count_item player_a player_b) h2h (0, 0).

(** The over/under block: [out] and the calls made to the analyser. *)
Definition run_ou_analysis (env : Env) (url : string) (h2h : list H2HItem)
    (out : PyDict) : PyDict * list OUCall :=
  if Z.of_nat (length h2h) >=? 5 then
    let call := mkCall "tennis" h2h h2h h2h None in
    match analyze_over_under env call with
    | Some (Some ou_analysis) =>
        match ou_analysis !! "qualifies" with
        | Some q =>
            let out := <["ou_qualifies" := q]> out in
            let out := <["ou_line" := VStr (py_str env (dget_or ou_analysis "line" (VStr "2.5")))]> out in
            let out := <["ou_line_type" := dget_or ou_analysis "line_type" (VStr "sets")]> out in
            let out := <["ou_h2h_percentage" := dget_or ou_analysis "h2h_percentage" (VFloat 0)]> out in
            let out :=
              if PyStr.truthy url && PyStr.contains "?mid=" url then
                match event_id env with
                | Some (Some eid) =>
                    if PyStr.truthy eid then
                      match over_under_odds env eid "tennis" with
                      | Some (Some d) =>
                          if dict_truthy d
                          then <["under_odds" := dget d "under_odds"]>
                                 (<["over_odds" := dget d "over_odds"]> out)
                          else out
                      | _ => out
                      end
                    else out
                | _ => out
                end
              else out in
            (out, [call])
        | None => (out, [call])
        end
    | _ => (out, [call])
    end
  else (out, []).

(** The winner of a row relative to the two players. *)
Definition v3_of (player_a player_b : option string) (surface : option string)
    (m : H2HItem) : V3Match :=
  let winner :=
    if String.eqb (h_winner m) "home"
    then Some (if bool_decide (Some (h_home m) = player_a)
               then "player_a" else "player_b")
    else if String.eqb (h_winner m) "away"
    then Some (if bool_decide (Some (h_away m) = player_b)
               then "player_b" else "player_a")
    else None in
  mkV3 (h_date m) winner (h_score m) surface.

Definition v3_form (form : list string) : list V3Form :=
  map (fun r => mkV3Form r "" None) form.

(** The arguments [process_match_tennis] hands to [analyze_match]. *)
Definition analyzer_input (env : Env) (url : string)
    (player_a player_b : option string) (h2h : list H2HItem) : V3Input :=
  let surface_stats_a :=
    Surface.calculate_surface_stats_from_h2h h2h player_a (surface env) (ranking_a env) in
  let surface_stats_b :=
    Surface.calculate_surface_stats_from_h2h h2h player_b (surface env) (ranking_b env) in
  mkV3Input
    (if PyStr.otruthy player_a then default "" player_a else "Player A")
    (if PyStr.otruthy player_b then default "" player_b else "Player B")
    (map (v3_of player_a player_b (surface env)) h2h)
    (v3_form (form_a env))
    (v3_form (form_b env))
    (surface env)
    (if PyStr.otruthy (surface env) then surface_stats_a else Some ∅)
    (if PyStr.otruthy (surface env) then surface_stats_b else Some ∅)
    url.

(** [abs(v)]; [None] is the [TypeError]. *)
Definition py_abs (v : PyVal) : option PyVal :=
  match v with
  | VInt z => Some (VInt (Z.abs z))
  | VFloat q => Some (VFloat (Qabs q))
  | VBool b => Some (VInt (Z.b2z b))
  | _ => None
  end.

(** [v == 0] *)
Definition py_is_zero (v : PyVal) : bool :=
  match v with
  | VInt z => z =? 0
  | VFloat q => Qeq_bool q 0
  | VBool b => negb b
  | _ => false
  end.

(** [v == s] for a string [s] *)
Definition py_is_str (v : PyVal) (s : string) : bool :=
  match v with VStr t => String.eqb t s | _ => false end.

(** The favourite by raw H2H wins. *)
Definition h2h_favorite (player_a_wins player_b_wins : Z) : string :=
  if player_a_wins >? player_b_wins then "player_a"
  else if player_b_wins >? player_a_wins then "player_b"
  else "even".

(** The [try] block of the advanced scoring. *)
Definition scoring_try (env : Env) (input : V3Input)
    (player_a_wins player_b_wins : Z) : Blk.t unit :=
  Blk.get (if analyzer_available env then Some tt else None) ;;;
  analysis <- Blk.get (analyze_match env input) ;;
  total_score <- Blk.get (an_fields analysis !! "total_score") ;;
  advanced_score <- Blk.get (py_abs total_score) ;;
  Blk.set "advanced_score" advanced_score ;;;
  qualifies <- Blk.get (an_fields analysis !! "qualifies") ;;
  Blk.set "qualifies" qualifies ;;;
  breakdown <- Blk.get (an_fields analysis !! "breakdown") ;;
  Blk.set "score_breakdown" breakdown ;;;
  details <- Blk.get (an_details analysis) ;;
  let favorite_key := dget_or details "favorite" (VStr "unknown") in
  if py_is_zero advanced_score || py_is_str favorite_key "even"
  then Blk.set "favorite" (VStr (h2h_favorite player_a_wins player_b_wins))
  else Blk.set "favorite" favorite_key.

(** Its [except] branch: the simple H2H rule. *)
Definition scoring_except (player_a_wins player_b_wins : Z) : Blk.t unit :=
  Blk.set "qualifies"
    (VBool ((player_a_wins >=? 1) && (player_a_wins >? player_b_wins))) ;;;
  Blk.set "advanced_score" (VFloat 0) ;;;
  Blk.set "favorite" (VStr (h2h_favorite player_a_wins player_b_wins)).

Definition scoring (env : Env) (input : V3Input)
    (player_a_wins player_b_wins : Z) : Blk.t unit :=
  Blk.try_except
    (scoring_try env input player_a_wins player_b_wins)
    (scoring_except player_a_wins player_b_wins).

(** The dictionary [process_match_tennis] starts from. *)
Definition initial_out (url : string) : PyDict :=
  <["away_odds" := VNone]>
  (<["home_odds" := VNone]>
  (<["qualifies" := VBool false]>
  (<["advanced_score" := VFloat 0]>
  (<["surface" := VNone]>
  (<["form_b" := VForm []]>
    {[ "match_url" := VStr url;
       "home_team" := VNone;
       "away_team" := VNone;
       "match_time" := VNone;
       "h2h_last5" := VH2H [];
       "home_wins_in_h2h_last5" := VInt 0;
       "away_wins_in_h2h" := VInt 0;
       "ranking_a" := VNone;
       "ranking_b" := VNone;
       "form_a" := VForm [] ]}))))).

(** The O/U fields before any analysis. *)
Definition ou_defaults (out : PyDict) : PyDict :=
  let out := <["ou_qualifies" := VBool false]> out in
  let out := <["ou_line" := VNone]> out in
  let out := <["ou_line_type" := VNone]> out in
  let out := <["ou_h2h_percentage" := VFloat 0]> out in
  let out := <["over_odds" := VNone]> out in
  let out := <["under_odds" := VNone]> out in
  let out := <["btts_qualifies" := VBool false]> out in
  let out := <["btts_h2h_percentage" := VFloat 0]> out in
  let out := <["btts_yes_odds" := VNone]> out in
  <["btts_no_odds" := VNone]> out.

(** The dictionary before the advanced scoring, and the calls made to the
    over/under analyser. *)
Definition before_scoring (env : Env) (url : string)
    (player_a player_b : option string) (h2h : list H2HItem)
    : PyDict * list OUCall :=
  let out := initial_out url in
  let out := <["home_team" := of_ostr player_a]> out in
  let out := <["away_team" := of_ostr player_b]> out in
  let out := <["match_time" := of_ostr (match_time env)]> out in
  let out := <["h2h_last5" := VH2H h2h]> out in
  let '(player_a_wins, player_b_wins) := count_wins player_a player_b h2h in
  let out := <["home_wins_in_h2h_last5" := VInt player_a_wins]> out in
  let out := <["away_wins_in_h2h" := VInt player_b_wins]> out in
  let out := <["h2h_count" := VInt (Z.of_nat (length h2h))]> out in
  let out := <["ranking_a" := of_oint (ranking_a env)]> out in
  let out := <["ranking_b" := of_oint (ranking_b env)]> out in
  let out := <["surface" := of_ostr (surface env)]> out in
  let out := <["form_a" := VForm (form_a env)]> out in
  let out := <["form_b" := VForm (form_b env)]> out in
  let out := <["home_odds" := of_ofloat (fst (odds env))]> out in
  let out := <["away_odds" := of_ofloat (snd (odds env))]> out in
  let out := ou_defaults out in
  run_ou_analysis env url h2h out.

(** [process_match_tennis] from the point where the page is loaded: the
    outcome of its last block. The second component is [None] when an
    exception leaves the function, else the dictionary returned and the
    calls made to the over/under analyser. *)
Definition process_match_tennis (env : Env) (url : string)
    (player_a player_b : option string) (h2h : list H2HItem)
    : option (PyDict * list OUCall) :=
  let '(out, calls) := before_scoring env url player_a player_b h2h in
  let '(player_a_wins, player_b_wins) := count_wins player_a player_b h2h in
  match scoring env (analyzer_input env url player_a player_b h2h)
          player_a_wins player_b_wins out with
  | (out', Some tt) => Some (out', calls)
  | (_, None) => None
  end.

End Tennis.

(** ** The surface profile as the specification words it *)

Module SurfaceSpec.

(** The ranking tiers: rank <= 10: +0.15 capped at 0.95; <= 30: +0.10
    capped at 0.90; <= 50: +0.05 capped at 0.85; <= 100: unchanged, capped
    at 0.75; above 100: -0.05 floored at 0.45. *)
Definition ranking_tier (rank : Z) (rate : Q) : Q :=
  if rank <=? 10 then Qmin (rate + (15 # 100)) (95 # 100)
  else if rank <=? 30 then Qmin (rate + (10 # 100)) (90 # 100)
  else if rank <=? 50 then Qmin (rate + (5 # 100)) (85 # 100)
  else if rank <=? 100 then Qmin rate (75 # 100)
  else Qmax (rate - (5 # 100)) (45 # 100).

(** Surface number [i] of [clay, grass, hard]: boosted by 0.08 (cap 0.98)
    when [i] is the hash modulo 3, else lowered by 0.04 (floor 0.30); then
    the micro-variation [(hash mod 7 - 3) / 100] and the clamp to
    [0.30, 0.98]. *)
Definition surface_value (name : string) (rate : Q) (i : Z) : Q :=
  let h := Surface.name_hash name in
  let specialised :=
    if i =? h mod 3 then Qmin (rate + (8 # 100)) (98 # 100)
    else Qmax (rate - (4 # 100)) (30 # 100) in
  Qmax (30 # 100) (Qmin (98 # 100) (specialised + inject_Z (h mod 7 - 3) / 100)).

Definition profile (name : string) (rate : Q) : gmap string Q :=
  {[ "clay" := surface_value name rate 0;
     "grass" := surface_value name rate 1;
     "hard" := surface_value name rate 2 ]}.

(** The player is the home side of a historical match, or its away side:
    the normalised name of the player and that of the side contain one
    another. *)
Definition on_home (name : string) (m : H2HItem) : bool :=
  PyStr.contains (normalize name) (normalize (h_home m))
  || PyStr.contains (normalize (h_home m)) (normalize name).

Definition on_away (name : string) (m : H2HItem) : bool :=
  PyStr.contains (normalize name) (normalize (h_away m))
  || PyStr.contains (normalize (h_away m)) (normalize name).

(** A historical match that involves the player. *)
Definition involves (name : string) (m : H2HItem) : bool :=
  on_home name m || on_away name m.

(** A historical match the player won: the winner is the side the player
    is on, the home side when the name fits both. *)
Definition won (name : string) (m : H2HItem) : bool :=
  if on_home name m then String.eqb (h_winner m) "home"
  else on_away name m && String.eqb (h_winner m) "away".

(** The player's H2H win fraction: the matches won among the matches that
    involve the player; 0.60 when none does. *)
Definition win_fraction (h2h : list H2HItem) (name : string) : Q :=
  let played := List.filter (involves name) h2h in
  match played with
  | [] => 60 # 100
  | _ =>
      inject_Z (Z.of_nat (List.length (List.filter (won name) played)))
      / inject_Z (Z.of_nat (List.length played))
  end.

(** The profile when the tiers are applied to whatever rank is given. *)
Definition profile_as_claimed (h2h : list H2HItem) (name : string) (rank : Z)
    : gmap string Q :=
  profile name (ranking_tier rank (win_fraction h2h name)).

End SurfaceSpec.

(** ** Keys a block writes *)

(** The block [m] leaves the entry under [k] as it was. *)
Definition keeps {A} (k : string) (m : Blk.t A) : Prop :=
  forall out, (m out).1 !! k = out !! k.

Definition form_keys : list string :=
  ["home_form"; "away_form"; "home_form_overall"; "home_form_home";
   "away_form_overall"; "away_form_away"; "form_advantage"; "qualifies"].

Definition ou_keys : list string :=
  ["ou_qualifies"; "ou_recommendation"; "ou_line"; "ou_line_type";
   "ou_h2h_percentage"; "over_odds"; "under_odds"; "btts_qualifies";
   "btts_h2h_percentage"; "btts_yes_odds"; "btts_no_odds"].

Definition scoring_keys : list string :=
  ["advanced_score"; "qualifies"; "score_breakdown"; "favorite"].

(** The sports [detect_sport] tells apart. *)
Definition known_sports : list string :=
  ["football"; "basketball"; "handball"; "volleyball"; "hockey"; "tennis"].

(** ** Sample inputs *)

Definition sample_form_data : PyDict :=
  {[ "home_form_overall" := VForm ["W"; "W"; "W"; "D"; "D"];
     "home_form_home" := VForm [];
     "away_form_overall" := VForm ["L"; "L"; "L"; "L"; "L"];
     "away_form_away" := VForm ["W"; "W"] ]}.


(** Four meetings: three won by "Alcaraz C.", one by "Sinner J.". *)
Definition sample_tennis_h2h : list H2HItem :=
  [ mkItem "01.06.2024" "Alcaraz C." "Sinner J." "2-1" "home";
    mkItem "12.03.2024" "Sinner J." "Alcaraz C." "0-2" "away";
    mkItem "20.10.2023" "Alcaraz C." "Sinner J." "1-2" "away";
    mkItem "05.07.2023" "Alcaraz C." "Sinner J." "2-0" "home" ].

(** A fifth meeting added to these. *)
Definition sample_tennis_five : list H2HItem :=
  (sample_tennis_h2h
   ++ [ mkItem "14.02.2023" "Sinner J." "Alcaraz C." "2-1" "home" ])%list.

(** An analysis with a total score of 0 that names player_b. *)
Definition zero_score_analysis : Tennis.Analysis :=
  Tennis.mkAnalysis
    {[ "total_score" := VFloat 0; "qualifies" := VBool false;
       "breakdown" := VScores [] ]}
    (Some {[ "favorite" := VStr "player_b" ]}).

Definition sample_tennis_env (available : bool) : Tennis.Env :=
  Tennis.mkEnv None (Some 3) (Some 1) (Some "hard") [] [] (None, None)
    (fun _ => None) None (fun _ _ => None)
    available (fun _ => Some zero_score_analysis) (fun _ => "").

(** The values of the O/U entries before any analysis. *)
Definition ou_default_values : list (string * PyVal) :=
  [ ("ou_qualifies", VBool false); ("ou_recommendation", VNone);
    ("ou_line", VNone); ("ou_line_type", VNone);
    ("ou_h2h_percentage", VFloat 0); ("over_odds", VNone);
    ("under_odds", VNone); ("btts_qualifies", VBool false);
    ("btts_h2h_percentage", VFloat 0); ("btts_yes_odds", VNone);
    ("btts_no_odds", VNone) ].

(** The same for tennis, which has no ['ou_recommendation'] entry. *)
Definition tennis_ou_default_values : list (string * PyVal) :=
  [ ("ou_qualifies", VBool false);
    ("ou_line", VNone); ("ou_line_type", VNone);
    ("ou_h2h_percentage", VFloat 0); ("over_odds", VNone);
    ("under_odds", VNone); ("btts_qualifies", VBool false);
    ("btts_h2h_percentage", VFloat 0); ("btts_yes_odds", VNone);
    ("btts_no_odds", VNone) ].

(** [out] holds every entry of [l]. *)
Definition holds_all (out : PyDict) (l : list (string * PyVal)) : Prop :=
  Forall (fun kv => out !! kv.1 = Some kv.2) l.

(** An environment in which no collaborator answers. *)
Definition silent_team_env : Team.Env :=
  Team.mkEnv None None None (None, None) None
    (fun _ _ => None) (fun _ => None) (fun _ => None) (fun _ => "").

Definition alpha_beta (score winner : string) : H2HItem :=
  mkItem "01.01.2024" "Alpha" "Beta" score winner.

(** Five meetings of Alpha and Beta with the given number of Alpha wins,
    the rest won by Beta. *)
Definition alpha_wins (k : nat) : list H2HItem :=
  repeat (alpha_beta "2-1" "home") k ++ repeat (alpha_beta "0-1" "away") (5 - k).

(** ** Binary64 at the threshold *)

(** [cnt / n >= 0.60] on binary64 floats; the literal is the double nearest
    to 0.60. *)
Definition float_qualifies (cnt n : Z) : bool :=
  PrimFloat.leb 0x1.3333333333333p-1%float
    (PrimFloat.div (PrimFloat.of_uint63 (Uint63.of_Z cnt))
                   (PrimFloat.of_uint63 (Uint63.of_Z n))).

(** * The rest of the scraper and the odds client *)

(** ** More Python string operations *)

Module PyText.

(** [s.startswith(p)] *)
Definition startswith (p s : string) : bool := String.prefix p s.

(** What follows the prefix [p] of [s], when [s] starts with [p]. *)
Fixpoint strip_prefix (p s : string) : option string :=
  match p, s with
  | EmptyString, _ => Some s
  | String a p', String b s' => if Ascii.eqb a b then strip_prefix p' s' else None
  | String _ _, EmptyString => None
  end.

(** The leftmost position of [s] at which [here] matches, as [re.search]
    scans: the pattern is tried at each position from the left. *)
Fixpoint search {A} (here : string -> option A) (s : string) : option A :=
  match here s with
  | Some a => Some a
  | None =>
      match s with
      | EmptyString => None
      | String _ t => search here t
      end
  end.

(** The class [[a-zA-Z0-9]]. *)
Definition is_alnum (c : ascii) : bool :=
  let n := N_of_ascii c in
  ((97 <=? n) && (n <=? 122) || (65 <=? n) && (n <=? 90)
   || (48 <=? n) && (n <=? 57))%N.

(** The longest prefix of characters in [[a-zA-Z0-9]], and the rest. *)
Fixpoint span_alnum (s : string) : string * string :=
  match s with
  | EmptyString => (EmptyString, EmptyString)
  | String c t =>
      if is_alnum c
      then let '(g, r) := span_alnum t in (String c g, r)
      else (EmptyString, s)
  end.

Fixpoint all_alnum (s : string) : bool :=
  match s with
  | EmptyString => true
  | String c t => is_alnum c && all_alnum t
  end.

(** [sep.join(l)] *)
Fixpoint join (sep : string) (l : list string) : string :=
  match l with
  | [] => ""
  | [x] => x
  | x :: rest => x ++ sep ++ join sep rest
  end.

(** [s.rstrip('/')] *)
Fixpoint rstrip_slash (s : string) : string :=
  match s with
  | EmptyString => EmptyString
  | String c t =>
      match rstrip_slash t with
      | EmptyString => if Ascii.eqb c "/" then EmptyString else String c EmptyString
      | t' => String c t'
      end
  end.

(** [s.split(c, 1)] for a separator of one character: the part before
    the first [c] and the part after it, or [None] when [c] is not in
    [s] (the list has one element then). *)
Fixpoint split_once (c : ascii) (s : string) : option (string * string) :=
  match s with
  | EmptyString => None
  | String a t =>
      if Ascii.eqb a c then Some (EmptyString, t)
      else match split_once c t with
           | Some (l, r) => Some (String a l, r)
           | None => None
           end
  end.

(** [s.split(c)] for a separator of one character. *)
Fixpoint split (c : ascii) (s : string) : list string :=
  match s with
  | EmptyString => [EmptyString]
  | String a t =>
      if Ascii.eqb a c then EmptyString :: split c t
      else match split c t with
           | x :: rest => String a x :: rest
           | [] => [String a EmptyString]
           end
  end.

(** [s.replace(old, new)] for a non-empty [old]: the occurrences are
    replaced from the left, without overlap. [fuel] bounds the scan and
    the length of [s] is enough. *)
Fixpoint replace_fuel (fuel : nat) (old new s : string) : string :=
  match fuel with
  | O => s
  | S fuel' =>
      match strip_prefix old s with
      | Some rest => new ++ replace_fuel fuel' old new rest
      | None =>
          match s with
          | EmptyString => EmptyString
          | String c t => String c (replace_fuel fuel' old new t)
          end
      end
  end.

Definition replace (old new s : string) : string :=
  replace_fuel (S (String.length s)) old new s.

(** [s.endswith(p)] *)
Fixpoint endswith (p s : string) : bool :=
  String.eqb p s
  || match s with
     | EmptyString => false
     | String _ t => endswith p t
     end.

(** [s.partition(sep)] for a non-empty [sep]: what is before its first
    occurrence and what is after it, or [None] when [sep] is not in [s].
    [s.split(sep)[0]] is the first part, and [s.split(sep)[1]] the first
    part of what follows. *)
Fixpoint partition (sep s : string) : option (string * string) :=
  match strip_prefix sep s with
  | Some rest => Some (EmptyString, rest)
  | None =>
      match s with
      | EmptyString => None
      | String c t =>
          match partition sep t with
          | Some (l, r) => Some (String c l, r)
          | None => None
          end
      end
  end.

(** A literal [p] of lower-case ASCII letters and punctuation matched at
    the head of [s] under [re.IGNORECASE]; what follows the match. Below
    256 a character matches such a letter when its lower case is the
    letter. *)
Fixpoint strip_prefix_ci (p s : string) : option string :=
  match p, s with
  | EmptyString, _ => Some s
  | String a p', String b s' =>
      if Ascii.eqb a (PyStr.lower_char b) then strip_prefix_ci p' s' else None
  | String _ _, EmptyString => None
  end.

(** [re.findall]: the matches from the left, without overlap. [here]
    gives the value of a match at the head of the text and what follows
    the match; the patterns used never match the empty string. [fuel]
    bounds the scan and the length of [s] is enough. *)
Fixpoint findall_fuel {A} (fuel : nat) (here : string -> option (A * string))
    (s : string) : list A :=
  match fuel with
  | O => []
  | S fuel' =>
      match here s with
      | Some (a, rest) => a :: findall_fuel fuel' here rest
      | None =>
          match s with
          | EmptyString => []
          | String _ t => findall_fuel fuel' here t
          end
      end
  end.

Definition findall {A} (here : string -> option (A * string)) (s : string)
    : list A :=
  findall_fuel (S (String.length s)) here s.

(** The double quote. *)
Definition dquote : string := String (ascii_of_N 34) EmptyString.

(** The digits of an [int] literal: digits with single underscores
    between them. [acc] is the value so far, [n] the number of digits. *)
Fixpoint int_body (acc : Z) (n : nat) (s : string) : option (Z * nat) :=
  match s with
  | EmptyString => Some (acc, n)
  | String c t =>
      if PyStr.isdigit c
      then int_body (10 * acc + (Z.of_N (N_of_ascii c) - 48)) (S n) t
      else if Ascii.eqb c "_"
      then match t with
           | String d _ => if PyStr.isdigit d then int_body acc n t else None
           | EmptyString => None
           end
      else None
  end.

(** The white space [int] accepts around a number: tab to carriage
    return and the space, and above 127 the two spaces U+0085 and U+00A0.
    The separators U+001C to U+001F, white space for [str.strip], are not
    among them. *)
Definition int_space (c : ascii) : bool :=
  let n := N_of_ascii c in
  ((9 <=? n) && (n <=? 13) || (n =? 32) || (n =? 133) || (n =? 160))%N.

Fixpoint int_lstrip (s : string) : string :=
  match s with
  | EmptyString => EmptyString
  | String c t => if int_space c then int_lstrip t else s
  end.

Fixpoint int_rstrip (s : string) : string :=
  match s with
  | EmptyString => EmptyString
  | String c t =>
      match int_rstrip t with
      | EmptyString => if int_space c then EmptyString else String c EmptyString
      | t' => String c t'
      end
  end.

(** [int(s)] for a [str]: white space around, an optional sign, digits
    with single underscores between them, at most 4300 digits. [None] is
    the [ValueError]. *)
Definition py_int (s : string) : option Z :=
  let t := int_rstrip (int_lstrip s) in
  let '(sign, body) :=
    match t with
    | String "+" r => (1, r)
    | String "-" r => (-1, r)
    | _ => (1, t)
    end in
  match body with
  | String c _ =>
      if PyStr.isdigit c
      then match int_body 0 0 body with
           | Some (v, n) => if (4300 <? n)%nat then None else Some (sign * v)
           | None => None
           end
      else None
  | EmptyString => None
  end.

End PyText.

(** ** The odds client: [livesport_odds_api_client.py] *)

Module Client.

(** A match of [[?&]mid=([a-zA-Z0-9]+)] at the head of [s]: its group. *)
Definition mid_match_here (s : string) : option string :=
  match s with
  | String c t =>
      if (Ascii.eqb c "?" || Ascii.eqb c "&")%bool
      then match PyText.strip_prefix "mid=" t with
           | Some r =>
               match PyText.span_alnum r with
               | (EmptyString, _) => None
               | (g, _) => Some g
               end
           | None => None
           end
      else None
  | EmptyString => None
  end.

(** A match of [#id/([a-zA-Z0-9]+)] at the head of [s]: its group. *)
Definition hash_match_here (s : string) : option string :=
  match PyText.strip_prefix "#id/" s with
  | Some r =>
      match PyText.span_alnum r with
      | (EmptyString, _) => None
      | (g, _) => Some g
      end
  | None => None
  end.

(** No character of [s] is [?] or [&]. *)
Fixpoint no_query_char (s : string) : bool :=
  match s with
  | EmptyString => true
  | String c t => negb (Ascii.eqb c "?" || Ascii.eqb c "&") && no_query_char t
  end.

(** [extract_event_id_from_url] *)
Definition extract_event_id_from_url (url : string) : option string :=
  match PyText.search mid_match_here url with
  | Some g => Some g
  | None => PyText.search hash_match_here url
  end.

Definition SPORTS_WITHOUT_DRAW : list string :=
  ["volleyball"; "basketball"; "handball"; "hockey"; "tennis"].

Definition BET_TYPES_FOR_NO_DRAW_SPORTS : list string :=
  ["HOME_AWAY"; "MATCH_WINNER"; "HOME_DRAW_AWAY"].

Definition DEFAULT_BET_TYPE : string := "HOME_DRAW_AWAY".

(** The dictionary [sport_patterns], in the order it is written, which is
    the order the loop visits it. *)
Definition sport_patterns : list (string * string) :=
  [ ("siatkowka", "volleyball"); ("volleyball", "volleyball");
    ("koszykowka", "basketball"); ("basketball", "basketball");
    ("pilka-reczna", "handball"); ("handball", "handball");
    ("hokej", "hockey"); ("hockey", "hockey");
    ("tenis", "tennis"); ("tennis", "tennis");
    ("pilka-nozna", "football"); ("football", "football");
    ("soccer", "football") ].

Fixpoint first_pattern (url_lower : string) (l : list (string * string))
    : option string :=
  match l with
  | [] => None
  | (pattern, sport) :: rest =>
      if PyStr.contains pattern url_lower then Some sport
      else first_pattern url_lower rest
  end.

(** [_detect_sport_from_url] *)
Definition _detect_sport_from_url (url : string) : string :=
  default "football" (first_pattern (PyStr.lower url) sport_patterns).

(** What the HTTP request of one bet type brought: the object under
    [data.findPrematchOddsForBookmaker] of a 200 response, each of its
    entries an object (an entry that is [null] is the empty one); [None]
    when the request raised, the status was not 200 or the object is not
    there. *)
Definition OddsData : Type := option (gmap string PyDict).

(** The world outside the client. *)
Record Net : Type := mkNet {
  (** the answer to a request for an event and a bet type *)
  http : string -> string -> OddsData;
  (** [float(v)]; [None] is the [ValueError] or [TypeError] *)
  py_float : PyVal -> option Q;
  (** [str(v)] *)
  py_str : PyVal -> string
}.

(** A [LiveSportOddsAPI] object. *)
Record Api : Type := mkApi {
  bookmaker_id : string;
  bookmaker_names : gmap string string;
  net : Net
}.

(** [LiveSportOddsAPI(bookmaker_id=...)] *)
Definition new (bookmaker_id : string) (net : Net) : Api :=
  mkApi bookmaker_id
    {[ "165" := "Nordic Bet"; "16" := "bet365"; "8" := "Unibet";
       "43" := "William Hill"; "14" := "Bwin"; "24" := "Betfair" ]}
    net.

(** The loop over the keys of one side: the first key whose entry is
    truthy and has a truthy ['value'] gives the price. The outer [None]
    is the exception of [float]. *)
Fixpoint side_odds (api : Api) (odds_data : gmap string PyDict)
    (keys : list string) : option (option Q) :=
  match keys with
  | [] => Some None
  | key :: rest =>
      match odds_data !! key with
      | Some entry =>
          if dict_truthy entry && py_truthy (dget entry "value")
          then match py_float (net api) (dget entry "value") with
               | Some q => Some (Some q)                        (* break *)
               | None => None
               end
          else side_odds api odds_data rest
      | None => side_odds api odds_data rest
      end
  end.

Definition set_odds (key : string) (o : option Q) (result : PyDict) : PyDict :=
  match o with
  | Some q => <[key := VFloat q]> result
  | None => result
  end.

(** [_fetch_odds_with_bet_type]; [None] is Python's [None]. *)
Definition _fetch_odds_with_bet_type (api : Api) (event_id bet_type : string)
    : option PyDict :=
  match http (net api) event_id bet_type with
  | None => None
  | Some odds_data =>
      if bool_decide (odds_data = ∅) then None
      else
        let result : PyDict :=
          {[ "bookmaker_id" := VStr (bookmaker_id api);
             "bookmaker_name" :=
               VStr (default "Nordic Bet" (bookmaker_names api !! bookmaker_id api));
             "source" := VStr "livesport_api";
             "event_id" := VStr event_id;
             "bet_type_used" := VStr bet_type ]} in
        match side_odds api odds_data ["home"; "team1"; "1"] with
        | None => None
        | Some home =>
            let result := set_odds "home_odds" home result in
            match side_odds api odds_data ["draw"] with
            | None => None
            | Some draw =>
                let result := set_odds "draw_odds" draw result in
                match side_odds api odds_data ["away"; "team2"; "2"] with
                | None => None
                | Some away =>
                    let result := set_odds "away_odds" away result in
                    if py_truthy (dget result "home_odds")
                       && py_truthy (dget result "away_odds")
                    then Some result
                    else None
                end
            end
        end
  end.

(** The loop of [get_odds_for_event] over the bet types: the result and
    the bet types requested, in order. *)
Fixpoint try_bet_types (api : Api) (event_id : string) (l : list string)
    : option PyDict * list string :=
  match l with
  | [] => (None, [])
  | bet_type :: rest =>
      match _fetch_odds_with_bet_type api event_id bet_type with
      | Some result =>
          if dict_truthy result then (Some result, [bet_type])
          else let '(r, calls) := try_bet_types api event_id rest in
               (r, bet_type :: calls)
      | None =>
          let '(r, calls) := try_bet_types api event_id rest in
          (r, bet_type :: calls)
      end
  end.

(** [get_odds_for_event] *)
Definition get_odds_for_event (api : Api) (event_id : string)
    (sport : option string) : option PyDict * list string :=
  let bet_types_to_try :=
    match sport with
    | Some s =>
        if PyStr.truthy s && bool_decide (s ∈ SPORTS_WITHOUT_DRAW)
        then BET_TYPES_FOR_NO_DRAW_SPORTS
        else [DEFAULT_BET_TYPE]
    | None => [DEFAULT_BET_TYPE]
    end in
  try_bet_types api event_id bet_types_to_try.

(** [get_odds_from_url] *)
Definition get_odds_from_url (api : Api) (match_url : string)
    (sport : option string) : option PyDict * list string :=
  match extract_event_id_from_url match_url with
  | Some event_id =>
      if PyStr.truthy event_id then
        let sport :=
          if PyStr.otruthy sport then sport
          else Some (_detect_sport_from_url match_url) in
        get_odds_for_event api event_id sport
      else (None, [])
  | None => (None, [])
  end.

(** The result of one URL in [get_odds_for_matches_batch]; [None] is the
    [KeyError] of an entry the result lacks. *)
Definition batch_row (url : string) (odds : PyDict) : option PyDict :=
  home ← odds !! "home_odds";
  draw ← odds !! "draw_odds";
  away ← odds !! "away_odds";
  name ← odds !! "bookmaker_name";
  source ← odds !! "source";
  Some ({[ "match_url" := VStr url; "home_odds" := home; "draw_odds" := draw;
           "away_odds" := away; "bookmaker_name" := name;
           "source" := source ]} : PyDict).

(** The loop of [get_odds_for_matches_batch]: the list of results, or
    [None] when an exception leaves the function (nothing in it catches
    one). *)
Fixpoint batch_loop (api : Api) (match_urls : list string)
    : option (list PyDict) :=
  match match_urls with
  | [] => Some []
  | url :: rest =>
      match (get_odds_from_url api url None).1 with
      | Some odds =>
          if dict_truthy odds then
            row ← batch_row url odds;
            results ← batch_loop api rest;
            Some (row :: results)
          else batch_loop api rest
      | None => batch_loop api rest
      end
  end.

Definition get_odds_for_matches_batch (net : Net) (match_urls : list string)
    (bookmaker_id : string) : option (list PyDict) :=
  batch_loop (new bookmaker_id net) match_urls.

(** The ['line_type'] entry [get_over_under_odds] adds for a sport. *)
Definition line_type_of (sport : string) : option string :=
  if String.eqb sport "football" then Some "goals"
  else if String.eqb sport "basketball" || String.eqb sport "volleyball"
  then Some "points"
  else if String.eqb sport "handball" || String.eqb sport "hockey"
  then Some "goals"
  else if String.eqb sport "tennis" then Some "sets"
  else None.

(** [get_over_under_odds]; [None] is Python's [None]. *)
Definition get_over_under_odds (api : Api) (event_id sport : string)
    : option PyDict :=
  match http (net api) event_id "OVER_UNDER" with
  | None => None
  | Some odds_data =>
      let result : PyDict :=
        {[ "bookmaker_id" := VStr (bookmaker_id api);
           "bookmaker_name" :=
             VStr (default "Nordic Bet" (bookmaker_names api !! bookmaker_id api));
           "source" := VStr "livesport_api";
           "event_id" := VStr event_id ]} in
      match side_odds api odds_data ["over"] with
      | None => None
      | Some over =>
          let result :=
            match over, odds_data !! "over" with
            | Some q, Some entry =>
                <["line" := VStr (py_str (net api) (dget_or entry "line" (VStr "2.5")))]>
                  (<["over_odds" := VFloat q]> result)
            | _, _ => result
            end in
          match side_odds api odds_data ["under"] with
          | None => None
          | Some under =>
              let result := set_odds "under_odds" under result in
              let result :=
                match line_type_of sport with
                | Some t => <["line_type" := VStr t]> result
                | None => result
                end in
              if py_truthy (dget result "over_odds")
                 && py_truthy (dget result "under_odds")
              then Some result
              else None
          end
      end
  end.

(** [get_btts_odds]; [None] is Python's [None]. *)
Definition get_btts_odds (api : Api) (event_id : string) : option PyDict :=
  match http (net api) event_id "BOTH_TEAMS_SCORE" with
  | None => None
  | Some odds_data =>
      match side_odds api odds_data ["yes"] with
      | None => None
      | Some yes =>
          let result := set_odds "btts_yes" yes (∅ : PyDict) in
          match side_odds api odds_data ["no"] with
          | None => None
          | Some no =>
              let result := set_odds "btts_no" no result in
              if py_truthy (dget result "btts_yes")
                 && py_truthy (dget result "btts_no")
              then Some result
              else None
          end
      end
  end.

(** [get_complete_odds] *)
Definition get_complete_odds (api : Api) (event_id sport : string) : PyDict :=
  let result : PyDict := ∅ in
  let result :=
    match (get_odds_for_event api event_id (Some sport)).1 with
    | Some main_odds =>
        if dict_truthy main_odds then main_odds ∪ result else result
    | None => result
    end in
  let result :=
    match get_over_under_odds api event_id sport with
    | Some ou_odds =>
        if dict_truthy ou_odds then
          <["ou_line_type" := dget_or ou_odds "line_type" (VStr "goals")]>
          (<["ou_line" := dget_or ou_odds "line" (VStr "2.5")]>
          (<["under_odds" := dget ou_odds "under_odds"]>
          (<["over_odds" := dget ou_odds "over_odds"]> result)))
        else result
    | None => result
    end in
  if String.eqb sport "football" then
    match get_btts_odds api event_id with
    | Some btts_odds =>
        if dict_truthy btts_odds then
          <["btts_no" := dget btts_odds "btts_no"]>
          (<["btts_yes" := dget btts_odds "btts_yes"]> result)
        else result
    | None => result
    end
  else result.

End Client.

(** [extract_betting_odds_with_api] of the scraper; [available] says that
    the client module can be imported. *)
Definition extract_betting_odds_with_api (available : bool) (net : Client.Net)
    (url sport : string) : PyDict :=
  let api := Client.new "165" net in
  let no_odds : PyDict := {[ "home_odds" := VNone; "away_odds" := VNone ]} in
  if available then
    match (Client.get_odds_from_url api url (Some sport)).1 with
    | Some odds =>
        if dict_truthy odds then
          match odds !! "home_odds", odds !! "away_odds" with
          | Some home, Some away =>
              {[ "home_odds" := home; "away_odds" := away;
                 "draw_odds" := dget odds "draw_odds" ]}
          | _, _ => no_odds                                (* except Exception *)
          end
        else no_odds
    | None => no_odds
    end
  else no_odds.

(** ** [process_match] with the odds client behind it *)

(** A price as [process_match] stores it. *)
Definition as_price (v : PyVal) : option Q :=
  match v with VFloat q => Some q | _ => None end.

(** The environment of [process_match] for [url] when the odds come from
    the client: [extract_betting_odds_with_api(url, sport)] for the two
    prices, and for the over/under block a [LiveSportOddsAPI()], its
    [extract_event_id_from_url], [get_over_under_odds] and
    [get_btts_odds]. *)
Definition client_env (net : Client.Net) (url : string)
    (match_time : option string) (pages : option Form.Pages)
    (legacy_forms : option (list string * list string))
    (analyze_over_under : OUAnalyzer) : Team.Env :=
  let api := Client.new "165" net in
  let odds := extract_betting_odds_with_api true net url (Team.detect_sport url) in
  Team.mkEnv match_time pages legacy_forms
    (as_price (dget odds "home_odds"), as_price (dget odds "away_odds"))
    (Some (Client.extract_event_id_from_url url))
    (fun event_id sport => Some (Client.get_over_under_odds api event_id sport))
    (fun event_id => Some (Client.get_btts_odds api event_id))
    analyze_over_under
    (Client.py_str net).

(** ** The URLs the scraper visits *)

Module Urls.

(** The rewriting of the match URL into the URL of its H2H page, at the
    head of [process_match] ([page] is ["/h2h/ogolem"]) and of
    [process_match_tennis] ([page] is ["/h2h/wszystkie-nawierzchnie"]). *)
Definition h2h_url_of (page url : string) : string :=
  let '(base_url, params) :=
    match PyText.split_once "?" url with
    | Some (b, p) => (b, "?" ++ p)
    | None => (url, "")
    end in
  let base_url := PyText.rstrip_slash base_url in
  let base_url :=
    if PyStr.contains "/szczegoly" base_url
    then PyText.replace "/szczegoly" page base_url
    else if negb (PyStr.contains "/h2h/" base_url)
    then base_url ++ page
    else base_url in
  base_url ++ params.

Definition h2h_url : string -> string := h2h_url_of "/h2h/ogolem".

Definition h2h_url_tennis : string -> string :=
  h2h_url_of "/h2h/wszystkie-nawierzchnie".

(** [base_url] of [extract_advanced_team_form]. *)
Definition form_base_url (match_url : string) : string :=
  let base_url :=
    match PyText.partition "?" match_url with
    | Some (b, _) => b
    | None => match_url
    end in
  let base_url := PyText.rstrip_slash base_url in
  if PyText.endswith "/szczegoly" base_url || PyText.endswith "/szczegoly/" base_url
  then PyText.replace "/szczegoly" "" base_url
  else base_url.

(** [mid] of [extract_advanced_team_form]. *)
Definition form_mid (match_url : string) : string :=
  match PyText.partition "mid=" match_url with
  | Some (_, r) =>
      match PyText.partition "mid=" r with
      | Some (m, _) => m
      | None => r
      end
  | None => ""
  end.

(** The URL of the form page [page]: ["ogolem"], ["u-siebie"] or
    ["na-wyjezdzie"]. *)
Definition form_url (page match_url : string) : string :=
  form_base_url match_url ++ "/h2h/" ++ page ++ "/?mid=" ++ form_mid match_url.

End Urls.

(** ** The form pages: [_extract_form_from_h2h_page] *)

Module FormPage.

(** A form badge: its text and its [title] attribute. *)
Record Badge : Type := mkBadge {
  badge_text : string;
  badge_title : string
}.

(** A loaded H2H page: the badges of each [div.h2h__section], and for
    each H2H row the stripped text of its score element, [None] for a row
    without one. *)
Record Page : Type := mkPage {
  sections : list (list Badge);
  score_texts : list (option string)
}.

Definition badge_symbol (badge : Badge) : option string :=
  let text := PyStr.strip (badge_text badge) in
  let title := badge_title badge in
  if PyStr.contains "Zwyci" title || String.eqb text "Z" then Some "W"
  else if PyStr.contains "Remis" title || String.eqb text "R" then Some "D"
  else if PyStr.contains "Pora" title || String.eqb text "P" then Some "L"
  else None.

(** [temp_form] of one section. *)
Definition temp_form (badges : list Badge) : list string :=
  omap badge_symbol (take 5 badges).

(** The assignment at the end of the loop body over the sections. *)
Definition assign (context : string) (forms : list string * list string)
    (idx : nat) (temp_form : list string) : list string * list string :=
  if String.eqb context "overall" then
    if Nat.eqb idx 0 then (temp_form, snd forms)
    else if Nat.eqb idx 1 then (fst forms, temp_form)
    else forms
  else if String.eqb context "home" then
    if Nat.eqb idx 0 then (temp_form, snd forms) else forms
  else if String.eqb context "away" then
    if Nat.eqb idx 0 then (fst forms, temp_form) else forms
  else forms.

(** [for idx, section in enumerate(h2h_sections[:2])] *)
Definition from_sections (context : string) (sections : list (list Badge))
    : list string * list string :=
  fold_left
    (fun forms '(idx, section) => assign context forms idx (temp_form section))
    (imap pair (take 2 sections)) ([], []).

Definition needs_fallback (context : string) (forms : list string * list string)
    : bool :=
  let not_ (l : list string) := match l with [] => true | _ => false end in
  if String.eqb context "overall" && (not_ (fst forms) || not_ (snd forms)) then true
  else if String.eqb context "home" && not_ (fst forms) then true
  else if String.eqb context "away" && not_ (snd forms) then true
  else false.

(** The body of the fallback loop for one row. *)
Definition fallback_row (context : string) (forms : list string * list string)
    (score_elem : option string) : list string * list string :=
  match score_elem with
  | None => forms
  | Some score_text =>
      if PyStr.contains ":" score_text then
        match PyText.split ":" score_text with
        | [a; b] =>
            match PyText.py_int a, PyText.py_int b with
            | Some home_score, Some away_score =>
                let for_home :=
                  String.eqb context "overall" || String.eqb context "home" in
                let for_away :=
                  String.eqb context "overall" || String.eqb context "away" in
                let add (yes : bool) (symbol : string) (l : list string) :=
                  if yes then (l ++ [symbol])%list else l in
                if home_score >? away_score
                then (add for_home "W" (fst forms), add for_away "L" (snd forms))
                else if away_score >? home_score
                then (add for_home "L" (fst forms), add for_away "W" (snd forms))
                else (add for_home "D" (fst forms), add for_away "D" (snd forms))
            | _, _ => forms                                 (* except: continue *)
            end
        | _ => forms                                        (* except: continue *)
        end
      else forms
  end.

(** [_extract_form_from_h2h_page] on what the driver loaded for the URL;
    [None] when [driver.get] raised. *)
Definition _extract_form_from_h2h_page (page : option Page) (context : string)
    : list string * list string :=
  match page with
  | None => ([], [])
  | Some p =>
      let forms := from_sections context (sections p) in
      let forms :=
        if needs_fallback context forms
        then fold_left (fallback_row context) (take 5 (score_texts p)) forms
        else forms in
      (take 5 (fst forms), take 5 (snd forms))
  end.

(** The three visits of [extract_advanced_team_form]; [driver] gives the
    page loaded for a URL. *)
Definition visits (driver : string -> option Page) (match_url : string)
    : Form.Pages :=
  Form.mkPages
    (_extract_form_from_h2h_page (driver (Urls.form_url "ogolem" match_url)) "overall")
    (_extract_form_from_h2h_page (driver (Urls.form_url "u-siebie" match_url)) "home")
    (_extract_form_from_h2h_page (driver (Urls.form_url "na-wyjezdzie" match_url)) "away").

(** [extract_advanced_team_form] over the driver. *)
Definition extract_advanced_team_form (driver : string -> option Page)
    (match_url : string) : PyDict :=
  Form.extract_advanced_team_form match_url (Some (visits driver match_url)).

End FormPage.

(** ** [process_match] over the form pages *)

(** [env] with another outcome of the old form extraction
    [extract_team_form]. *)
Definition with_legacy_forms (env : Team.Env)
    (forms : option (list string * list string)) : Team.Env :=
  Team.mkEnv (Team.match_time env) (Team.pages env) forms (Team.odds env)
    (Team.event_id env) (Team.over_under_odds env) (Team.btts_odds env)
    (Team.analyze_over_under env) (Team.py_str env).

(** [env] with the form pages read by [_extract_form_from_h2h_page] from
    what [driver] loads. *)
Definition with_form_pages (env : Team.Env)
    (driver : string -> option FormPage.Page) (url : string) : Team.Env :=
  Team.mkEnv (Team.match_time env) (Some (FormPage.visits driver url))
    (Team.legacy_forms env) (Team.odds env) (Team.event_id env)
    (Team.over_under_odds env) (Team.btts_odds env)
    (Team.analyze_over_under env) (Team.py_str env).

(** ** The H2H table: [parse_h2h_from_soup] and [_parse_h2h_rows] *)

Module Parse.

(** A row of the table as the selectors see it. *)
Record Row : Type := mkRow {
  (** the stripped text of the date element, [None] without one *)
  row_date : option string;
  (** for each of the three home selectors in turn, the stripped text of
      the element [select_one] finds, [None] when it finds none *)
  row_home : list (option string);
  row_away : list (option string);
  (** [row.get_text(strip=True)] *)
  row_text : string;
  (** the groups of [(.+?)\s+(?:-|vs|–)\s+(.+?)(?:\d|$)] found in the
      text of the row, [None] without a match *)
  row_teams_match : option (string * string);
  (** the stripped texts of the result spans *)
  row_result_spans : list string
}.

(** [for selector in selectors: el = row.select_one(selector); if el:
    name = el.get_text(strip=True); if name: break] *)
Fixpoint pick (name : option string) (found : list (option string))
    : option string :=
  match found with
  | [] => name
  | None :: rest => pick name rest
  | Some text :: rest =>
      if PyStr.truthy text then Some text else pick (Some text) rest
  end.

(** [winner] from the two goal texts; ['unknown'] when [int] raises. *)
Definition winner_of (goals_home goals_away : string) : string :=
  match PyText.py_int goals_home with
  | Some gh =>
      match PyText.py_int goals_away with
      | Some ga =>
          if gh >? ga then "home" else if ga >? gh then "away" else "draw"
      | None => "unknown"
      end
  | None => "unknown"
  end.

(** The body of the loop of [_parse_h2h_rows]: the dictionary appended,
    [None] when the row is skipped. *)
Definition parse_row (row : Row) : option H2HItem :=
  let date := default "" (row_date row) in
  let home := pick None (row_home row) in
  let away := pick None (row_away row) in
  let '(home, away) :=
    if negb (PyStr.otruthy home) || negb (PyStr.otruthy away) then
      match row_teams_match row with
      | Some (g1, g2) =>
          (if negb (PyStr.otruthy home) then Some (PyStr.strip g1) else home,
           if negb (PyStr.otruthy away) then Some (PyStr.strip g2) else away)
      | None => (home, away)
      end
    else (home, away) in
  let '(score, winner) :=
    match row_result_spans row with
    | goals_home :: goals_away :: _ =>
        (goals_home ++ "-" ++ goals_away, winner_of goals_home goals_away)
    | _ => ("", "unknown")
    end in
  let '(score, winner) :=
    if negb (PyStr.truthy score) then
      match PyStr.score_search (row_text row) with
      | Some (goals_home, goals_away) =>
          (goals_home ++ "-" ++ goals_away, winner_of goals_home goals_away)
      | None => (score, winner)
      end
    else (score, winner) in
  match home, away with
  | Some home, Some away =>
      if PyStr.truthy home && PyStr.truthy away && PyStr.truthy score
      then Some (mkItem date home away score winner)
      else None
  | _, _ => None
  end.

(** [_parse_h2h_rows] *)
Definition _parse_h2h_rows (match_rows : list Row) : list H2HItem :=
  omap parse_row match_rows.

(** A section of the page: its text ([get_text(" ", strip=True)]) and the
    rows each of the four selectors of [parse_h2h_from_soup] finds in
    it. *)
Record Section : Type := mkSection {
  sec_text : string;
  sec_rows_a : list Row;         (* a.h2h__row *)
  sec_rows_div : list Row;       (* div.h2h__row *)
  sec_rows_class : list Row;     (* [class*="h2h__row"] *)
  sec_rows_any : list Row        (* a, div[class*="row"] *)
}.

(** The loaded page: the [div.h2h__section] elements, the [div]s whose
    class matches [h2h], and the rows found in the whole document. *)
Record Soup : Type := mkSoup {
  h2h_sections : list Section;
  h2h_divs : list Section;
  all_h2h_rows : list Row
}.

(** The test that picks the section of the direct meetings. Its second
    keyword, ['bezpośrednie'], holds a character above 255 and so is in no
    text of the model. *)
Definition is_direct (section : Section) : bool :=
  let text := PyStr.lower (sec_text section) in
  PyStr.contains "pojedynki" text || PyStr.contains "head" text.

Definition rows_of (section : Section) : list Row :=
  match sec_rows_a section with
  | _ :: _ => sec_rows_a section
  | [] =>
      match sec_rows_div section with
      | _ :: _ => sec_rows_div section
      | [] =>
          match sec_rows_class section with
          | _ :: _ => sec_rows_class section
          | [] => sec_rows_any section
          end
      end
  end.

(** [parse_h2h_from_soup] *)
Definition parse_h2h_from_soup (soup : Soup) : list H2HItem :=
  let sections :=
    match h2h_sections soup with
    | [] => h2h_divs soup
    | l => l
    end in
  match sections, all_h2h_rows soup with
  | [], _ :: _ => _parse_h2h_rows (take 5 (all_h2h_rows soup))
  | _, _ =>
      let pojedynki_section :=
        match List.find is_direct sections with
        | Some section => Some section
        | None => head sections
        end in
      match pojedynki_section with
      | None => []
      | Some section => _parse_h2h_rows (take 5 (rows_of section))
      end
  end.

End Parse.

(** ** The tennis page: ranking, surface and form *)

Module TennisPage.

(** What the three extractors read from the loaded page. *)
Record Page : Type := mkPage {
  html_source : string;                   (* str(soup) *)
  page_text : string;                     (* soup.get_text() *)
  (** the stripped texts of [a.participant__participantName] *)
  participants : list string;
  (** the class lists of the elements matching [[class*="surface"]] *)
  surface_classes : list (list string);
  (** the stripped texts of [div.form, span.form, [class*="lastMatches"]] *)
  form_indicators : list string
}.

(** *** [extract_player_ranking] *)

(** [(ATP|WTA)] under [re.IGNORECASE] at the head of [s]: the text
    matched and what follows it. *)
Definition tour_here (s : string) : option (string * string) :=
  match s with
  | String a (String b (String c rest)) =>
      let g := String a (String b (String c EmptyString)) in
      if String.eqb (PyStr.lower g) "atp" || String.eqb (PyStr.lower g) "wta"
      then Some (g, rest)
      else None
  | _ => None
  end.

(** A match of ["rank":\["(ATP|WTA)","(\d+)",] under [re.IGNORECASE] at
    the head of [s]: its two groups and what follows the match. The digits
    can only match in full: after a shorter run the next character is a
    digit, not the quote. *)
Definition rank_match_here (s : string) : option ((string * string) * string) :=
  match PyText.strip_prefix_ci
          (PyText.dquote ++ "rank" ++ PyText.dquote ++ ":[" ++ PyText.dquote) s with
  | Some r0 =>
      match tour_here r0 with
      | Some (tour, r1) =>
          match PyText.strip_prefix_ci (PyText.dquote ++ "," ++ PyText.dquote) r1 with
          | Some r2 =>
              let '(digits, r3) := PyStr.span_digits r2 in
              match digits with
              | EmptyString => None
              | _ =>
                  match PyText.strip_prefix_ci (PyText.dquote ++ ",") r3 with
                  | Some r4 => Some ((tour, digits), r4)
                  | None => None
                  end
              end
          | None => None
          end
      | None => None
      end
  | None => None
  end.

(** A match of [(?:ATP|WTA):\s*(\d+)] under [re.IGNORECASE] at the head
    of [s]: its group and what follows the match. *)
Definition text_rank_here (s : string) : option (string * string) :=
  match tour_here s with
  | Some (_, String c r1) =>
      if Ascii.eqb c ":" then
        let '(digits, r2) := PyStr.span_digits (PyStr.lstrip r1) in
        match digits with
        | EmptyString => None
        | _ => Some (digits, r2)
        end
      else None
  | _ => None
  end.

(** The choice between two rankings by the order of the names on the
    page: [Some r] is [return r] ([r] is [None] when [int] raises, which
    the handler of the function turns into [None]), [None] falls
    through. *)
Definition by_name (player_name : string) (participants : list string)
    (first second : string) : option (option Z) :=
  match participants with
  | first_player :: second_player :: _ =>
      let player_normalized := normalize player_name in
      let first_normalized := normalize first_player in
      let second_normalized := normalize second_player in
      if PyStr.contains player_normalized first_normalized
         || PyStr.contains first_normalized player_normalized
      then Some (PyStr.int_of_digits first)
      else if PyStr.contains player_normalized second_normalized
              || PyStr.contains second_normalized player_normalized
      then Some (PyStr.int_of_digits second)
      else None
  | _ => None
  end.

Definition extract_player_ranking (page : Page) (player_name : option string)
    : option Z :=
  match player_name with
  | None => None
  | Some name =>
      if negb (PyStr.truthy name) then None
      else
        let matches := PyText.findall rank_match_here (html_source page) in
        let method1 :=
          match matches with
          | (_, r0) :: (_, r1) :: _ => by_name name (participants page) r0 r1
          | _ => None
          end in
        match method1 with
        | Some r => r
        | None =>
            match matches with
            | [(_, r)] => PyStr.int_of_digits r
            | _ =>
                let atp_wta_rankings :=
                  PyText.findall text_rank_here (page_text page) in
                match atp_wta_rankings with
                | r0 :: r1 :: _ =>
                    match by_name name (participants page) r0 r1 with
                    | Some r => r
                    | None => None
                    end
                | _ => None
                end
            end
        end
  end.

(** *** [detect_tennis_surface] *)

Definition clay_keywords : list string :=
  ["clay"; "ziemia"; "ziemna"; "antuka"; "roland garros"; "french open";
   "monte carlo"; "rome"; "madrid"; "barcelona"; "hamburg";
   "roland-garros"; "glina"].

Definition grass_keywords : list string :=
  ["grass"; "trawa"; "trawiasta"; "wimbledon"; "halle"; "queens";
   "s-hertogenbosch"; "eastbourne"; "mallorca"].

Definition hard_keywords : list string :=
  ["hard"; "twarda"; "us open"; "australian open"; "usopen";
   "australian"; "indian wells"; "miami"; "cincinnati";
   "montreal"; "toronto"; "shanghai"; "beijing"; "paris masters";
   "szanghaj"; "pekin"].

(** [any(kw in text or kw in url_lower for kw in keywords)] *)
Definition any_keyword (keywords : list string) (text url_lower : string) : bool :=
  existsb (fun kw => PyStr.contains kw text || PyStr.contains kw url_lower)
    keywords.

(** The loop over the surface elements: [Some s] is [return s]. *)
Fixpoint surface_of_elements (elements : list (list string)) : option string :=
  match elements with
  | [] => None
  | el :: rest =>
      let classes := PyStr.lower (PyText.join " " el) in
      if PyStr.contains "clay" classes || PyStr.contains "ziemna" classes
      then Some "clay"
      else if PyStr.contains "grass" classes || PyStr.contains "trawiasta" classes
      then Some "grass"
      else if PyStr.contains "hard" classes || PyStr.contains "twarda" classes
      then Some "hard"
      else surface_of_elements rest
  end.

Definition detect_tennis_surface (page : Page) (url : string) : option string :=
  let text := PyStr.lower (page_text page) in
  let url_lower := PyStr.lower url in
  match surface_of_elements (surface_classes page) with
  | Some surface => Some surface
  | None =>
      if any_keyword clay_keywords text url_lower then Some "clay"
      else if any_keyword grass_keywords text url_lower then Some "grass"
      else if any_keyword hard_keywords text url_lower then Some "hard"
      else Some "hard"
  end.

(** *** [extract_player_form_simple] *)

(** A character of [text.upper()] that is in [['W', 'L', 'D']]: below 256
    only the letters w, l and d have these upper cases. *)
Definition form_char (c : ascii) : option string :=
  if (Ascii.eqb c "W" || Ascii.eqb c "w")%bool then Some "W"
  else if (Ascii.eqb c "L" || Ascii.eqb c "l")%bool then Some "L"
  else if (Ascii.eqb c "D" || Ascii.eqb c "d")%bool then Some "D"
  else None.

(** [[c for c in text.upper() if c in ['W', 'L', 'D']]] *)
Fixpoint form_chars (text : string) : list string :=
  match text with
  | EmptyString => []
  | String c t =>
      match form_char c with
      | Some r => r :: form_chars t
      | None => form_chars t
      end
  end.

(** The loop over the form indicators: [Some l] is [return l]. *)
Fixpoint from_indicators (indicators : list string) : option (list string) :=
  match indicators with
  | [] => None
  | text :: rest =>
      let chars := form_chars text in
      if (3 <=? List.length chars)%nat
      then Some (map (fun c => if String.eqb c "D" then "L" else c) (take 5 chars))
      else from_indicators rest
  end.

(** The body of the loop over the H2H rows, before its [break]. *)
Definition form_step (player_normalized : string) (player_form : list string)
    (m : H2HItem) : list string :=
  let home := normalize (h_home m) in
  let away := normalize (h_away m) in
  let winner := h_winner m in
  if PyStr.contains player_normalized home || PyStr.contains home player_normalized
  then
    if String.eqb winner "home" then (player_form ++ ["W"])%list
    else if String.eqb winner "away" then (player_form ++ ["L"])%list
    else player_form
  else if PyStr.contains player_normalized away
          || PyStr.contains away player_normalized
  then
    if String.eqb winner "away" then (player_form ++ ["W"])%list
    else if String.eqb winner "home" then (player_form ++ ["L"])%list
    else player_form
  else player_form.

Fixpoint form_loop (player_normalized : string) (player_form : list string)
    (h2h_matches : list H2HItem) : list string :=
  match h2h_matches with
  | [] => player_form
  | m :: rest =>
      let player_form := form_step player_normalized player_form m in
      if (5 <=? List.length player_form)%nat then player_form     (* break *)
      else form_loop player_normalized player_form rest
  end.

(** The padding to five results by the win rate. *)
Definition pad (player_form : list string) : list string :=
  match player_form with
  | [] => []
  | _ =>
      if (List.length player_form <? 5)%nat then
        let wins := Z.of_nat (count_occ string_dec player_form "W") in
        let losses := Z.of_nat (count_occ string_dec player_form "L") in
        let win_rate :=
          if wins + losses >? 0
          then (inject_Z wins / inject_Z (wins + losses))%Q
          else (1 # 2)%Q in
        (player_form
         ++ repeat (if negb (Qle_bool win_rate (1 # 2)) then "W" else "L")
              (5 - List.length player_form))%list
      else player_form
  end.

Definition default_form : list string := ["W"; "W"; "W"; "L"; "L"].

Definition extract_player_form_simple (page : Page) (player_name : option string)
    (h2h_matches : list H2HItem) : list string :=
  match player_name with
  | None => []
  | Some name =>
      if negb (PyStr.truthy name) then []
      else
        match from_indicators (form_indicators page) with
        | Some form => form
        | None =>
            match h2h_matches with
            | [] => default_form
            | _ =>
                match pad (form_loop (normalize name) [] h2h_matches) with
                | [] => default_form
                | player_form => take 5 player_form
                end
            end
        end
  end.

End TennisPage.

(** What [process_match_tennis] obtains when ranking, surface and form are
    read from the page. *)
Definition with_tennis_page (env : Tennis.Env) (page : TennisPage.Page)
    (url : string) (player_a player_b : option string) (h2h : list H2HItem)
    : Tennis.Env :=
  Tennis.mkEnv (Tennis.match_time env)
    (TennisPage.extract_player_ranking page player_a)
    (TennisPage.extract_player_ranking page player_b)
    (TennisPage.detect_tennis_surface page url)
    (TennisPage.extract_player_form_simple page player_a h2h)
    (TennisPage.extract_player_form_simple page player_b h2h)
    (Tennis.odds env) (Tennis.analyze_over_under env) (Tennis.event_id env)
    (Tennis.over_under_odds env) (Tennis.analyzer_available env)
    (Tennis.analyze_match env) (Tennis.py_str env).

(** ** Collecting the match links *)

Module Links.

(** The dictionary [SPORT_URLS]. *)
Definition SPORT_URLS : gmap string string :=
  {[ "football" := "https://www.livesport.com/pl/pilka-nozna/";
     "soccer" := "https://www.livesport.com/pl/pilka-nozna/";
     "basketball" := "https://www.livesport.com/pl/koszykowka/";
     "volleyball" := "https://www.livesport.com/pl/siatkowka/";
     "handball" := "https://www.livesport.com/pl/pilka-reczna/";
     "rugby" := "https://www.livesport.com/pl/rugby/";
     "hockey" := "https://www.livesport.com/pl/hokej/";
     "ice-hockey" := "https://www.livesport.com/pl/hokej/";
     "tennis" := "https://www.livesport.com/pl/tenis/" ]}.

(** An [<a href=...>] of the page: its [href] and its stripped text. *)
Record Anchor : Type := mkAnchor {
  href : string;
  anchor_text : string
}.

Definition patterns_match : list string :=
  ["/match/"; "/mecz/"; "/#/match/"; "/#id/"].

Definition site : string := "https://www.livesport.com".

(** The filter by league; an empty list of leagues lets every link pass. *)
Definition league_passes (leagues : list string) (link : string) (a : Anchor)
    : bool :=
  match leagues with
  | [] => true
  | _ =>
      existsb (fun league => PyStr.contains (PyStr.lower league) (PyStr.lower link))
        leagues
      || existsb
           (fun league =>
              PyStr.contains (PyStr.lower league) (PyStr.lower (anchor_text a)))
           leagues
  end.

(** The body of the loop over the anchors in [get_match_links_from_day]. *)
Definition anchor_step (sport_url : string) (leagues all_links : list string)
    (sport_links : list string) (a : Anchor) : list string :=
  if existsb (fun pattern => PyStr.contains pattern (href a)) patterns_match then
    let link :=
      if PyText.startswith "/" (href a) then site ++ href a
      else if PyText.startswith "#" (href a) then sport_url ++ href a
      else href a in
    if league_passes leagues link a then
      if bool_decide (link ∉ sport_links) && bool_decide (link ∉ all_links)
      then (sport_links ++ [link])%list
      else sport_links
    else sport_links
  else sport_links.

(** The loop over the sports; [driver] gives the anchors of the page
    loaded for a URL, [None] when loading it raises. *)
Fixpoint sports_loop (driver : string -> option (list Anchor)) (date : string)
    (leagues : list string) (sports : list string) (all_links : list string)
    : list string :=
  match sports with
  | [] => all_links
  | sport :: rest =>
      match SPORT_URLS !! sport with
      | None => sports_loop driver date leagues rest all_links     (* continue *)
      | Some sport_url =>
          match driver (sport_url ++ "?date=" ++ date) with
          | None => sports_loop driver date leagues rest all_links (* except *)
          | Some anchors =>
              let sport_links :=
                fold_left (anchor_step sport_url leagues all_links) anchors [] in
              sports_loop driver date leagues rest (all_links ++ sport_links)%list
          end
      end
  end.

(** [get_match_links_from_day]; a missing list of sports or leagues is the
    empty list. *)
Definition get_match_links_from_day (driver : string -> option (list Anchor))
    (date : string) (sports leagues : list string) : list string :=
  let sports := match sports with [] => ["football"] | _ => sports end in
  sports_loop driver date leagues sports [].

(** The body of the loop over the anchors in [get_match_links_advanced]. *)
Definition advanced_step (all_links : list string) (a : Anchor) : list string :=
  if existsb (fun p => PyStr.contains p (href a)) ["/match/"; "/mecz/"] then
    let link :=
      if PyText.startswith "/" (href a) then site ++ href a else href a in
    if bool_decide (link ∉ all_links) then (all_links ++ [link])%list
    else all_links
  else all_links.

Fixpoint advanced_loop (driver : string -> option (list Anchor)) (date : string)
    (sports : list string) (all_links : list string) : list string :=
  match sports with
  | [] => all_links
  | sport :: rest =>
      match SPORT_URLS !! sport with
      | None => advanced_loop driver date rest all_links
      | Some base_url =>
          match driver (base_url ++ "?date=" ++ date) with
          | None => advanced_loop driver date rest all_links
          | Some anchors =>
              advanced_loop driver date rest
                (fold_left advanced_step anchors all_links)
          end
      end
  end.

(** [get_match_links_advanced] *)
Definition get_match_links_advanced (driver : string -> option (list Anchor))
    (date : string) (sports : list string) : list string :=
  let sports := match sports with [] => ["football"] | _ => sports end in
  advanced_loop driver date sports [].

End Links.

(** ** Notions the properties below are stated with *)

(** The symbols of a form list. *)
Definition result_symbols : list string := ["W"; "D"; "L"].

(** A form list: at most five results. *)
Definition is_form (l : list string) : Prop :=
  (List.length l <= 5)%nat /\ Forall (fun s => s ∈ result_symbols) l.

(** What the two loops of [_extract_form_from_h2h_page] maintain. *)
Definition form_page_invariant (context : string)
    (forms : list string * list string) : Prop :=
  Forall (fun s => s ∈ result_symbols) forms.1
  /\ Forall (fun s => s ∈ result_symbols) forms.2
  /\ (context = "home" -> forms.2 = [])
  /\ (context = "away" -> forms.1 = [])
  /\ (context ∉ ["overall"; "home"; "away"] -> forms = ([], [])).

(** The tags [_parse_h2h_rows] gives a row. *)
Definition winner_tags : list string := ["home"; "away"; "draw"; "unknown"].

(** The tag for two numbers of goals. *)
Definition tag_of (gh ga : Z) : string :=
  if gh >? ga then "home" else if ga >? gh then "away" else "draw".

(** A link to a match: an address that is not relative to the site or to
    the page. *)
Definition is_match_link (patterns : list string) (link : string) : Prop :=
  (exists pattern, pattern ∈ patterns /\ PyStr.contains pattern link = true)
  /\ PyText.startswith "/" link = false
  /\ PyText.startswith "#" link = false.

(** ** Sample inputs for the odds client *)

(** [float] on the values that are numbers already. *)
Definition sample_float (v : PyVal) : option Q :=
  match v with
  | VFloat q => Some q
  | VInt z => Some (inject_Z z)
  | _ => None
  end.

(** A bookmaker that quotes 1.85 / 2.10 on the bet type HOME_AWAY only,
    without a draw. *)
Definition sample_net : Client.Net :=
  Client.mkNet
    (fun _ bet_type =>
       if String.eqb bet_type "HOME_AWAY"
       then Some {[ "home" := ({[ "value" := VFloat (185 # 100) ]} : PyDict);
                    "away" := ({[ "value" := VFloat (210 # 100) ]} : PyDict) ]}
       else None)
    sample_float
    (fun _ => "2.5").

Definition sample_url : string :=
  "https://www.livesport.com/pl/mecz/siatkowka/a/b/?mid=KQAaF7d2".

(** What the sample bookmaker answers for HOME_AWAY. *)
Definition sample_fetched : PyDict :=
  default ∅
    (Client._fetch_odds_with_bet_type (Client.new "165" sample_net)
       "KQAaF7d2" "HOME_AWAY").

(** A bookmaker that quotes 1.90 / 1.95 on the line 2.5 for OVER_UNDER. *)
Definition sample_ou_net : Client.Net :=
  Client.mkNet
    (fun _ bet_type =>
       if String.eqb bet_type "OVER_UNDER"
       then Some {[ "over" := ({[ "value" := VFloat (190 # 100);
                                  "line" := VStr "2.5" ]} : PyDict);
                    "under" := ({[ "value" := VFloat (195 # 100) ]} : PyDict) ]}
       else None)
    sample_float
    (fun v => match v with VStr s => s | _ => "2.5" end).

Definition sample_ou_fetched : PyDict :=
  default ∅
    (Client.get_over_under_odds (Client.new "165" sample_ou_net)
       "KQAaF7d2" "football").

(** A tennis page that embeds one ranking only. *)
Definition sample_tennis_page : TennisPage.Page :=
  TennisPage.mkPage
    ("{" ++ PyText.dquote ++ "rank" ++ PyText.dquote ++ ":[" ++ PyText.dquote
     ++ "ATP" ++ PyText.dquote ++ "," ++ PyText.dquote ++ "13" ++ PyText.dquote
     ++ "," ++ PyText.dquote ++ "x" ++ PyText.dquote ++ "]}")
    "Alcaraz C. - Sinner J. Roland Garros"
    ["Alcaraz C."; "Sinner J."]
    []
    [].

(** * Properties *)

(** *** Blocks and the keys they write *)

Lemma keeps_ret {A} k (a : A) : keeps k (Blk.ret a).
Proof. intros out. reflexivity. Qed.

Lemma keeps_raise {A} k : keeps k (@Blk.raise A).
Proof. intros out. reflexivity. Qed.

Lemma keeps_get {A} k (o : option A) : keeps k (Blk.get o).
Proof. destruct o; intros out; reflexivity. Qed.

Lemma keeps_set k key v : key <> k -> keeps k (Blk.set key v).
Proof. intros Hne out. cbn. by rewrite lookup_insert_ne. Qed.

Lemma keeps_bind {A B} k (m : Blk.t A) (f : A -> Blk.t B) :
  keeps k m -> (forall a, keeps k (f a)) -> keeps k (Blk.bind m f).
Proof.
  intros Hm Hf out. unfold Blk.bind. specialize (Hm out).
  destruct (m out) as [out' [a|]]; cbn in *; [|done].
  by rewrite Hf.
Qed.

Lemma keeps_try k (body handler : Blk.t unit) :
  keeps k body -> keeps k handler -> keeps k (Blk.try_except body handler).
Proof.
  intros Hb Hh out. unfold Blk.try_except. specialize (Hb out).
  destruct (body out) as [out' [[]|]]; cbn in *; [done|].
  by rewrite Hh.
Qed.

Lemma keeps_if {A} k (b : bool) (m1 m2 : Blk.t A) :
  keeps k m1 -> keeps k m2 -> keeps k (if b then m1 else m2).
Proof. by destruct b. Qed.

Create HintDb blk discriminated.
#[local] Hint Resolve keeps_ret keeps_raise keeps_get keeps_set keeps_try keeps_if : blk.
#[local] Hint Extern 2 (keeps _ (Blk.bind _ _)) => apply keeps_bind; [|intros] : blk.
#[local] Hint Extern 1 (_ <> _) => discriminate : blk.

Ltac split_notin H :=
  repeat (apply not_elem_of_cons in H; destruct H as [? H]).

Lemma form_stage_keeps env url focus b k :
  k ∉ form_keys -> keeps k (Team.form_stage env url focus b).
Proof.
  intros H. unfold form_keys in H. split_notin H.
  unfold Team.form_stage, Team.form_try, Team.form_except.
  destruct (Team.legacy_forms env) as [[? ?]|]; auto 40 with blk.
Qed.

Lemma form_try_qualifies adv focus b out out' :
  Team.form_try adv focus b out = (out', Some tt) ->
  out' !! "qualifies" = Some (VBool b).
Proof.
  unfold Team.form_try, Blk.bind, Blk.get, Blk.set, Blk.ret, Blk.raise.
  intros H.
  repeat (case_match; simplify_eq/=; try done); by simplify_map_eq.
Qed.

Lemma form_except_qualifies env b out :
  (Team.form_except env b out).1 !! "qualifies" = Some (VBool b).
Proof.
  unfold Team.form_except, Blk.bind, Blk.set, Blk.ret.
  destruct (Team.legacy_forms env) as [[? ?]|]; cbn; by simplify_map_eq.
Qed.

Lemma form_stage_qualifies env url focus b out :
  Blk.exec (Team.form_stage env url focus b) out !! "qualifies" = Some (VBool b).
Proof.
  unfold Blk.exec, Team.form_stage.
  unfold Blk.bind at 1 2 3 4 5 6 7. cbn [Blk.set].
  destruct b.
  - unfold Blk.try_except.
    match goal with |- context [Team.form_try ?a ?f ?b ?o] =>
      destruct (Team.form_try a f b o) as [out' [[]|]] eqn:E end.
    + cbn. eapply form_try_qualifies; eauto.
    + apply form_except_qualifies.
  - cbn. by simplify_map_eq.
Qed.

Ltac keep_lookup := repeat (rewrite lookup_insert_ne; [|done]); try reflexivity.

(** Reads an entry through a chain of writes to other keys. *)
Ltac read_entry :=
  repeat (rewrite lookup_insert_ne by done);
  first [apply lookup_insert_eq | apply lookup_singleton_eq | reflexivity].

Lemma ou_defaults_keeps k out :
  k ∉ ou_keys -> Team.ou_defaults out !! k = out !! k.
Proof.
  intros H. unfold ou_keys in H. split_notin H.
  unfold Team.ou_defaults. keep_lookup.
Qed.

Lemma fetch_ou_odds_keeps env url sport n k out :
  k ∉ ou_keys -> (Team.fetch_ou_odds env url sport n out).1 !! k = out !! k.
Proof.
  intros H. unfold ou_keys in H. split_notin H.
  unfold Team.fetch_ou_odds.
  repeat (case_match; simplify_eq/=; try done); keep_lookup.
Qed.

Lemma run_ou_analysis_keeps env sport h2h api_line k out :
  k ∉ ou_keys -> (Team.run_ou_analysis env sport h2h api_line out).1 !! k = out !! k.
Proof.
  intros H. unfold ou_keys in H. split_notin H.
  unfold Team.run_ou_analysis.
  repeat (case_match; simplify_eq/=; try done); keep_lookup.
Qed.

Ltac notin_keys :=
  repeat (apply not_elem_of_cons; split; [done|]); apply not_elem_of_nil.

Lemma process_match_verdict env url home_team away_team h2h away_team_focus :
  let out := (Team.process_match env url home_team away_team h2h away_team_focus).1 in
  let cnt := Team.count_wins home_team away_team h2h in
  let n := Z.of_nat (length h2h) in
  let win_rate := Team.win_rate_of (if away_team_focus then cnt.2 else cnt.1) n in
  out !! "home_wins_in_h2h_last5" = Some (VInt cnt.1)
  /\ out !! "away_wins_in_h2h_last5" = Some (VInt cnt.2)
  /\ out !! "h2h_count" = Some (VInt n)
  /\ out !! "win_rate" = Some (VFloat win_rate)
  /\ out !! "qualifies" = Some (VBool (Team.basic_qualifies_of win_rate n)).
Proof.
  cbv zeta. unfold Team.process_match.
  destruct (Team.count_wins home_team away_team h2h) as [cnt_home cnt_away].
  match goal with |- context [Team.fetch_ou_odds ?e ?u ?s ?n ?o] =>
    pose proof (fun k => fetch_ou_odds_keeps e u s n k o) as Hfetch;
    destruct (Team.fetch_ou_odds e u s n o) as [out1 api_line] end.
  cbn [fst snd] in *.
  repeat split.
  all: rewrite run_ou_analysis_keeps, Hfetch, ou_defaults_keeps
         by (unfold ou_keys, form_keys; notin_keys).
  all: rewrite !(lookup_insert_ne _ "away_odds"), !(lookup_insert_ne _ "home_odds") by done.
  5: apply form_stage_qualifies.
  all: unfold Blk.exec; rewrite form_stage_keeps
         by (unfold ou_keys, form_keys; notin_keys).
  all: read_entry.
Qed.

Section TeamCounting.
Variables current_home current_away : option string.

Lemma count_try_step cnt item cnt' :
  Team.count_try current_home current_away cnt item = Some cnt' ->
  (cnt.1 <= cnt'.1 <= cnt.1 + 1) /\ (cnt.2 <= cnt'.2 <= cnt.2 + 1).
Proof.
  unfold Team.count_try. intros H.
  repeat (case_match; simplify_eq/=; try lia).
Qed.

Lemma count_except_step cnt item :
  let cnt' := Team.count_except current_home current_away cnt item in
  (cnt.1 <= cnt'.1 <= cnt.1 + 1) /\ (cnt.2 <= cnt'.2 <= cnt.2 + 1).
Proof.
  unfold Team.count_except. repeat (case_match; simplify_eq/=; try lia).
Qed.

Lemma count_item_step cnt item :
  let cnt' := Team.count_item current_home current_away cnt item in
  (cnt.1 <= cnt'.1 <= cnt.1 + 1) /\ (cnt.2 <= cnt'.2 <= cnt.2 + 1).
Proof.
  unfold Team.count_item.
  destruct (Team.count_try current_home current_away cnt item) eqn:E.
  - by apply count_try_step in E.
  - apply count_except_step.
Qed.

Lemma count_fold_bounds h2h : forall cnt,
  let r := fold_left (Team.count_item current_home current_away) h2h cnt in
  (cnt.1 <= r.1 <= cnt.1 + Z.of_nat (length h2h))
  /\ (cnt.2 <= r.2 <= cnt.2 + Z.of_nat (length h2h)).
Proof.
  induction h2h as [|item rest IH]; intros cnt; cbn [fold_left length].
  - lia.
  - pose proof (count_item_step cnt item) as Hs.
    specialize (IH (Team.count_item current_home current_away cnt item)).
    cbv zeta in *. lia.
Qed.

Lemma count_wins_bounds h2h :
  let r := Team.count_wins current_home current_away h2h in
  (0 <= r.1 <= Z.of_nat (length h2h)) /\ (0 <= r.2 <= Z.of_nat (length h2h)).
Proof. apply (count_fold_bounds h2h (0, 0)). Qed.

End TeamCounting.

Lemma win_rate_of_range cnt n :
  0 <= cnt <= n -> (0 <= Team.win_rate_of cnt n <= 1)%Q.
Proof.
  intros H. unfold Team.win_rate_of.
  destruct (Z.gtb_spec n 0) as [Hn|Hn].
  - destruct n as [|p|p]; try lia.
    unfold Qle, Qdiv, Qmult, Qinv, inject_Z; cbn. lia.
  - unfold Qle; cbn; lia.
Qed.

Lemma win_rate_of_eq cnt n :
  n > 0 -> (Team.win_rate_of cnt n == inject_Z cnt / inject_Z n)%Q.
Proof.
  intros H. unfold Team.win_rate_of.
  destruct (Z.gtb_spec n 0); [reflexivity | lia].
Qed.

Lemma basic_qualifies_iff win_rate n :
  Team.basic_qualifies_of win_rate n = true <-> (60 # 100 <= win_rate)%Q /\ 1 <= n.
Proof.
  unfold Team.basic_qualifies_of.
  rewrite andb_true_iff, Qle_bool_iff, Z.geb_le. reflexivity.
Qed.

(** C1: in both focus modes the verdict's [qualifies] entry is true exactly
    when [win_rate >= 0.60] and [h2h_count >= 1], where [win_rate] is the
    focus side's wins over [h2h_count]; with five rows, three wins give rate
    0.60 and qualify, two wins give 0.40 and do not. *)
Theorem qualifies_iff_threshold :
  forall env url home_team away_team h2h away_team_focus,
    let out := (Team.process_match env url home_team away_team h2h away_team_focus).1 in
    exists (wins_home wins_away h2h_count : Z) (win_rate : Q) (qualifies : bool),
      out !! "home_wins_in_h2h_last5" = Some (VInt wins_home)
      /\ out !! "away_wins_in_h2h_last5" = Some (VInt wins_away)
      /\ out !! "h2h_count" = Some (VInt h2h_count)
      /\ out !! "win_rate" = Some (VFloat win_rate)
      /\ out !! "qualifies" = Some (VBool qualifies)
      /\ h2h_count = Z.of_nat (length h2h)
      /\ let wins := if away_team_focus then wins_away else wins_home in
         (h2h_count > 0 -> (win_rate == inject_Z wins / inject_Z h2h_count)%Q)
         /\ (qualifies = true <-> (60 # 100 <= win_rate)%Q /\ 1 <= h2h_count)
         /\ (h2h_count = 5 -> wins = 3 -> (win_rate == 60 # 100)%Q /\ qualifies = true)
         /\ (h2h_count = 5 -> wins = 2 -> (win_rate == 40 # 100)%Q /\ qualifies = false).
Proof.
  intros env url home_team away_team h2h away_team_focus out.
  destruct (process_match_verdict env url home_team away_team h2h away_team_focus)
    as (Hh & Ha & Hn & Hw & Hq).
  fold out in Hh, Ha, Hn, Hw, Hq.
  set (cnt := Team.count_wins home_team away_team h2h) in *.
  set (n := Z.of_nat (length h2h)) in *.
  set (wins := if away_team_focus then cnt.2 else cnt.1) in *.
  exists cnt.1, cnt.2, n, (Team.win_rate_of wins n),
    (Team.basic_qualifies_of (Team.win_rate_of wins n) n).
  repeat (split; [assumption || reflexivity|]).
  fold wins. cbv zeta.
  split; [apply win_rate_of_eq|].
  split; [apply basic_qualifies_iff|].
  split; intros -> ->; split; reflexivity.
Qed.

(** C2: with an empty history [win_rate] is 0.0 and [qualifies] is false;
    with a non-empty one [win_rate] lies in [0, 1], because neither side's
    win count exceeds [h2h_count], even when a row is credited to both
    sides. *)
Theorem win_rate_within_unit_interval :
  forall env url home_team away_team h2h away_team_focus,
    let out := (Team.process_match env url home_team away_team h2h away_team_focus).1 in
    exists (wins_home wins_away h2h_count : Z) (win_rate : Q) (qualifies : bool),
      out !! "home_wins_in_h2h_last5" = Some (VInt wins_home)
      /\ out !! "away_wins_in_h2h_last5" = Some (VInt wins_away)
      /\ out !! "h2h_count" = Some (VInt h2h_count)
      /\ out !! "win_rate" = Some (VFloat win_rate)
      /\ out !! "qualifies" = Some (VBool qualifies)
      /\ h2h_count = Z.of_nat (length h2h)
      /\ 0 <= wins_home <= h2h_count
      /\ 0 <= wins_away <= h2h_count
      /\ (h2h = [] -> win_rate = 0%Q /\ qualifies = false)
      /\ (h2h <> [] -> (0 <= win_rate <= 1)%Q).
Proof.
  intros env url home_team away_team h2h away_team_focus out.
  destruct (process_match_verdict env url home_team away_team h2h away_team_focus)
    as (Hh & Ha & Hn & Hw & Hq).
  fold out in Hh, Ha, Hn, Hw, Hq.
  destruct (count_wins_bounds home_team away_team h2h) as [Bh Ba].
  cbv zeta in Bh, Ba.
  set (cnt := Team.count_wins home_team away_team h2h) in *.
  set (n := Z.of_nat (length h2h)) in *.
  set (wins := if away_team_focus then cnt.2 else cnt.1) in *.
  exists cnt.1, cnt.2, n, (Team.win_rate_of wins n),
    (Team.basic_qualifies_of (Team.win_rate_of wins n) n).
  repeat (split; [assumption || reflexivity|]).
  split.
  - intros ->. subst n. split; reflexivity.
  - intros _. apply win_rate_of_range. subst wins. destruct away_team_focus; lia.
Qed.

(** C8: with the current names "Real Madrid" and "Real Madrid B", one of
    which contains the other, a single decided row increments both
    [cnt_home] and [cnt_away], and the verdict reports both counts as they
    are. *)
Theorem substring_names_double_count :
  let current_home := "Real Madrid" in
  let current_away := "Real Madrid B" in
  let h2h := [mkItem "12.03.2024" "Real Madrid" "Getafe" "2-0" "home"] in
  PyStr.contains (normalize current_home) (normalize current_away) = true
  /\ Team.count_wins (Some current_home) (Some current_away) [] = (0, 0)
  /\ Team.count_wins (Some current_home) (Some current_away) h2h = (1, 1)
  /\ forall env url away_team_focus,
       let out := (Team.process_match env url (Some current_home) (Some current_away)
                     h2h away_team_focus).1 in
       out !! "home_wins_in_h2h_last5" = Some (VInt 1)
       /\ out !! "away_wins_in_h2h_last5" = Some (VInt 1)
       /\ out !! "h2h_count" = Some (VInt 1).
Proof.
  cbv zeta. split; [reflexivity|]. split; [reflexivity|].
  split; [vm_compute; reflexivity|].
  intros env url away_team_focus.
  destruct (process_match_verdict env url (Some "Real Madrid") (Some "Real Madrid B")
              [mkItem "12.03.2024" "Real Madrid" "Getafe" "2-0" "home"] away_team_focus)
    as (Hh & Ha & Hn & _ & _).
  change (Team.count_wins (Some "Real Madrid") (Some "Real Madrid B")
            [mkItem "12.03.2024" "Real Madrid" "Getafe" "2-0" "home"])
    with (1, 1) in Hh, Ha.
  auto.
Qed.

(** *** Form points and form advantage *)

Lemma form_points_fold form_list : forall acc,
  fold_left
    (fun points result =>
       if String.eqb result "W" then points + 3
       else if String.eqb result "D" then points + 1
       else points)
    form_list acc
  = acc + 3 * Z.of_nat (count_occ string_dec form_list "W")
    + Z.of_nat (count_occ string_dec form_list "D").
Proof.
  induction form_list as [|r rest IH]; intros acc; cbn [fold_left count_occ].
  - lia.
  - rewrite IH.
    destruct (String.eqb_spec r "W") as [->|HW].
    + destruct (string_dec "W" "W"); [|done].
      destruct (string_dec "W" "D"); [done|]. lia.
    + destruct (string_dec r "W"); [done|].
      destruct (String.eqb_spec r "D") as [->|HD].
      * destruct (string_dec "D" "D"); [|done]. lia.
      * destruct (string_dec r "D"); [done|]. lia.
Qed.

Lemma form_points_count form_list :
  Form.form_points form_list
  = 3 * Z.of_nat (count_occ string_dec form_list "W")
    + Z.of_nat (count_occ string_dec form_list "D").
Proof. unfold Form.form_points. rewrite form_points_fold. lia. Qed.

(** C3: form points are 3 per 'W' plus 1 per 'D' ('L' adds nothing); the
    home advantage holds exactly when (home overall >= 7 and away overall
    <= 6) or (home overall > away overall and home at home > away away), and
    the away advantage is the mirror rule. *)
Theorem form_points_and_advantage_rules :
  (forall form_list,
     Form.form_points form_list
     = 3 * Z.of_nat (count_occ string_dec form_list "W")
       + 1 * Z.of_nat (count_occ string_dec form_list "D")
       + 0 * Z.of_nat (count_occ string_dec form_list "L"))
  /\ (forall form_data home_overall away_overall home_home away_away,
        form_data !! "home_form_overall" = Some (VForm home_overall) ->
        form_data !! "away_form_overall" = Some (VForm away_overall) ->
        form_data !! "home_form_home" = Some (VForm home_home) ->
        form_data !! "away_form_away" = Some (VForm away_away) ->
        let home_overall_pts := Form.form_points home_overall in
        let away_overall_pts := Form.form_points away_overall in
        let home_home_pts := Form.form_points home_home in
        let away_away_pts := Form.form_points away_away in
        (Form._analyze_form_advantage form_data = true <->
           (home_overall_pts >= 7 /\ away_overall_pts <= 6)
           \/ (home_overall_pts > away_overall_pts /\ home_home_pts > away_away_pts))
        /\ (Form._analyze_away_form_advantage form_data = true <->
              (away_overall_pts >= 7 /\ home_overall_pts <= 6)
              \/ (away_overall_pts > home_overall_pts /\ away_away_pts > home_home_pts))).
Proof.
  split.
  - intros form_list. rewrite form_points_count. lia.
  - intros form_data ho ao hh aa Hho Hao Hhh Haa. cbv zeta.
    unfold Form._analyze_form_advantage, Form._analyze_away_form_advantage,
      Form.form_at.
    rewrite Hho, Hao, Hhh, Haa.
    rewrite !orb_true_iff, !andb_true_iff.
    rewrite !Z.geb_le, !Z.leb_le, !Z.gtb_lt. split; lia.
Qed.

Lemma form_points_and_advantage_rules_witness :
  Form.form_points ["W"; "W"; "W"; "D"; "D"] = 11
  /\ Form._analyze_form_advantage sample_form_data = true.
Proof.
  split.
  - rewrite (proj1 form_points_and_advantage_rules). reflexivity.
  - apply (proj2 form_points_and_advantage_rules sample_form_data
             ["W"; "W"; "W"; "D"; "D"] ["L"; "L"; "L"; "L"; "L"] [] ["W"; "W"]);
      [reflexivity .. |].
    left. vm_compute. split; discriminate.
Defined.

(** *** The score pattern *)

(** The groups of a match are non-empty strings of digits, so [int]
    reads them as numbers that are not negative. *)
Lemma span_digits_all_digits s : PyStr.all_digits (PyStr.span_digits s).1 = true.
Proof.
  induction s as [|c t IH]; cbn; [reflexivity|].
  destruct (PyStr.isdigit c) eqn:E; [|reflexivity].
  destruct (PyStr.span_digits t) as [d r]. cbn in *. by rewrite E, IH.
Qed.

Lemma score_match_here_groups s g1 g2 :
  PyStr.score_match_here s = Some (g1, g2) ->
  g1 <> "" /\ g2 <> "" /\ PyStr.all_digits g1 = true /\ PyStr.all_digits g2 = true.
Proof.
  unfold PyStr.score_match_here.
  pose proof (span_digits_all_digits s) as H1.
  destruct (PyStr.span_digits s) as [d1 r1]. cbn [fst] in H1.
  destruct d1 as [|c1 d1]; [discriminate|].
  destruct (PyStr.lstrip r1) as [|c r2]; [discriminate|].
  destruct (_ || _)%bool; [|discriminate].
  pose proof (span_digits_all_digits (PyStr.lstrip r2)) as H2.
  destruct (PyStr.span_digits (PyStr.lstrip r2)) as [d2 r3]. cbn [fst] in H2.
  destruct d2 as [|c2 d2]; [discriminate|].
  intros [= <- <-]. auto.
Qed.

Lemma score_search_groups s : forall g1 g2,
  PyStr.score_search s = Some (g1, g2) ->
  g1 <> "" /\ g2 <> "" /\ PyStr.all_digits g1 = true /\ PyStr.all_digits g2 = true.
Proof.
  induction s as [|c t IH]; intros g1 g2; cbn [PyStr.score_search].
  - destruct (PyStr.score_match_here "") as [[a b]|] eqn:E; [|discriminate].
    intros [= <- <-]. by apply score_match_here_groups in E.
  - destruct (PyStr.score_match_here (String c t)) as [[a b]|] eqn:E.
    + intros [= <- <-]. by apply score_match_here_groups in E.
    + apply IH.
Qed.

Lemma digits_value_nonneg d : forall acc,
  PyStr.all_digits d = true -> 0 <= acc -> 0 <= PyStr.digits_value acc d.
Proof.
  induction d as [|c t IH]; intros acc Hd Hacc; cbn in *; [assumption|].
  apply andb_true_iff in Hd as [Hc Ht]. apply IH; [assumption|].
  unfold PyStr.isdigit in Hc. apply andb_true_iff in Hc as [Hlo Hhi].
  apply N.leb_le in Hlo. lia.
Qed.


(** The entries [extract_advanced_team_form] stores follow the two rules. *)
Lemma advanced_form_advantage_entries url p :
  PyStr.contains "/match/" url || PyStr.contains "/mecz/" url = true ->
  let result := Form.extract_advanced_team_form url (Some p) in
  let home_overall := Form.form_points (Form.overall p).1 in
  let away_overall := Form.form_points (Form.overall p).2 in
  let home_home := Form.form_points (Form.at_home p).1 in
  let away_away := Form.form_points (Form.at_away p).2 in
  result !! "form_advantage"
  = Some (VBool ((home_overall >=? 7) && (away_overall <=? 6)
                 || (home_overall >? away_overall) && (home_home >? away_away)))
  /\ result !! "away_advantage"
     = Some (VBool ((away_overall >=? 7) && (home_overall <=? 6)
                    || (away_overall >? home_overall) && (away_away >? home_home))).
Proof.
  intros Hurl. cbv zeta. unfold Form.extract_advanced_team_form. rewrite Hurl.
  split.
  - rewrite lookup_insert_ne by done. rewrite lookup_insert_eq.
    unfold Form._analyze_form_advantage, Form.form_at, Form.empty_result.
    repeat (rewrite ?lookup_insert_eq, ?lookup_insert_ne by done; cbn [fst snd]).
    reflexivity.
  - rewrite lookup_insert_eq.
    unfold Form._analyze_away_form_advantage, Form.form_at, Form.empty_result.
    repeat (rewrite ?lookup_insert_eq, ?lookup_insert_ne by done; cbn [fst snd]).
    reflexivity.
Qed.

Example form_points_examples :
  Form.form_points ["W"; "W"; "W"; "W"; "W"] = 15
  /\ Form.form_points [] = 0
  /\ Form.form_points ["D"; "D"; "D"] = 3
  /\ Form.form_points ["L"; "W"; "L"; "D"; "L"] = 4.
Proof. repeat split. Qed.

Lemma clear_gap_gives_home_advantage home_home away_away :
  Form._analyze_form_advantage
    {[ "home_form_overall" := VForm ["W"; "W"; "W"; "D"; "D"];
       "away_form_overall" := VForm ["L"; "L"; "L"; "L"; "L"];
       "home_form_home" := VForm home_home;
       "away_form_away" := VForm away_away ]} = true.
Proof.
  unfold Form._analyze_form_advantage, Form.form_at.
  repeat (rewrite ?lookup_insert_eq, ?lookup_insert_ne by done).
  rewrite lookup_singleton_eq. reflexivity.
Qed.

Lemma rank_adjust_tier r rate :
  r <> 0 -> Surface.rank_adjust (Some r) rate = SurfaceSpec.ranking_tier r rate.
Proof.
  intros H. unfold Surface.rank_adjust, SurfaceSpec.ranking_tier.
  destruct (Z.eqb_spec r 0); [done|reflexivity].
Qed.

Lemma stats_try_profile h2h name ranking :
  Surface.stats_try h2h name ranking
  = Some (SurfaceSpec.profile name
            (Surface.rank_adjust ranking (Surface.h2h_base_rate h2h name))).
Proof.
  unfold Surface.stats_try, SurfaceSpec.profile, SurfaceSpec.surface_value.
  generalize (Surface.rank_adjust ranking (Surface.h2h_base_rate h2h name)) as rate.
  generalize (inject_Z (Surface.name_hash name mod 7 - 3) / 100)%Q as micro.
  intros micro rate.
  assert (Hidx : Surface.name_hash name mod 3 = 0 \/ Surface.name_hash name mod 3 = 1
                 \/ Surface.name_hash name mod 3 = 2)
    by (pose proof (Z.mod_pos_bound (Surface.name_hash name) 3); lia).
  destruct Hidx as [-> | [-> | ->]]; cbn.
  all: repeat (rewrite ?lookup_insert_eq, ?lookup_insert_ne by done; cbn).
  all: f_equal; apply map_eq; intros k.
  all: destruct (decide (k = "clay")) as [->|?];
       [|destruct (decide (k = "grass")) as [->|?];
         [|destruct (decide (k = "hard")) as [->|?]]].
  all: by simplify_map_eq.
Qed.

Lemma calculate_surface_stats_profile h2h name cur ranking :
  PyStr.truthy name = true ->
  Surface.calculate_surface_stats_from_h2h h2h (Some name) cur ranking
  = Some (SurfaceSpec.profile name
            (Surface.rank_adjust ranking (Surface.h2h_base_rate h2h name))).
Proof.
  intros Hn. unfold Surface.calculate_surface_stats_from_h2h.
  rewrite Hn, stats_try_profile. reflexivity.
Qed.

(** The base rate of the code is the win fraction: the counters of the
    loop are the numbers of matches involving the player and won by the
    player. *)
Lemma tally_step name wins total m :
  Surface.tally (normalize name) (wins, total) m
  = (wins + (if SurfaceSpec.involves name m && SurfaceSpec.won name m
             then 1 else 0),
     total + (if SurfaceSpec.involves name m then 1 else 0)).
Proof.
  unfold Surface.tally, SurfaceSpec.involves, SurfaceSpec.won,
    SurfaceSpec.on_home, SurfaceSpec.on_away.
  destruct (PyStr.contains (normalize name) (normalize (h_home m))
            || PyStr.contains (normalize (h_home m)) (normalize name));
    destruct (PyStr.contains (normalize name) (normalize (h_away m))
              || PyStr.contains (normalize (h_away m)) (normalize name));
    cbn [orb andb];
    try destruct (String.eqb (h_winner m) "home");
    try destruct (String.eqb (h_winner m) "away");
    f_equal; lia.
Qed.

Lemma tally_fold name l : forall wins total,
  fold_left (Surface.tally (normalize name)) l (wins, total)
  = (wins + Z.of_nat (List.length
                        (List.filter (SurfaceSpec.won name)
                           (List.filter (SurfaceSpec.involves name) l))),
     total + Z.of_nat (List.length (List.filter (SurfaceSpec.involves name) l))).
Proof.
  induction l as [|m l IH]; intros wins total; cbn [fold_left List.filter List.length].
  - f_equal; lia.
  - rewrite tally_step, IH.
    destruct (SurfaceSpec.involves name m); cbn [andb List.filter List.length];
      [destruct (SurfaceSpec.won name m); cbn [List.length]|]; f_equal; lia.
Qed.

Lemma h2h_base_rate_fraction h2h name :
  Surface.h2h_base_rate h2h name = SurfaceSpec.win_fraction h2h name.
Proof.
  unfold Surface.h2h_base_rate, SurfaceSpec.win_fraction.
  destruct h2h as [|m l]; [reflexivity|]. rewrite tally_fold, !Z.add_0_l.
  destruct (List.filter (SurfaceSpec.involves name) (m :: l)) as [|p played];
    [reflexivity|].
  assert (H : (Z.of_nat (List.length (p :: played)) >? 0) = true)
    by (apply Z.gtb_lt; cbn [List.length]; lia).
  by rewrite H.
Qed.

(** C4, as stated, fails for a ranking of 0: the guard [if player_ranking]
    skips the tiers. For "Alcaraz C.", who won three of the four meetings,
    the code keeps the rate 0.75 and gives clay 0.68, where the tier for
    ranks up to 10 would raise the rate to 0.90 and give clay 0.83. *)
Lemma rank_zero_skips_the_tiers :
  let code :=
    Surface.calculate_surface_stats_from_h2h sample_tennis_h2h (Some "Alcaraz C.")
      (Some "hard") (Some 0) in
  let claimed := SurfaceSpec.profile_as_claimed sample_tennis_h2h "Alcaraz C." 0 in
  (SurfaceSpec.win_fraction sample_tennis_h2h "Alcaraz C." == 75 # 100)%Q
  /\ (exists v, code ≫= (.!! "clay") = Some v /\ (v == 68 # 100)%Q)
  /\ (exists v, claimed !! "clay" = Some v /\ (v == 83 # 100)%Q)
  /\ code <> Some claimed.
Proof.
  cbv zeta. split; [|split; [|split]].
  - vm_compute. reflexivity.
  - eexists. split; [vm_compute; reflexivity|reflexivity].
  - eexists. split; [vm_compute; reflexivity|reflexivity].
  - intros H. apply (f_equal (fun o => o ≫= (.!! "clay"))) in H.
    vm_compute in H. discriminate.
Qed.

(** C4, amended: for a non-empty name the profile is the arithmetic of the
    specification, in its order: the H2H win fraction of the player (the
    matches won among those that involve the player, 0.60 when none does),
    then the ranking tiers when a ranking is given and is not 0 (the rate is
    left as it is when the ranking is missing or 0), then the boost of the
    surface picked by the name and the penalty of the two others, the
    micro-variation and the clamp. *)
Theorem surface_profile_arithmetic :
  forall h2h name current_surface ranking,
    PyStr.truthy name = true ->
    let base := SurfaceSpec.win_fraction h2h name in
    let adjusted :=
      match ranking with
      | Some rank => if rank =? 0 then base else SurfaceSpec.ranking_tier rank base
      | None => base
      end in
    Surface.calculate_surface_stats_from_h2h h2h (Some name) current_surface ranking
    = Some (SurfaceSpec.profile name adjusted).
Proof.
  intros h2h name cur ranking Hn base adjusted.
  rewrite calculate_surface_stats_profile by assumption.
  rewrite h2h_base_rate_fraction. fold base.
  subst adjusted. destruct ranking as [r|]; [|reflexivity].
  cbn [Surface.rank_adjust]. destruct (Z.eqb_spec r 0) as [->|Hr]; [reflexivity|].
  unfold SurfaceSpec.ranking_tier. reflexivity.
Qed.

Lemma surface_profile_arithmetic_witness :
  (SurfaceSpec.win_fraction sample_tennis_h2h "Alcaraz C." == 3 # 4)%Q
  /\ Surface.calculate_surface_stats_from_h2h sample_tennis_h2h (Some "Alcaraz C.")
       (Some "clay") (Some 3)
     = Some (SurfaceSpec.profile "Alcaraz C."
               (SurfaceSpec.ranking_tier 3
                  (SurfaceSpec.win_fraction sample_tennis_h2h "Alcaraz C."))).
Proof.
  split; [vm_compute; reflexivity|].
  apply (surface_profile_arithmetic sample_tennis_h2h "Alcaraz C." (Some "clay")
           (Some 3) eq_refl).
Defined.

Lemma Qclamp_range x :
  (30 # 100 <= Qmax (30 # 100) (Qmin (98 # 100) x) <= 98 # 100)%Q.
Proof.
  split.
  - apply Q.le_max_l.
  - apply Q.max_lub; [discriminate|apply Q.le_min_l].
Qed.

(** C5: whenever the generator returns a mapping, its fallback included,
    each of the three surfaces has a value within [0.30, 0.98]. *)
Theorem surface_values_in_range :
  forall h2h player_name current_surface ranking stats,
    Surface.calculate_surface_stats_from_h2h h2h player_name current_surface ranking
    = Some stats ->
    forall surf, surf ∈ Surface.surfaces ->
      exists v, stats !! surf = Some v /\ (30 # 100 <= v <= 98 # 100)%Q.
Proof.
  intros h2h player_name cur ranking stats H surf Hs.
  unfold Surface.calculate_surface_stats_from_h2h in H.
  destruct player_name as [name|]; [|discriminate].
  destruct (PyStr.truthy name); [|discriminate].
  unfold Surface.surfaces in Hs.
  destruct (Surface.stats_try h2h name ranking) as [s|] eqn:E.
  - rewrite stats_try_profile in E. simplify_eq.
    unfold SurfaceSpec.profile, SurfaceSpec.surface_value.
    set_unfold. destruct Hs as [->|[->|[->|[]]]]; eexists;
      (split; [by simplify_map_eq|apply Qclamp_range]).
  - simplify_eq. unfold Surface.fallback_stats.
    set_unfold. destruct Hs as [->|[->|[->|[]]]]; eexists;
      (split; [by simplify_map_eq|split; discriminate]).
Qed.

Lemma surface_values_in_range_witness :
  exists v,
    SurfaceSpec.profile "Iga" (SurfaceSpec.ranking_tier 1 (60 # 100)) !! "clay" = Some v
    /\ (30 # 100 <= v <= 98 # 100)%Q.
Proof.
  apply (surface_values_in_range [] (Some "Iga") (Some "clay") (Some 1) _
           (calculate_surface_stats_profile [] "Iga" (Some "clay") (Some 1) eq_refl)
           "clay").
  unfold Surface.surfaces. apply list_elem_of_here.
Defined.

(** *** Tennis: the counting loop *)

Section TennisCounting.
Variables player_a player_b : option string.

Lemma tennis_count_item_cases cnt item :
  let cnt' := Tennis.count_item player_a player_b cnt item in
  cnt' = cnt \/ cnt' = (cnt.1 + 1, cnt.2) \/ cnt' = (cnt.1, cnt.2 + 1).
Proof.
  unfold Tennis.count_item, Tennis.count_try. destruct cnt as [a b].
  repeat (case_match; simplify_eq/=; auto).
Qed.

Lemma tennis_count_fold_bounds h2h : forall cnt,
  let r := fold_left (Tennis.count_item player_a player_b) h2h cnt in
  cnt.1 <= r.1 /\ cnt.2 <= r.2
  /\ r.1 + r.2 <= cnt.1 + cnt.2 + Z.of_nat (length h2h).
Proof.
  induction h2h as [|item rest IH]; intros cnt; cbn [fold_left length].
  - lia.
  - specialize (IH (Tennis.count_item player_a player_b cnt item)).
    destruct (tennis_count_item_cases cnt item) as [E|[E|E]];
      cbv zeta in *; rewrite E in *; cbn [fst snd] in *; lia.
Qed.

Lemma tennis_count_wins_bounds h2h :
  let r := Tennis.count_wins player_a player_b h2h in
  0 <= r.1 /\ 0 <= r.2 /\ r.1 + r.2 <= Z.of_nat (length h2h).
Proof. apply (tennis_count_fold_bounds h2h (0, 0)). Qed.

End TennisCounting.

Lemma tennis_player_a_first player_a cnt item :
  Tennis.count_item player_a None cnt item = (cnt.1 + 1, cnt.2) ->
  forall player_b,
    Tennis.count_item player_a player_b cnt item = (cnt.1 + 1, cnt.2).
Proof.
  unfold Tennis.count_item, Tennis.count_try. destruct cnt as [a b].
  intros H player_b. cbn [PyStr.otruthy default] in *.
  repeat (case_match; simplify_eq/=; try done; try lia).
Qed.

(** *** Tennis: the verdict dictionary *)

Lemma scoring_keeps env input a b k :
  k ∉ scoring_keys -> keeps k (Tennis.scoring env input a b).
Proof.
  intros H. unfold scoring_keys in H. split_notin H.
  unfold Tennis.scoring, Tennis.scoring_try, Tennis.scoring_except.
  apply keeps_try; [|auto 20 with blk].
  repeat (apply keeps_bind; [auto with blk|intros]).
  case_match; auto with blk.
Qed.

Lemma tennis_ou_defaults_keeps k out :
  k ∉ ou_keys -> Tennis.ou_defaults out !! k = out !! k.
Proof.
  intros H. unfold ou_keys in H. split_notin H.
  unfold Tennis.ou_defaults. keep_lookup.
Qed.

Lemma tennis_run_ou_analysis_keeps env url h2h k out :
  k ∉ ou_keys -> (Tennis.run_ou_analysis env url h2h out).1 !! k = out !! k.
Proof.
  intros H. unfold ou_keys in H. split_notin H.
  unfold Tennis.run_ou_analysis.
  repeat (case_match; simplify_eq/=; try done); keep_lookup.
Qed.

Lemma before_scoring_counts env url player_a player_b h2h :
  let out := (Tennis.before_scoring env url player_a player_b h2h).1 in
  let wins := Tennis.count_wins player_a player_b h2h in
  out !! "home_wins_in_h2h_last5" = Some (VInt wins.1)
  /\ out !! "away_wins_in_h2h" = Some (VInt wins.2)
  /\ out !! "h2h_count" = Some (VInt (Z.of_nat (length h2h))).
Proof.
  cbv zeta. unfold Tennis.before_scoring.
  destruct (Tennis.count_wins player_a player_b h2h) as [a b].
  repeat split.
  all: rewrite tennis_run_ou_analysis_keeps, tennis_ou_defaults_keeps
         by (unfold ou_keys; notin_keys).
  all: read_entry.
Qed.

(** The handler of the scoring block cannot raise, so the block as a whole
    always ends normally. *)
Lemma scoring_completes env input a b out :
  exists out', Tennis.scoring env input a b out = (out', Some tt).
Proof.
  unfold Tennis.scoring, Blk.try_except.
  destruct (Tennis.scoring_try env input a b out) as [out1 [[]|]]; eauto.
Qed.

Lemma process_match_tennis_returns env url player_a player_b h2h :
  exists out,
    Tennis.process_match_tennis env url player_a player_b h2h
    = Some (out, (Tennis.before_scoring env url player_a player_b h2h).2).
Proof.
  unfold Tennis.process_match_tennis.
  destruct (Tennis.before_scoring env url player_a player_b h2h) as [out0 calls].
  destruct (Tennis.count_wins player_a player_b h2h) as [a b].
  destruct (scoring_completes env
              (Tennis.analyzer_input env url player_a player_b h2h) a b out0)
    as [out' ->].
  eauto.
Qed.

Lemma process_match_tennis_out env url player_a player_b h2h :
  let wins := Tennis.count_wins player_a player_b h2h in
  let before := Tennis.before_scoring env url player_a player_b h2h in
  Tennis.process_match_tennis env url player_a player_b h2h
  = Some ((Tennis.scoring env (Tennis.analyzer_input env url player_a player_b h2h)
             wins.1 wins.2 before.1).1, before.2).
Proof.
  cbv zeta. unfold Tennis.process_match_tennis.
  destruct (Tennis.before_scoring env url player_a player_b h2h) as [out0 calls].
  destruct (Tennis.count_wins player_a player_b h2h) as [a b]. cbn [fst snd].
  destruct (scoring_completes env
              (Tennis.analyzer_input env url player_a player_b h2h) a b out0)
    as [out' E].
  rewrite E. reflexivity.
Qed.

Lemma h2h_favorite_cases a b :
  (a > b -> Tennis.h2h_favorite a b = "player_a")
  /\ (b > a -> Tennis.h2h_favorite a b = "player_b")
  /\ (a = b -> Tennis.h2h_favorite a b = "even").
Proof.
  unfold Tennis.h2h_favorite.
  destruct (Z.gtb_spec a b), (Z.gtb_spec b a); repeat split; intros; lia || reflexivity.
Qed.

(** C6: when the analyser answers and its absolute score is 0 or its
    favourite is 'even', the favourite emitted is player_a if player_a has
    more H2H wins, player_b if player_b has more, and 'even' on a tie. *)
Theorem tie_broken_by_h2h_wins :
  forall env url player_a player_b h2h analysis total_score advanced_score details,
    let input := Tennis.analyzer_input env url player_a player_b h2h in
    let wins := Tennis.count_wins player_a player_b h2h in
    Tennis.analyzer_available env = true ->
    Tennis.analyze_match env input = Some analysis ->
    Tennis.an_fields analysis !! "total_score" = Some total_score ->
    Tennis.py_abs total_score = Some advanced_score ->
    is_Some (Tennis.an_fields analysis !! "qualifies") ->
    is_Some (Tennis.an_fields analysis !! "breakdown") ->
    Tennis.an_details analysis = Some details ->
    Tennis.py_is_zero advanced_score = true
    \/ Tennis.py_is_str (dget_or details "favorite" (VStr "unknown")) "even" = true ->
    exists out calls,
      Tennis.process_match_tennis env url player_a player_b h2h = Some (out, calls)
      /\ out !! "advanced_score" = Some advanced_score
      /\ (wins.1 > wins.2 -> out !! "favorite" = Some (VStr "player_a"))
      /\ (wins.2 > wins.1 -> out !! "favorite" = Some (VStr "player_b"))
      /\ (wins.1 = wins.2 -> out !! "favorite" = Some (VStr "even")).
Proof.
  intros env url player_a player_b h2h analysis total_score advanced_score details
    input wins Hav Han Hts Habs [q Hq] [bd Hbd] Hdet Htie.
  rewrite process_match_tennis_out. fold input wins.
  set (out0 := (Tennis.before_scoring env url player_a player_b h2h).1).
  do 2 eexists. split; [reflexivity|].
  assert (Hfav : Tennis.py_is_zero advanced_score
                 || Tennis.py_is_str (dget_or details "favorite" (VStr "unknown")) "even"
                 = true)
    by (apply orb_true_iff; exact Htie).
  unfold Tennis.scoring, Blk.try_except, Tennis.scoring_try, Blk.bind, Blk.get,
    Blk.set, Blk.ret.
  rewrite Hav, Han, Hts, Habs, Hq, Hbd, Hdet, Hfav. cbn [fst snd].
  destruct (h2h_favorite_cases wins.1 wins.2) as (Ha & Hb & He).
  split; [by simplify_map_eq|].
  repeat split; intros Hw; rewrite lookup_insert_eq;
    [rewrite Ha|rewrite Hb|rewrite He]; done.
Qed.

(** C7: when the scoring block raises (the analyser is missing, raises, or
    its result lacks an entry), the function still returns; [qualifies] is
    true exactly when player_a has at least one H2H win and more wins than
    player_b, the score is 0.0, and the favourite follows the raw H2H wins,
    'even' on a tie. *)
Theorem scoring_failure_falls_back :
  forall env url player_a player_b h2h,
    let input := Tennis.analyzer_input env url player_a player_b h2h in
    let wins := Tennis.count_wins player_a player_b h2h in
    let before := (Tennis.before_scoring env url player_a player_b h2h).1 in
    Blk.completes (Tennis.scoring_try env input wins.1 wins.2) before = false ->
    exists out calls qualifies,
      Tennis.process_match_tennis env url player_a player_b h2h = Some (out, calls)
      /\ out !! "qualifies" = Some (VBool qualifies)
      /\ (qualifies = true <-> wins.1 >= 1 /\ wins.1 > wins.2)
      /\ out !! "advanced_score" = Some (VFloat 0)
      /\ (wins.1 > wins.2 -> out !! "favorite" = Some (VStr "player_a"))
      /\ (wins.2 > wins.1 -> out !! "favorite" = Some (VStr "player_b"))
      /\ (wins.1 = wins.2 -> out !! "favorite" = Some (VStr "even")).
Proof.
  intros env url player_a player_b h2h input wins before Hfail.
  rewrite process_match_tennis_out. fold input wins before.
  exists (Tennis.scoring env input wins.1 wins.2 before).1,
    (Tennis.before_scoring env url player_a player_b h2h).2,
    ((wins.1 >=? 1) && (wins.1 >? wins.2)).
  split; [reflexivity|].
  unfold Blk.completes in Hfail.
  unfold Tennis.scoring, Blk.try_except.
  destruct (Tennis.scoring_try env input wins.1 wins.2 before) as [out1 [[]|]];
    [discriminate|].
  unfold Tennis.scoring_except, Blk.bind, Blk.set. cbn [fst snd].
  destruct (h2h_favorite_cases wins.1 wins.2) as (Ha & Hb & He).
  split; [by simplify_map_eq|].
  split; [rewrite andb_true_iff, Z.geb_le, Z.gtb_lt; lia|].
  split; [by simplify_map_eq|].
  repeat split; intros Hw; rewrite lookup_insert_eq;
    [rewrite Ha|rewrite Hb|rewrite He]; done.
Qed.

(** The block raises exactly when the analyser module is missing, the
    call raises, or the result lacks an entry the block reads. *)
Lemma scoring_try_raises env input a b out :
  Blk.completes (Tennis.scoring_try env input a b) out = false <->
  Tennis.analyzer_available env = false
  \/ Tennis.analyze_match env input = None
  \/ (exists analysis,
        Tennis.analyze_match env input = Some analysis
        /\ (Tennis.an_fields analysis !! "total_score" ≫= Tennis.py_abs = None
            \/ Tennis.an_fields analysis !! "qualifies" = None
            \/ Tennis.an_fields analysis !! "breakdown" = None
            \/ Tennis.an_details analysis = None)).
Proof.
  unfold Blk.completes, Tennis.scoring_try, Blk.bind, Blk.get, Blk.set,
    Blk.ret, Blk.raise.
  destruct (Tennis.analyzer_available env); cbn; [|split; auto].
  destruct (Tennis.analyze_match env input) as [an|]; cbn; [|split; auto].
  destruct (Tennis.an_fields an !! "total_score") as [ts|] eqn:Ets; cbn;
    [|split; [intros _|done]; right; right; exists an; rewrite Ets; auto].
  destruct (Tennis.py_abs ts) as [sc|] eqn:Eabs; cbn;
    [|split; [intros _|done]; right; right; exists an; rewrite Ets; cbn; auto].
  destruct (Tennis.an_fields an !! "qualifies") as [q|] eqn:Eq; cbn;
    [|split; [intros _|done]; right; right; exists an; auto 6].
  destruct (Tennis.an_fields an !! "breakdown") as [bd|] eqn:Eb; cbn;
    [|split; [intros _|done]; right; right; exists an; auto 6].
  destruct (Tennis.an_details an) as [d|] eqn:Ed; cbn;
    [|split; [intros _|done]; right; right; exists an; auto 6].
  split.
  - destruct (_ || _); cbn; discriminate.
  - intros [H|[H|(an' & H & Hm)]]; try discriminate.
    simplify_eq. rewrite Ets, Eq, Eb, Ed in Hm. cbn in Hm. rewrite Eabs in Hm.
    destruct Hm as [?|[?|[?|?]]]; discriminate.
Qed.

Lemma tie_broken_by_h2h_wins_witness :
  exists out calls,
    Tennis.process_match_tennis (sample_tennis_env true) "https://x/tenis/?mid=Ab1"
      (Some "Alcaraz C.") (Some "Sinner J.") sample_tennis_h2h = Some (out, calls)
    /\ Tennis.count_wins (Some "Alcaraz C.") (Some "Sinner J.") sample_tennis_h2h = (3, 1)
    /\ out !! "advanced_score" = Some (VFloat (Qabs 0))
    /\ out !! "favorite" = Some (VStr "player_a").
Proof.
  destruct (tie_broken_by_h2h_wins (sample_tennis_env true) "https://x/tenis/?mid=Ab1"
              (Some "Alcaraz C.") (Some "Sinner J.") sample_tennis_h2h
              zero_score_analysis (VFloat 0) (VFloat (Qabs 0))
              {[ "favorite" := VStr "player_b" ]}
              eq_refl eq_refl eq_refl eq_refl
              (ex_intro _ (VBool false) eq_refl) (ex_intro _ (VScores []) eq_refl)
              eq_refl (or_introl eq_refl))
    as (out & calls & Hrun & Hscore & Ha & _ & _).
  exists out, calls. split; [exact Hrun|]. split; [reflexivity|].
  split; [exact Hscore|]. apply Ha. reflexivity.
Defined.

Lemma scoring_failure_falls_back_witness :
  exists out calls,
    Tennis.process_match_tennis (sample_tennis_env false) "https://x/tenis/?mid=Ab1"
      (Some "Alcaraz C.") (Some "Sinner J.") sample_tennis_h2h = Some (out, calls)
    /\ out !! "qualifies" = Some (VBool true)
    /\ out !! "advanced_score" = Some (VFloat 0)
    /\ out !! "favorite" = Some (VStr "player_a").
Proof.
  destruct (scoring_failure_falls_back (sample_tennis_env false)
              "https://x/tenis/?mid=Ab1"
              (Some "Alcaraz C.") (Some "Sinner J.") sample_tennis_h2h eq_refl)
    as (out & calls & q & Hrun & Hq & Hiff & Hscore & Ha & _ & _).
  exists out, calls. split; [exact Hrun|].
  split; [|split; [exact Hscore|apply Ha; reflexivity]].
  rewrite Hq. do 2 f_equal. apply Hiff. split; [vm_compute; discriminate|reflexivity].
Defined.

(** C10: the tennis loop credits a row to at most one player, player_a
    first: a row that credits player_a when there is no player_b credits
    player_a alone whatever player_b is, and in the verdict
    [player_a_wins + player_b_wins <= h2h_count]. *)
Theorem tennis_credits_at_most_one_player :
  (forall player_a player_b cnt item,
     let cnt' := Tennis.count_item player_a player_b cnt item in
     cnt' = cnt \/ cnt' = (cnt.1 + 1, cnt.2) \/ cnt' = (cnt.1, cnt.2 + 1))
  /\ (forall player_a cnt item,
        Tennis.count_item player_a None cnt item = (cnt.1 + 1, cnt.2) ->
        forall player_b,
          Tennis.count_item player_a player_b cnt item = (cnt.1 + 1, cnt.2))
  /\ (let row := mkItem "07.01.2024" "Zverev M." "Ruud C." "2-0" "home" in
      Tennis.count_wins (Some "Zverev") (Some "Zverev M.") [row] = (1, 0)
      /\ Team.count_wins (Some "Zverev") (Some "Zverev M.") [row] = (1, 1))
  /\ (forall env url player_a player_b h2h,
        exists out calls player_a_wins player_b_wins,
          Tennis.process_match_tennis env url player_a player_b h2h = Some (out, calls)
          /\ out !! "home_wins_in_h2h_last5" = Some (VInt player_a_wins)
          /\ out !! "away_wins_in_h2h" = Some (VInt player_b_wins)
          /\ out !! "h2h_count" = Some (VInt (Z.of_nat (length h2h)))
          /\ 0 <= player_a_wins /\ 0 <= player_b_wins
          /\ player_a_wins + player_b_wins <= Z.of_nat (length h2h)).
Proof.
  split; [exact tennis_count_item_cases|].
  split; [exact tennis_player_a_first|].
  split; [split; vm_compute; reflexivity|].
  intros env url player_a player_b h2h.
  rewrite process_match_tennis_out.
  destruct (before_scoring_counts env url player_a player_b h2h) as (Ha & Hb & Hn).
  destruct (tennis_count_wins_bounds player_a player_b h2h) as (Ba & Bb & Bs).
  cbv zeta in *.
  set (wins := Tennis.count_wins player_a player_b h2h) in *.
  do 2 eexists. exists wins.1, wins.2. split; [reflexivity|].
  rewrite !scoring_keeps by (unfold scoring_keys; notin_keys).
  auto 10.
Qed.

(** *** The over/under guard *)

Lemma detect_sport_known url : Team.detect_sport url ∈ known_sports.
Proof.
  unfold Team.detect_sport, known_sports.
  repeat case_match; set_solver.
Qed.


Lemma line_to_use_default api_line sport :
  py_truthy api_line = false ->
  Team.line_to_use api_line sport
  = VFloat (default (25 # 10) (Team.default_lines !! sport)).
Proof. intros H. unfold Team.line_to_use. rewrite H. reflexivity. Qed.

(** The live line does not depend on the dictionary being filled. *)
Lemma fetch_ou_odds_line env url sport n out out' :
  (Team.fetch_ou_odds env url sport n out).2
  = (Team.fetch_ou_odds env url sport n out').2.
Proof.
  unfold Team.fetch_ou_odds.
  repeat (case_match; simplify_eq/=; try done).
Qed.

Lemma team_ou_calls env url home_team away_team h2h away_team_focus :
  let sport := Team.detect_sport url in
  let n := Z.of_nat (length h2h) in
  (Team.process_match env url home_team away_team h2h away_team_focus).2
  = if n >=? 5
    then [mkCall sport h2h h2h h2h
            (Some (Team.line_to_use (Team.fetch_ou_odds env url sport n ∅).2 sport))]
    else [].
Proof.
  cbv zeta. unfold Team.process_match.
  destruct (Team.count_wins home_team away_team h2h) as [cnt_home cnt_away].
  match goal with |- context [Team.fetch_ou_odds ?e ?u ?s ?n ?o] =>
    pose proof (fetch_ou_odds_line e u s n o ∅) as Hline;
    destruct (Team.fetch_ou_odds e u s n o) as [out1 api_line] end.
  cbn [snd] in Hline. rewrite <- Hline.
  unfold Team.run_ou_analysis.
  destruct (Z.of_nat (length h2h) >=? 5); [|reflexivity].
  destruct (Team.analyze_over_under env _) as [[d|]|]; try reflexivity.
  destruct (dict_truthy d && py_truthy (dget d "qualifies")); reflexivity.
Qed.

Lemma team_ou_fields_untouched env url home_team away_team h2h away_team_focus :
  Z.of_nat (length h2h) < 5 ->
  holds_all (Team.process_match env url home_team away_team h2h away_team_focus).1
    ou_default_values.
Proof.
  intros Hn. assert (Hge : (Z.of_nat (length h2h) >=? 5) = false) by lia.
  unfold Team.process_match.
  destruct (Team.count_wins home_team away_team h2h) as [cnt_home cnt_away].
  unfold Team.fetch_ou_odds, Team.run_ou_analysis.
  rewrite Hge, andb_false_r. cbn [fst].
  unfold holds_all, ou_default_values, Team.ou_defaults.
  repeat (apply Forall_cons; split; [cbn [fst snd]; read_entry|]). constructor.
Qed.

Lemma tennis_ou_calls env url player_a player_b h2h :
  (Tennis.before_scoring env url player_a player_b h2h).2
  = if Z.of_nat (length h2h) >=? 5
    then [mkCall "tennis" h2h h2h h2h None]
    else [].
Proof.
  unfold Tennis.before_scoring.
  destruct (Tennis.count_wins player_a player_b h2h) as [a b].
  unfold Tennis.run_ou_analysis.
  destruct (Z.of_nat (length h2h) >=? 5); [|reflexivity].
  destruct (Tennis.analyze_over_under env _) as [[d|]|]; try reflexivity.
  destruct (d !! "qualifies"); reflexivity.
Qed.

Lemma tennis_ou_fields_untouched env url player_a player_b h2h a b :
  Z.of_nat (length h2h) < 5 ->
  holds_all
    (Tennis.scoring env (Tennis.analyzer_input env url player_a player_b h2h) a b
       (Tennis.before_scoring env url player_a player_b h2h).1).1
    tennis_ou_default_values.
Proof.
  intros Hn. assert (Hge : (Z.of_nat (length h2h) >=? 5) = false) by lia.
  unfold Tennis.before_scoring.
  destruct (Tennis.count_wins player_a player_b h2h) as [wa wb].
  unfold Tennis.run_ou_analysis. rewrite Hge. cbn [fst].
  unfold holds_all, tennis_ou_default_values, Tennis.ou_defaults.
  repeat (apply Forall_cons; split;
          [cbn [fst snd]; rewrite scoring_keeps by (unfold scoring_keys; notin_keys);
           read_entry|]).
  constructor.
Qed.

(** C9, as stated, fails for [process_match_tennis]: with five meetings
    the analyser is called for tennis without a line, so the line is left
    to the analyser and is not the default 2.5 of the sport. *)
Lemma tennis_call_passes_no_line :
  let result :=
    Tennis.process_match_tennis (sample_tennis_env true) "https://x/tenis/?mid=Ab1"
      (Some "Alcaraz C.") (Some "Sinner J.") sample_tennis_five in
  exists out call,
    result = Some (out, [call])
    /\ call_sport call = "tennis"
    /\ call_line call = None
    /\ call_line call <> Some (VFloat (25 # 10)).
Proof.
  cbv zeta. rewrite process_match_tennis_out, tennis_ou_calls.
  change (Z.of_nat (List.length sample_tennis_five) >=? 5) with true.
  cbv iota. do 2 eexists. split; [reflexivity|]. cbn [call_sport call_line].
  split; [reflexivity|]. split; [reflexivity|discriminate].
Qed.

(** C9, amended: the over/under analyser is called only with at least 5
    H2H rows; in [process_match] the line passed, when the odds API gave
    none, is the default of the sport (football 2.5, basketball 220.5,
    handball 55.5, volleyball 4.5, hockey 5.5, tennis 2.5); with fewer than
    5 rows no call is made and the O/U entries keep their initial values.
    In [process_match_tennis] the call leaves the line out. *)
Theorem over_under_guard_and_default_lines :
  (Team.line_to_use VNone "football" = VFloat (25 # 10)
   /\ Team.line_to_use VNone "basketball" = VFloat (2205 # 10)
   /\ Team.line_to_use VNone "handball" = VFloat (555 # 10)
   /\ Team.line_to_use VNone "volleyball" = VFloat (45 # 10)
   /\ Team.line_to_use VNone "hockey" = VFloat (55 # 10)
   /\ Team.line_to_use VNone "tennis" = VFloat (25 # 10))
  /\ (forall env url home_team away_team h2h away_team_focus,
        let result := Team.process_match env url home_team away_team h2h away_team_focus in
        let sport := Team.detect_sport url in
        let n := Z.of_nat (length h2h) in
        let api_line := (Team.fetch_ou_odds env url sport n ∅).2 in
        sport ∈ known_sports
        /\ (forall call, call ∈ result.2 ->
           5 <= n
           /\ call = mkCall sport h2h h2h h2h (Some (Team.line_to_use api_line sport))
           /\ (py_truthy api_line = false ->
               call_line call
               = Some (VFloat (default (25 # 10) (Team.default_lines !! sport)))))
        /\ (n < 5 -> result.2 = [] /\ holds_all result.1 ou_default_values))
  /\ (forall env url player_a player_b h2h,
        let n := Z.of_nat (length h2h) in
        exists out calls,
          Tennis.process_match_tennis env url player_a player_b h2h = Some (out, calls)
          /\ (forall call, call ∈ calls ->
                5 <= n /\ call = mkCall "tennis" h2h h2h h2h None)
          /\ (n < 5 -> calls = [] /\ holds_all out tennis_ou_default_values)).
Proof.
  split; [repeat split; vm_compute; reflexivity|]. split.
  - intros env url home_team away_team h2h away_team_focus result sport n api_line.
    pose proof (team_ou_calls env url home_team away_team h2h away_team_focus) as Hc.
    cbv zeta in Hc. fold result sport n api_line in Hc.
    split; [apply detect_sport_known|]. split.
    + intros call Hin. rewrite Hc in Hin.
      destruct (Z.geb_spec n 5) as [Hn|Hn]; [|by apply elem_of_nil in Hin].
      apply list_elem_of_singleton in Hin. subst call.
      split; [lia|]. split; [reflexivity|].
      intros Hno. cbn [call_line]. by rewrite line_to_use_default.
    + intros Hn. split.
      * rewrite Hc. destruct (Z.geb_spec n 5); [lia|reflexivity].
      * by apply team_ou_fields_untouched.
  - intros env url player_a player_b h2h n.
    rewrite process_match_tennis_out.
    do 2 eexists. split; [reflexivity|].
    rewrite tennis_ou_calls. fold n. split.
    + intros call Hin.
      destruct (Z.geb_spec n 5) as [Hn|Hn]; [|by apply elem_of_nil in Hin].
      apply list_elem_of_singleton in Hin. subst call. split; [lia|reflexivity].
    + intros Hn. split; [destruct (Z.geb_spec n 5); [lia|reflexivity]|].
      by apply tennis_ou_fields_untouched.
Qed.

(** *** Scenarios *)

(** Five wins of the home side out of five: rate 1, qualifies. *)
Example all_home_wins :
  let out := (Team.process_match silent_team_env "https://x/mecz/a/b/?mid=Ab1"
                (Some "Alpha") (Some "Beta") (alpha_wins 5) false).1 in
  out !! "home_wins_in_h2h_last5" = Some (VInt 5)
  /\ out !! "win_rate" = Some (VFloat (5 # 5))
  /\ out !! "qualifies" = Some (VBool true).
Proof. vm_compute. auto. Qed.

(** Five draws: no win on either side, rate 0, does not qualify. *)
Example all_draws :
  let out := (Team.process_match silent_team_env "https://x/mecz/a/b/?mid=Ab1"
                (Some "Alpha") (Some "Beta")
                (repeat (alpha_beta "1-1" "draw") 5) false).1 in
  out !! "home_wins_in_h2h_last5" = Some (VInt 0)
  /\ out !! "away_wins_in_h2h_last5" = Some (VInt 0)
  /\ out !! "win_rate" = Some (VFloat (0 # 5))
  /\ out !! "qualifies" = Some (VBool false).
Proof. vm_compute. auto. Qed.

(** Three wins out of five qualify, two do not, for either focus. *)
Example threshold_boundary :
  let run h2h focus :=
    (Team.process_match silent_team_env "https://x/mecz/a/b/?mid=Ab1"
       (Some "Alpha") (Some "Beta") h2h focus).1 !! "qualifies" in
  run (alpha_wins 3) false = Some (VBool true)
  /\ run (alpha_wins 2) false = Some (VBool false)
  /\ run (alpha_wins 2) true = Some (VBool true)
  /\ run (alpha_wins 3) true = Some (VBool false).
Proof. vm_compute. auto. Qed.

(** A score that is no number skips the row but keeps it in the count. *)
Example malformed_score_is_skipped :
  Team.count_wins (Some "Alpha") (Some "Beta")
    [alpha_beta "2-1" "home"; alpha_beta "-" "unknown"] = (1, 0)
  /\ Team.win_rate_of 1 2 = (1 # 2)%Q.
Proof. vm_compute. auto. Qed.

(** On the counts the scraper can reach (at most five rows) the binary64
    comparison and the rational one agree. *)
Lemma float_threshold_agrees :
  forallb
    (fun n =>
       forallb
         (fun cnt =>
            Bool.eqb (float_qualifies cnt n)
              (Qle_bool (60 # 100) (Team.win_rate_of cnt n)))
         [0; 1; 2; 3; 4; 5])
    [1; 2; 3; 4; 5] = true.
Proof. vm_compute. reflexivity. Qed.

(** The form dictionary [extract_advanced_team_form] returns always has the
    entries the [try] block of [process_match] reads, so that block ends
    normally. *)
Lemma advanced_form_is_complete url pages away_team_focus basic_qualifies out :
  Blk.completes
    (Team.form_try (Form.extract_advanced_team_form url pages)
       away_team_focus basic_qualifies) out = true.
Proof.
  unfold Form.extract_advanced_team_form, Form.empty_result.
  destruct (_ || _), pages as [p|], away_team_focus; reflexivity.
Qed.

(** * Properties of the rest of the code *)

(** *** The event id in a URL *)

Lemma span_alnum_all_alnum s : PyText.all_alnum (PyText.span_alnum s).1 = true.
Proof.
  induction s as [|c t IH]; cbn; [reflexivity|].
  destruct (PyText.is_alnum c) eqn:E; [|reflexivity].
  destruct (PyText.span_alnum t) as [g r]. cbn in *. by rewrite E, IH.
Qed.

Lemma span_alnum_app g rest :
  PyText.all_alnum g = true ->
  match rest with
  | EmptyString => True
  | String c _ => PyText.is_alnum c = false
  end ->
  PyText.span_alnum (g ++ rest) = (g, rest).
Proof.
  intros Hg Hrest. induction g as [|c g IH].
  - destruct rest as [|c r]; [reflexivity|].
    change (PyText.span_alnum ("" ++ String c r))
      with (if PyText.is_alnum c
            then let '(g, r0) := PyText.span_alnum r in (String c g, r0)
            else ("", String c r)).
    by rewrite Hrest.
  - change (PyText.all_alnum (String c g))
      with (PyText.is_alnum c && PyText.all_alnum g) in Hg.
    apply andb_true_iff in Hg as [Hc Hg].
    change (PyText.span_alnum (String c g ++ rest))
      with (if PyText.is_alnum c
            then let '(g0, r0) := PyText.span_alnum (g ++ rest) in (String c g0, r0)
            else ("", String c (g ++ rest))).
    rewrite Hc, IH by assumption. reflexivity.
Qed.

Lemma search_sound {A} (here : string -> option A) (P : A -> Prop) :
  (forall s a, here s = Some a -> P a) ->
  forall s a, PyText.search here s = Some a -> P a.
Proof.
  intros Hhere s. induction s as [|c t IH]; intros a; cbn.
  - destruct (here "") eqn:E; [|discriminate]. intros [= <-]. eauto.
  - destruct (here (String c t)) eqn:E; [intros [= <-]; eauto|]. apply IH.
Qed.

Lemma mid_match_here_group s g :
  Client.mid_match_here s = Some g -> g <> "" /\ PyText.all_alnum g = true.
Proof.
  unfold Client.mid_match_here. destruct s as [|c t]; [discriminate|].
  destruct (_ || _)%bool; [|discriminate].
  destruct (PyText.strip_prefix "mid=" t) as [r|]; [|discriminate].
  pose proof (span_alnum_all_alnum r) as H.
  destruct (PyText.span_alnum r) as [[|c' g'] rest]; [discriminate|].
  intros [= <-]. auto.
Qed.

Lemma hash_match_here_group s g :
  Client.hash_match_here s = Some g -> g <> "" /\ PyText.all_alnum g = true.
Proof.
  unfold Client.hash_match_here.
  destruct (PyText.strip_prefix "#id/" s) as [r|]; [|discriminate].
  pose proof (span_alnum_all_alnum r) as H.
  destruct (PyText.span_alnum r) as [[|c' g'] rest]; [discriminate|].
  intros [= <-]. auto.
Qed.

(** X1: an event id, when one is found, is a non-empty string of ASCII
    letters and digits, so the test [if event_id] of the callers never
    rejects it. *)
Theorem event_id_is_alphanumeric :
  forall url event_id,
    Client.extract_event_id_from_url url = Some event_id ->
    event_id <> "" /\ PyText.all_alnum event_id = true
    /\ PyStr.truthy event_id = true.
Proof.
  intros url event_id. unfold Client.extract_event_id_from_url.
  assert (forall g, g <> "" -> PyStr.truthy g = true) as Ht
    by (intros [|] ?; [done|reflexivity]).
  destruct (PyText.search Client.mid_match_here url) as [g|] eqn:E.
  - intros [= <-].
    apply (search_sound _ _ mid_match_here_group) in E as [? ?]. auto.
  - intros E'.
    apply (search_sound _ _ hash_match_here_group) in E' as [? ?]. auto.
Qed.

Lemma event_id_is_alphanumeric_witness :
  "KQAaF7d2" <> "" /\ PyText.all_alnum "KQAaF7d2" = true
  /\ PyStr.truthy "KQAaF7d2" = true.
Proof.
  apply (event_id_is_alphanumeric
           "https://www.livesport.com/pl/mecz/pilka-nozna/a/b/?mid=KQAaF7d2").
  reflexivity.
Defined.

Lemma search_cons {A} (here : string -> option A) c t :
  PyText.search here (String c t)
  = match here (String c t) with
    | Some a => Some a
    | None => PyText.search here t
    end.
Proof. reflexivity. Qed.

Lemma search_mid_skips base s :
  Client.no_query_char base = true ->
  PyText.search Client.mid_match_here (base ++ String "?" s)
  = PyText.search Client.mid_match_here (String "?" s).
Proof.
  induction base as [|c t IH]; intros H; [reflexivity|].
  change (Client.no_query_char (String c t))
    with (negb (Ascii.eqb c "?" || Ascii.eqb c "&") && Client.no_query_char t) in H.
  apply andb_true_iff in H as [Hc Ht].
  change (String c t ++ String "?" s) with (String c (t ++ String "?" s)).
  etransitivity; [apply search_cons|].
  replace (Client.mid_match_here (String c (t ++ String "?" s))) with (@None string).
  - by apply IH.
  - unfold Client.mid_match_here. by destruct (_ || _)%bool.
Qed.

Lemma extract_event_id_canonical :
  forall base event_id rest,
    Client.no_query_char base = true ->
    event_id <> "" ->
    PyText.all_alnum event_id = true ->
    match rest with
    | EmptyString => True
    | String c _ => PyText.is_alnum c = false
    end ->
    Client.extract_event_id_from_url (base ++ "?mid=" ++ event_id ++ rest)
    = Some event_id.
Proof.
  intros base event_id rest Hbase Hne Hid Hrest.
  unfold Client.extract_event_id_from_url.
  change ("?mid=" ++ event_id ++ rest) with (String "?" ("mid=" ++ event_id ++ rest)).
  rewrite search_mid_skips by assumption.
  rewrite search_cons.
  replace (Client.mid_match_here (String "?" ("mid=" ++ event_id ++ rest)))
    with (Some event_id); [reflexivity|].
  unfold Client.mid_match_here.
  change (Ascii.eqb "?" "?" || Ascii.eqb "?" "&")%bool with true.
  change (PyText.strip_prefix "mid=" ("mid=" ++ event_id ++ rest))
    with (Some (event_id ++ rest)).
  cbv iota beta. rewrite span_alnum_app by assumption.
  destruct event_id; [done|reflexivity].
Qed.

(** X2: an id written as [?mid=] after a base without [?] and [&] is read
    back: the URL [base ?mid= id rest] gives [id], for any letters-and-digits
    [id] that [rest] does not continue. *)
Theorem event_id_round_trip :
  forall base event_id rest,
    Client.no_query_char base = true ->
    event_id <> "" ->
    PyText.all_alnum event_id = true ->
    match rest with
    | EmptyString => True
    | String c _ => PyText.is_alnum c = false
    end ->
    Client.extract_event_id_from_url (base ++ "?mid=" ++ event_id ++ rest)
    = Some event_id.
Proof. exact extract_event_id_canonical. Qed.


Lemma event_id_round_trip_witness :
  Client.extract_event_id_from_url
    ("https://www.livesport.com/pl/mecz/tenis/a/b/" ++ "?mid=" ++ "KQAaF7d2" ++ "&tab=h2h")
  = Some "KQAaF7d2".
Proof.
  apply (event_id_round_trip "https://www.livesport.com/pl/mecz/tenis/a/b/"
           "KQAaF7d2" "&tab=h2h"); [reflexivity|discriminate|reflexivity|reflexivity].
Defined.

(** *** The two sport detectors *)

Ltac sport_cases :=
  cbn [orb andb default];
  split; [set_solver|];
  split; [intros H; first [discriminate H | reflexivity]
         |intros H; first [discriminate H | split; reflexivity]].

(** X3: the detector of the odds client returns one of the six sports, and
    it agrees with the detector of [process_match] on every URL except
    those that name both volleyball and basketball, where the client says
    volleyball and [process_match] says basketball. *)
Theorem sport_detectors_agree :
  forall url,
    let u := PyStr.lower url in
    let volleyball := PyStr.contains "siatkowka" u || PyStr.contains "volleyball" u in
    let basketball := PyStr.contains "koszykowka" u || PyStr.contains "basketball" u in
    Client._detect_sport_from_url url ∈ known_sports
    /\ (volleyball && basketball = false ->
        Client._detect_sport_from_url url = Team.detect_sport url)
    /\ (volleyball && basketball = true ->
        Client._detect_sport_from_url url = "volleyball"
        /\ Team.detect_sport url = "basketball").
Proof.
  intros url u volleyball basketball. subst volleyball basketball.
  unfold Client._detect_sport_from_url, Team.detect_sport, known_sports.
  fold u. generalize u. clear. intros u.
  cbn [Client.sport_patterns Client.first_pattern].
  destruct (PyStr.contains "siatkowka" u), (PyStr.contains "volleyball" u),
    (PyStr.contains "koszykowka" u), (PyStr.contains "basketball" u);
    try solve [sport_cases].
  all: destruct (PyStr.contains "pilka-reczna" u), (PyStr.contains "handball" u);
    try solve [sport_cases].
  all: destruct (PyStr.contains "hokej" u), (PyStr.contains "hockey" u);
    try solve [sport_cases].
  all: destruct (PyStr.contains "tenis" u), (PyStr.contains "tennis" u);
    try solve [sport_cases].
  all: destruct (PyStr.contains "pilka-nozna" u), (PyStr.contains "football" u),
    (PyStr.contains "soccer" u); solve [sport_cases].
Qed.

(** *** Prices of the odds client *)

Lemma side_odds_truthy api odds_data keys q :
  Client.side_odds api odds_data keys = Some (Some q) ->
  exists v, py_truthy v = true /\ Client.py_float (Client.net api) v = Some q.
Proof.
  induction keys as [|key rest IH]; cbn [Client.side_odds]; [discriminate|].
  destruct (odds_data !! key) as [entry|]; [|exact IH].
  destruct (dict_truthy entry && py_truthy (dget entry "value")) eqn:E; [|exact IH].
  apply andb_true_iff in E as [_ E].
  destruct (Client.py_float (Client.net api) (dget entry "value")) eqn:F;
    [|discriminate].
  intros [= <-]. eauto.
Qed.

Lemma set_odds_lookup key o (result : PyDict) :
  result !! key = None ->
  Client.set_odds key o result !! key = (VFloat <$> o).
Proof.
  intros H. destruct o; cbn; [apply lookup_insert_eq|exact H].
Qed.

Lemma set_odds_lookup_ne key key' o (result : PyDict) :
  key <> key' ->
  Client.set_odds key o result !! key' = result !! key'.
Proof.
  intros H. destruct o; cbn; [by apply lookup_insert_ne|reflexivity].
Qed.

Lemma fetched_odds_complete :
  forall api event_id bet_type result,
    Client._fetch_odds_with_bet_type api event_id bet_type = Some result ->
    (exists home away,
       result !! "home_odds" = Some (VFloat home) /\ ~ (home == 0)%Q
       /\ result !! "away_odds" = Some (VFloat away) /\ ~ (away == 0)%Q)
    /\ result !! "bet_type_used" = Some (VStr bet_type)
    /\ result !! "event_id" = Some (VStr event_id)
    /\ result !! "source" = Some (VStr "livesport_api")
    /\ is_Some (result !! "bookmaker_name")
    /\ (is_Some (result !! "draw_odds") ->
        exists odds_data entry,
          Client.http (Client.net api) event_id bet_type = Some odds_data
          /\ odds_data !! "draw" = Some entry
          /\ py_truthy (dget entry "value") = true).
Proof.
  intros api event_id bet_type result. unfold Client._fetch_odds_with_bet_type.
  destruct (Client.http (Client.net api) event_id bet_type) as [odds_data|];
    [|discriminate].
  destruct (bool_decide (odds_data = ∅)); [discriminate|].
  destruct (Client.side_odds api odds_data ["home"; "team1"; "1"]) as [home|] eqn:Eh;
    [|discriminate].
  destruct (Client.side_odds api odds_data ["draw"]) as [draw|] eqn:Ed; [|discriminate].
  destruct (Client.side_odds api odds_data ["away"; "team2"; "2"]) as [away|] eqn:Ea;
    [|discriminate].
  match goal with |- context [Client.set_odds "away_odds" away ?r] =>
    set (r2 := r) end.
  assert (Hh : Client.set_odds "away_odds" away r2 !! "home_odds" = (VFloat <$> home)).
  { rewrite set_odds_lookup_ne by done. subst r2.
    rewrite set_odds_lookup_ne by done. apply set_odds_lookup. by simplify_map_eq. }
  assert (Ha : Client.set_odds "away_odds" away r2 !! "away_odds" = (VFloat <$> away)).
  { apply set_odds_lookup. subst r2. rewrite !set_odds_lookup_ne by done.
    by simplify_map_eq. }
  assert (Hd : Client.set_odds "away_odds" away r2 !! "draw_odds" = (VFloat <$> draw)).
  { rewrite set_odds_lookup_ne by done. subst r2. apply set_odds_lookup.
    rewrite set_odds_lookup_ne by done. by simplify_map_eq. }
  assert (Hk : forall k v, k <> "home_odds" -> k <> "draw_odds" -> k <> "away_odds" ->
      ({[ "bookmaker_id" := VStr (Client.bookmaker_id api);
          "bookmaker_name" :=
            VStr (default "Nordic Bet"
                    (Client.bookmaker_names api !! Client.bookmaker_id api));
          "source" := VStr "livesport_api";
          "event_id" := VStr event_id;
          "bet_type_used" := VStr bet_type ]} : PyDict) !! k = Some v ->
      Client.set_odds "away_odds" away r2 !! k = Some v).
  { intros k v ? ? ? Hv. subst r2. by rewrite !set_odds_lookup_ne by done. }
  unfold dget. rewrite Hh, Ha.
  destruct (py_truthy _ && py_truthy _) eqn:E; [|discriminate].
  intros [= <-]. apply andb_true_iff in E as [E1 E2].
  destruct home as [h|]; [|discriminate]. destruct away as [a|]; [|discriminate].
  cbn in E1, E2. apply negb_true_iff in E1, E2.
  split.
  { exists h, a. rewrite Hh, Ha. repeat split; try reflexivity.
    - intros Hz. apply Qeq_bool_iff in Hz. congruence.
    - intros Hz. apply Qeq_bool_iff in Hz. congruence. }
  split; [apply Hk; try done; by simplify_map_eq|].
  split; [apply Hk; try done; by simplify_map_eq|].
  split; [apply Hk; try done; by simplify_map_eq|].
  split; [eexists; apply Hk; try done; by simplify_map_eq|].
  rewrite Hd. intros [v Hv]. destruct draw as [d|]; [|discriminate].
  exists odds_data. cbn [Client.side_odds] in Ed.
  destruct (odds_data !! "draw") as [entry|]; [|discriminate].
  exists entry. split; [reflexivity|]. split; [reflexivity|].
  destruct (dict_truthy entry && py_truthy (dget entry "value")) eqn:Et;
    [|discriminate].
  by apply andb_true_iff in Et as [_ ?].
Qed.

(** X4: a result of [_fetch_odds_with_bet_type] always carries a home and
    an away price, both non-zero, together with the bet type and the event
    it was asked for; a draw price is there only when the response had
    one. *)
Theorem fetched_odds_are_complete :
  forall api event_id bet_type result,
    Client._fetch_odds_with_bet_type api event_id bet_type = Some result ->
    (exists home away,
       result !! "home_odds" = Some (VFloat home) /\ ~ (home == 0)%Q
       /\ result !! "away_odds" = Some (VFloat away) /\ ~ (away == 0)%Q)
    /\ result !! "bet_type_used" = Some (VStr bet_type)
    /\ result !! "event_id" = Some (VStr event_id)
    /\ result !! "source" = Some (VStr "livesport_api")
    /\ is_Some (result !! "bookmaker_name")
    /\ (is_Some (result !! "draw_odds") ->
        exists odds_data entry,
          Client.http (Client.net api) event_id bet_type = Some odds_data
          /\ odds_data !! "draw" = Some entry
          /\ py_truthy (dget entry "value") = true).
Proof. exact fetched_odds_complete. Qed.

Lemma fetched_odds_are_complete_witness :
  sample_fetched !! "bet_type_used" = Some (VStr "HOME_AWAY")
  /\ sample_fetched !! "event_id" = Some (VStr "KQAaF7d2").
Proof.
  assert (H : Client._fetch_odds_with_bet_type (Client.new "165" sample_net)
                "KQAaF7d2" "HOME_AWAY" = Some sample_fetched)
    by (vm_compute; reflexivity).
  pose proof (fetched_odds_are_complete _ _ _ _ H) as (_ & Hb & He & _).
  exact (conj Hb He).
Defined.

Lemma fetched_odds_truthy api event_id bet_type result :
  Client._fetch_odds_with_bet_type api event_id bet_type = Some result ->
  dict_truthy result = true.
Proof.
  intros H. apply fetched_odds_complete in H as (_ & H & _).
  unfold dict_truthy. apply negb_true_iff, bool_decide_eq_false.
  intros ->. by rewrite lookup_empty in H.
Qed.

Lemma try_bet_types_spec api event_id l :
  let '(result, calls) := Client.try_bet_types api event_id l in
  exists tried,
    tried `prefix_of` l
    /\ Forall (fun bt => Client._fetch_odds_with_bet_type api event_id bt = None) tried
    /\ match result with
       | Some r =>
           exists bt, l !! List.length tried = Some bt
             /\ Client._fetch_odds_with_bet_type api event_id bt = Some r
             /\ calls = (tried ++ [bt])%list
       | None => tried = l /\ calls = l
       end.
Proof.
  induction l as [|bt rest IH]; cbn [Client.try_bet_types].
  - exists []. repeat split; [done|constructor].
  - destruct (Client._fetch_odds_with_bet_type api event_id bt) as [r|] eqn:E.
    + rewrite (fetched_odds_truthy _ _ _ _ E).
      exists []. repeat split; [apply prefix_nil|constructor|].
      exists bt. auto.
    + destruct (Client.try_bet_types api event_id rest) as [result calls].
      destruct IH as (tried & Hp & Hf & Hr).
      exists (bt :: tried).
      split; [by apply prefix_cons|]. split; [by constructor|].
      destruct result as [r|].
      * destruct Hr as (b & Hb & Hfetch & ->). exists b. auto.
      * destruct Hr as [-> ->]. auto.
Qed.

(** X5: [get_odds_for_event] asks for the bet types in a fixed order,
    HOME_AWAY, MATCH_WINNER, HOME_DRAW_AWAY for a sport without a draw and
    HOME_DRAW_AWAY alone otherwise, and stops at the first one that brings
    prices: every earlier request brought nothing, and the result is that
    of the last request made. *)
Theorem bet_types_are_tried_in_order :
  forall api event_id sport,
    let order :=
      match sport with
      | Some s =>
          if bool_decide (s ∈ ["volleyball"; "basketball"; "handball"; "hockey"; "tennis"])
          then ["HOME_AWAY"; "MATCH_WINNER"; "HOME_DRAW_AWAY"]
          else ["HOME_DRAW_AWAY"]
      | None => ["HOME_DRAW_AWAY"]
      end in
    let result := (Client.get_odds_for_event api event_id sport).1 in
    let calls := (Client.get_odds_for_event api event_id sport).2 in
    calls `prefix_of` order
    /\ calls <> []
    /\ (forall i bt, calls !! i = Some bt -> (S i < List.length calls)%nat ->
        Client._fetch_odds_with_bet_type api event_id bt = None)
    /\ (exists bt, last calls = Some bt
        /\ Client._fetch_odds_with_bet_type api event_id bt = result)
    /\ (result = None -> calls = order).
Proof.
  intros api event_id sport order result calls.
  assert (Horder : (Client.get_odds_for_event api event_id sport)
                   = Client.try_bet_types api event_id order /\ order <> []).
  { unfold Client.get_odds_for_event, order. destruct sport as [s|]; [|done].
    unfold Client.SPORTS_WITHOUT_DRAW, Client.BET_TYPES_FOR_NO_DRAW_SPORTS,
      Client.DEFAULT_BET_TYPE.
    destruct (bool_decide _) eqn:E.
    - apply bool_decide_eq_true in E.
      destruct s as [|c s']; [|done]. exfalso.
      repeat (apply elem_of_cons in E as [E|E]; [discriminate|]).
      by apply elem_of_nil in E.
    - rewrite andb_false_r. done. }
  destruct Horder as [Heq Hne]. subst result calls. rewrite Heq. clear Heq.
  pose proof (try_bet_types_spec api event_id order) as H.
  destruct (Client.try_bet_types api event_id order) as [result calls].
  destruct H as (tried & Hp & Hf & Hr). cbn [fst snd].
  rewrite Forall_forall in Hf.
  destruct result as [r|].
  - destruct Hr as (bt & Hbt & Hfetch & ->).
    split.
    { destruct Hp as [k ->]. rewrite lookup_app_r in Hbt by lia.
      replace (List.length tried - List.length tried)%nat with 0%nat in Hbt by lia.
      destruct k as [|x k]; [done|]. cbn in Hbt. simplify_eq.
      apply prefix_app, prefix_cons, prefix_nil. }
    split; [by destruct tried|].
    split.
    { intros i b Hi Hlt. rewrite length_app in Hlt. cbn in Hlt.
      rewrite lookup_app_l in Hi by lia.
      apply Hf. by eapply list_elem_of_lookup_2. }
    split; [exists bt; by rewrite last_snoc|done].
  - destruct Hr as [-> ->]. split; [done|]. split; [done|].
    split.
    { intros i b Hi _. apply Hf. by eapply list_elem_of_lookup_2. }
    split; [|done].
    destruct (last order) as [bt|] eqn:El.
    + exists bt. split; [done|]. apply Hf.
      apply last_Some in El as [l' ->]. apply elem_of_app. right.
      apply list_elem_of_here.
    + apply last_None in El. done.
Qed.

Lemma get_odds_for_event_fetch api event_id sport :
  exists bt,
    Client._fetch_odds_with_bet_type api event_id bt
    = (Client.get_odds_for_event api event_id sport).1.
Proof.
  unfold Client.get_odds_for_event.
  match goal with |- context [Client.try_bet_types _ _ ?l] => set (order := l) end.
  assert (order <> []) as Hne.
  { subst order. destruct sport as [s|]; [|done].
    by destruct (PyStr.truthy s && _). }
  pose proof (try_bet_types_spec api event_id order) as H.
  destruct (Client.try_bet_types api event_id order) as [result calls].
  destruct H as (tried & Hp & Hf & Hr). cbn [fst].
  destruct result as [r|].
  - destruct Hr as (bt & _ & Hfetch & _). eauto.
  - destruct Hr as [-> _]. destruct order as [|bt rest]; [done|].
    exists bt. by apply Forall_cons in Hf as [? _].
Qed.

Lemma get_odds_for_event_fetched api event_id sport odds :
  (Client.get_odds_for_event api event_id sport).1 = Some odds ->
  exists bet_type, Client._fetch_odds_with_bet_type api event_id bet_type = Some odds.
Proof.
  intros H.
  destruct (get_odds_for_event_fetch api event_id sport) as (bt & Hbt).
  rewrite H in Hbt. eauto.
Qed.

Lemma get_odds_from_url_fetched api url sport odds :
  (Client.get_odds_from_url api url sport).1 = Some odds ->
  exists event_id bet_type,
    Client._fetch_odds_with_bet_type api event_id bet_type = Some odds.
Proof.
  unfold Client.get_odds_from_url.
  destruct (Client.extract_event_id_from_url url) as [eid|]; [|discriminate].
  destruct (PyStr.truthy eid); [|discriminate].
  intros H. apply get_odds_for_event_fetched in H as [bt H]. eauto.
Qed.

(** X6: [extract_betting_odds_with_api] returns the two prices together:
    either both entries are [None] and there is no draw entry, or both are
    non-zero numbers and the draw entry is there (possibly [None]). *)
Theorem betting_odds_come_in_pairs :
  forall available net url sport,
    let odds := extract_betting_odds_with_api available net url sport in
    (odds !! "home_odds" = Some VNone /\ odds !! "away_odds" = Some VNone
     /\ odds !! "draw_odds" = None)
    \/ (exists home away,
          odds !! "home_odds" = Some (VFloat home) /\ ~ (home == 0)%Q
          /\ odds !! "away_odds" = Some (VFloat away) /\ ~ (away == 0)%Q
          /\ is_Some (odds !! "draw_odds")).
Proof.
  intros available net url sport. cbv zeta.
  unfold extract_betting_odds_with_api.
  destruct available; [|left; by simplify_map_eq].
  destruct (Client.get_odds_from_url (Client.new "165" net) url (Some sport)).1
    as [odds|] eqn:E; [|left; by simplify_map_eq].
  destruct (dict_truthy odds); [|left; by simplify_map_eq].
  apply get_odds_from_url_fetched in E as (eid & bt & E).
  apply fetched_odds_complete in E as ((h & a & Hh & Hhz & Ha & Haz) & _).
  rewrite Hh, Ha. right. exists h, a.
  repeat split; try assumption; try by simplify_map_eq.
Qed.

Lemma batch_row_is_some url odds event_id bet_type api :
  Client._fetch_odds_with_bet_type api event_id bet_type = Some odds ->
  (is_Some (Client.batch_row url odds) <-> is_Some (odds !! "draw_odds")).
Proof.
  intros H.
  apply fetched_odds_complete in H
    as ((h & a & Hh & _ & Ha & _) & _ & _ & Hs & [n Hn] & _).
  unfold Client.batch_row. rewrite Hh, Ha, Hs, Hn. cbn.
  destruct (odds !! "draw_odds"); cbn; split; intros [? ?]; eauto; discriminate.
Qed.

(** X7: [get_odds_for_matches_batch] reads the draw price with
    [odds['draw_odds']], so it returns exactly when every URL that has
    prices has a draw price among them; one URL with home and away prices
    only makes the whole call raise. *)
Theorem batch_needs_draw_odds :
  forall net bookmaker_id match_urls,
    let api := Client.new bookmaker_id net in
    is_Some (Client.get_odds_for_matches_batch net match_urls bookmaker_id)
    <-> (forall url odds,
           url ∈ match_urls ->
           (Client.get_odds_from_url api url None).1 = Some odds ->
           is_Some (odds !! "draw_odds")).
Proof.
  intros net bookmaker_id match_urls api.
  unfold Client.get_odds_for_matches_batch. fold api.
  induction match_urls as [|url rest IH]; cbn [Client.batch_loop].
  - split; [intros _ url odds Hin; by apply elem_of_nil in Hin|eauto].
  - destruct (Client.get_odds_from_url api url None).1 as [odds|] eqn:E.
    + pose proof E as E'.
      apply get_odds_from_url_fetched in E' as (eid & bt & Hf).
      rewrite (fetched_odds_truthy _ _ _ _ Hf).
      pose proof (batch_row_is_some url odds eid bt api Hf) as Hrow.
      split.
      * intros [rows Hrows] u o Hin Hu.
        destruct (Client.batch_row url odds) as [row|] eqn:Er; [|discriminate].
        cbn in Hrows.
        destruct (Client.batch_loop api rest) as [rs|] eqn:Eb; [|discriminate].
        apply elem_of_cons in Hin as [->|Hin].
        -- rewrite E in Hu. simplify_eq. apply Hrow. eauto.
        -- apply (proj1 IH (ex_intro _ rs eq_refl) u o Hin Hu).
      * intros H.
        assert (is_Some (Client.batch_row url odds)) as [row ->].
        { apply Hrow. apply (H url); [apply list_elem_of_here|exact E]. }
        cbn.
        assert (is_Some (Client.batch_loop api rest)) as [rs ->].
        { apply (proj2 IH). intros u o Hin. apply H. by apply list_elem_of_further. }
        cbn. eauto.
    + rewrite IH. split.
      * intros H u o Hin Hu. apply elem_of_cons in Hin as [->|Hin].
        -- rewrite E in Hu. discriminate.
        -- eauto.
      * intros H u o Hin. apply H. by apply list_elem_of_further.
Qed.

(** The sample bookmaker has no draw price for volleyball: the scraper
    gets its two prices, the batch helper raises. *)
Example batch_raises_without_draw :
  extract_betting_odds_with_api true sample_net sample_url "volleyball" !! "home_odds"
  = Some (VFloat (185 # 100))
  /\ Client.get_odds_for_matches_batch sample_net [sample_url] "165" = None.
Proof. split; vm_compute; reflexivity. Qed.

Lemma over_under_odds_line :
  forall api event_id sport result,
    Client.get_over_under_odds api event_id sport = Some result ->
    exists over under line,
      result !! "over_odds" = Some (VFloat over) /\ ~ (over == 0)%Q
      /\ result !! "under_odds" = Some (VFloat under) /\ ~ (under == 0)%Q
      /\ result !! "line" = Some (VStr line)
      /\ result !! "line_type" = (VStr <$> Client.line_type_of sport).
Proof.
  intros api event_id sport result. unfold Client.get_over_under_odds.
  destruct (Client.http (Client.net api) event_id "OVER_UNDER") as [odds_data|];
    [|discriminate].
  destruct (Client.side_odds api odds_data ["over"]) as [over|] eqn:Eo; [|discriminate].
  destruct (Client.side_odds api odds_data ["under"]) as [under|] eqn:Eu;
    [|discriminate].
  destruct over as [o|].
  - assert (is_Some (odds_data !! "over")) as [entry He].
    { cbn [Client.side_odds] in Eo. destruct (odds_data !! "over"); [eauto|discriminate]. }
    rewrite He.
    match goal with |- context [Client.set_odds "under_odds" under ?r] =>
      set (r1 := r) end.
    set (r2 := Client.set_odds "under_odds" under r1).
    set (r3 := match Client.line_type_of sport with
               | Some t => <["line_type" := VStr t]> r2
               | None => r2
               end).
    assert (Hk : forall k, k <> "line_type" -> r3 !! k = r2 !! k).
    { intros k Hk. subst r3. destruct (Client.line_type_of sport);
        [by rewrite lookup_insert_ne|reflexivity]. }
    assert (Ho : r3 !! "over_odds" = Some (VFloat o)).
    { rewrite Hk by done. subst r2. rewrite set_odds_lookup_ne by done.
      subst r1. rewrite lookup_insert_ne by done. apply lookup_insert_eq. }
    assert (Hu : r3 !! "under_odds" = (VFloat <$> under)).
    { rewrite Hk by done. subst r2. apply set_odds_lookup.
      subst r1. by simplify_map_eq. }
    assert (Hl : exists s, r3 !! "line" = Some (VStr s)).
    { eexists. rewrite Hk by done. subst r2. rewrite set_odds_lookup_ne by done.
      subst r1. apply lookup_insert_eq. }
    assert (Ht : r3 !! "line_type" = (VStr <$> Client.line_type_of sport)).
    { subst r3. destruct (Client.line_type_of sport); cbn;
        [apply lookup_insert_eq|].
      subst r2. rewrite set_odds_lookup_ne by done. subst r1. by simplify_map_eq. }
    unfold dget. rewrite Ho, Hu.
    destruct (py_truthy _ && py_truthy _) eqn:E; [|discriminate].
    intros [= <-]. apply andb_true_iff in E as [E1 E2].
    destruct under as [u|]; [|discriminate].
    cbn in E1, E2. apply negb_true_iff in E1, E2.
    destruct Hl as [s Hl]. exists o, u, s.
    repeat split; try assumption.
    + intros Hz. apply Qeq_bool_iff in Hz. congruence.
    + intros Hz. apply Qeq_bool_iff in Hz. congruence.
  - match goal with |- context [Client.set_odds "under_odds" under ?r] =>
      set (r1 := r) end.
    assert (Ho : forall r, (forall k, k <> "line_type" -> r !! k = Client.set_odds "under_odds" under r1 !! k) ->
                 dget r "over_odds" = VNone).
    { intros r Hr. unfold dget. rewrite Hr by done.
      rewrite set_odds_lookup_ne by done. subst r1. by simplify_map_eq. }
    destruct (Client.line_type_of sport).
    + rewrite Ho; [discriminate|]. intros k Hk. by rewrite lookup_insert_ne.
    + rewrite Ho; [discriminate|]. done.
Qed.

(** X8: a result of [get_over_under_odds] always has an over and an under
    price, both non-zero, and with them the line as a string; so the live
    line [process_match] reads from it is never missing. *)
Theorem over_under_odds_carry_a_line :
  forall api event_id sport result,
    Client.get_over_under_odds api event_id sport = Some result ->
    exists over under line,
      result !! "over_odds" = Some (VFloat over) /\ ~ (over == 0)%Q
      /\ result !! "under_odds" = Some (VFloat under) /\ ~ (under == 0)%Q
      /\ result !! "line" = Some (VStr line)
      /\ result !! "line_type" = (VStr <$> Client.line_type_of sport).
Proof. exact over_under_odds_line. Qed.


Lemma over_under_odds_carry_a_line_witness :
  sample_ou_fetched !! "line_type" = Some (VStr "goals").
Proof.
  assert (H : Client.get_over_under_odds (Client.new "165" sample_ou_net)
                "KQAaF7d2" "football" = Some sample_ou_fetched)
    by (vm_compute; reflexivity).
  pose proof (over_under_odds_carry_a_line _ _ _ _ H) as (o & u & l & _ & _ & _ & _ & _ & Ht).
  exact Ht.
Defined.

(** *** [process_match] over the odds client *)

Lemma run_ou_analysis_keeps_odds env sport h2h api_line k out :
  k ∈ ["over_odds"; "under_odds"; "btts_yes_odds"; "btts_no_odds"] ->
  (Team.run_ou_analysis env sport h2h api_line out).1 !! k = out !! k.
Proof.
  intros Hk. unfold Team.run_ou_analysis.
  destruct (Z.of_nat (length h2h) >=? 5); [|reflexivity].
  destruct (Team.analyze_over_under env _) as [[d|]|]; try reflexivity.
  destruct (dict_truthy d && py_truthy (dget d "qualifies")); [|reflexivity].
  cbn [fst].
  repeat (apply elem_of_cons in Hk as [->|Hk];
          [destruct (String.eqb sport "football" && _); keep_lookup|]).
  by apply elem_of_nil in Hk.
Qed.

Lemma btts_odds_complete api event_id result :
  Client.get_btts_odds api event_id = Some result ->
  exists yes no,
    result !! "btts_yes" = Some (VFloat yes) /\ ~ (yes == 0)%Q
    /\ result !! "btts_no" = Some (VFloat no) /\ ~ (no == 0)%Q.
Proof.
  unfold Client.get_btts_odds.
  destruct (Client.http (Client.net api) event_id "BOTH_TEAMS_SCORE") as [odds_data|];
    [|discriminate].
  destruct (Client.side_odds api odds_data ["yes"]) as [yes|]; [|discriminate].
  destruct (Client.side_odds api odds_data ["no"]) as [no|]; [|discriminate].
  assert (Hy : Client.set_odds "btts_no" no (Client.set_odds "btts_yes" yes ∅)
               !! "btts_yes" = (VFloat <$> yes)).
  { rewrite set_odds_lookup_ne by done. by apply set_odds_lookup. }
  assert (Hn : Client.set_odds "btts_no" no (Client.set_odds "btts_yes" yes ∅)
               !! "btts_no" = (VFloat <$> no)).
  { apply set_odds_lookup. by rewrite set_odds_lookup_ne by done. }
  unfold dget. rewrite Hy, Hn.
  destruct (py_truthy _ && py_truthy _) eqn:E; [|discriminate].
  intros [= <-]. apply andb_true_iff in E as [E1 E2].
  destruct yes as [y|]; [|discriminate]. destruct no as [n|]; [|discriminate].
  cbn in E1, E2. apply negb_true_iff in E1, E2.
  exists y, n. rewrite Hy, Hn. repeat split.
  - intros Hz. apply Qeq_bool_iff in Hz. congruence.
  - intros Hz. apply Qeq_bool_iff in Hz. congruence.
Qed.

Lemma event_id_truthy url event_id :
  Client.extract_event_id_from_url url = Some event_id ->
  PyStr.truthy event_id = true.
Proof.
  unfold Client.extract_event_id_from_url.
  assert (forall g, g <> "" -> PyStr.truthy g = true) as Ht
    by (intros [|] ?; [done|reflexivity]).
  destruct (PyText.search Client.mid_match_here url) as [g|] eqn:E.
  - intros [= <-].
    apply (search_sound _ _ mid_match_here_group) in E as [? ?]. auto.
  - intros E'.
    apply (search_sound _ _ hash_match_here_group) in E' as [? ?]. auto.
Qed.

Lemma contains_mid_truthy url :
  PyStr.contains "?mid=" url = true -> PyStr.truthy url = true.
Proof. intros H. destruct url; [vm_compute in H; discriminate|reflexivity]. Qed.

Lemma over_under_odds_truthy api event_id sport d :
  Client.get_over_under_odds api event_id sport = Some d -> dict_truthy d = true.
Proof.
  intros H. apply over_under_odds_line in H as (o & u & l & Ho & _).
  unfold dict_truthy. apply negb_true_iff, bool_decide_eq_false.
  intros ->. by rewrite lookup_empty in Ho.
Qed.

Lemma btts_odds_truthy api event_id b :
  Client.get_btts_odds api event_id = Some b -> dict_truthy b = true.
Proof.
  intros H. apply btts_odds_complete in H as (y & no & Hy & _).
  unfold dict_truthy. apply negb_true_iff, bool_decide_eq_false.
  intros ->. by rewrite lookup_empty in Hy.
Qed.

(** The over/under step over the client: the event is looked up with at
    least 5 rows and a URL with [?mid=]; the prices and the line are those
    of the client's over/under odds, the BTTS prices those of its BTTS
    odds, asked for football only. *)
Lemma fetch_ou_odds_client net url mt pg lf an sport n out event live live_btts :
  event = (if (n >=? 5) && PyStr.contains "?mid=" url
           then Client.extract_event_id_from_url url else None) ->
  live = event ≫= (fun event_id =>
                     Client.get_over_under_odds (Client.new "165" net) event_id sport) ->
  live_btts = (if String.eqb sport "football"
               then event ≫= Client.get_btts_odds (Client.new "165" net)
               else None) ->
  Team.fetch_ou_odds (client_env net url mt pg lf an) url sport n out
  = (let out :=
       match live with
       | Some d =>
           <["under_odds" := dget d "under_odds"]>
             (<["over_odds" := dget d "over_odds"]> out)
       | None => out
       end in
     match live_btts with
     | Some b =>
         <["btts_no_odds" := dget b "btts_no"]>
           (<["btts_yes_odds" := dget b "btts_yes"]> out)
     | None => out
     end,
     match live with Some d => dget d "line" | None => VNone end).
Proof.
  intros -> -> ->. cbv zeta. unfold Team.fetch_ou_odds, client_env.
  cbn [Team.event_id Team.over_under_odds Team.btts_odds].
  destruct (n >=? 5);
    [|rewrite andb_false_r; cbn; by destruct (String.eqb sport "football")].
  destruct (PyStr.contains "?mid=" url) eqn:Hm;
    [|rewrite andb_false_r; cbn; by destruct (String.eqb sport "football")].
  rewrite (contains_mid_truthy _ Hm). cbn [andb].
  destruct (Client.extract_event_id_from_url url) as [eid|] eqn:Ee;
    [|cbn; by destruct (String.eqb sport "football")].
  rewrite (event_id_truthy _ _ Ee). cbn [mbind option_bind].
  destruct (Client.get_over_under_odds _ eid sport) as [d|] eqn:Eou;
    [rewrite (over_under_odds_truthy _ _ _ _ Eou)|];
    (destruct (String.eqb sport "football"); [|reflexivity]);
    (destruct (Client.get_btts_odds _ eid) as [b|] eqn:Eb; [|reflexivity]);
    by rewrite (btts_odds_truthy _ _ _ Eb).
Qed.

Lemma ou_defaults_odds out :
  Team.ou_defaults out !! "over_odds" = Some VNone
  /\ Team.ou_defaults out !! "under_odds" = Some VNone
  /\ Team.ou_defaults out !! "btts_yes_odds" = Some VNone
  /\ Team.ou_defaults out !! "btts_no_odds" = Some VNone.
Proof. unfold Team.ou_defaults. repeat split; read_entry. Qed.

(** The four prices of the verdict are those the over/under step leaves. *)
Lemma process_match_odds_entries env url home_team away_team h2h away_team_focus :
  exists out0,
    forall k,
      k ∈ ["over_odds"; "under_odds"; "btts_yes_odds"; "btts_no_odds"] ->
      (Team.process_match env url home_team away_team h2h away_team_focus).1 !! k
      = (Team.fetch_ou_odds env url (Team.detect_sport url) (Z.of_nat (length h2h))
           (Team.ou_defaults out0)).1 !! k.
Proof.
  unfold Team.process_match.
  destruct (Team.count_wins home_team away_team h2h) as [cnt_home cnt_away].
  match goal with
  | |- context [Team.fetch_ou_odds _ _ _ _ (Team.ou_defaults ?start)] =>
      exists start
  end.
  intros k Hk.
  destruct (Team.fetch_ou_odds _ _ _ _ _) as [out1 api_line]. cbn [fst].
  by apply run_ou_analysis_keeps_odds.
Qed.

(** X9: with the odds client behind [process_match], the event is looked
    up only with at least 5 H2H rows and a URL with [?mid=]. When the
    client has over/under odds for it, the over and under prices of the
    verdict are the client's two prices, both non-zero numbers, and the
    analyser is called once, with the client's line when that string is
    not empty and with the number of the sport's default otherwise. When
    the client has none, or no event is looked up, both prices are [None]
    and the line of the call, made with at least 5 rows, is the sport's
    default. The two BTTS prices are those of the client's BTTS odds, asked
    for football only, both non-zero numbers, and both [None] otherwise. *)
Theorem verdict_odds_over_the_client :
  forall net url match_time pages legacy_forms analyzer home_team away_team h2h
         away_team_focus,
    let env := client_env net url match_time pages legacy_forms analyzer in
    let result := Team.process_match env url home_team away_team h2h away_team_focus in
    let out := result.1 in
    let sport := Team.detect_sport url in
    let n := Z.of_nat (length h2h) in
    let api := Client.new "165" net in
    let event :=
      if (n >=? 5) && PyStr.contains "?mid=" url
      then Client.extract_event_id_from_url url else None in
    let live :=
      event ≫= (fun event_id => Client.get_over_under_odds api event_id sport) in
    let live_btts :=
      if String.eqb sport "football" then event ≫= Client.get_btts_odds api
      else None in
    let default_line := VFloat (default (25 # 10) (Team.default_lines !! sport)) in
    let calls line :=
      if n >=? 5 then [mkCall sport h2h h2h h2h (Some line)] else [] in
    match live with
    | Some d =>
        exists over under line,
          d !! "over_odds" = Some (VFloat over) /\ ~ (over == 0)%Q
          /\ d !! "under_odds" = Some (VFloat under) /\ ~ (under == 0)%Q
          /\ d !! "line" = Some (VStr line)
          /\ out !! "over_odds" = Some (VFloat over)
          /\ out !! "under_odds" = Some (VFloat under)
          /\ 5 <= n
          /\ result.2
             = [mkCall sport h2h h2h h2h
                  (Some (if PyStr.truthy line then VStr line else default_line))]
    | None =>
        out !! "over_odds" = Some VNone /\ out !! "under_odds" = Some VNone
        /\ result.2 = calls default_line
    end
    /\ match live_btts with
       | Some b =>
           exists yes no,
             b !! "btts_yes" = Some (VFloat yes) /\ ~ (yes == 0)%Q
             /\ b !! "btts_no" = Some (VFloat no) /\ ~ (no == 0)%Q
             /\ out !! "btts_yes_odds" = Some (VFloat yes)
             /\ out !! "btts_no_odds" = Some (VFloat no)
       | None =>
           out !! "btts_yes_odds" = Some VNone /\ out !! "btts_no_odds" = Some VNone
       end.
Proof.
  intros net url mt pg lf an home_team away_team h2h focus env result out sport n
    api event live live_btts default_line calls.
  pose proof (fun o => fetch_ou_odds_client net url mt pg lf an sport n o
                         event live live_btts eq_refl eq_refl eq_refl) as F.
  fold env in F.
  assert (Hcalls : result.2
                   = calls (Team.line_to_use
                              match live with Some d => dget d "line" | None => VNone end
                              sport)).
  { subst result calls. rewrite (team_ou_calls env url home_team away_team h2h focus).
    fold sport n. by rewrite F. }
  destruct (process_match_odds_entries env url home_team away_team h2h focus)
    as [out0 Hout].
  fold result out sport n in Hout. rewrite F in Hout. cbn [fst] in Hout.
  destruct (ou_defaults_odds out0) as (Do & Du & Dy & Dn).
  assert (Ho := Hout "over_odds"). assert (Hu := Hout "under_odds").
  assert (Hy := Hout "btts_yes_odds"). assert (Hn := Hout "btts_no_odds").
  specialize (Ho ltac:(repeat first [apply list_elem_of_here | apply list_elem_of_further])).
  specialize (Hu ltac:(repeat first [apply list_elem_of_here | apply list_elem_of_further])).
  specialize (Hy ltac:(repeat first [apply list_elem_of_here | apply list_elem_of_further])).
  specialize (Hn ltac:(repeat first [apply list_elem_of_here | apply list_elem_of_further])).
  clear Hout F.
  assert (Hn5 : forall d, live = Some d -> 5 <= n).
  { intros d. subst live event. destruct (Z.geb_spec n 5); [auto|discriminate]. }
  assert (El : live = event ≫= (fun event_id =>
                                   Client.get_over_under_odds api event_id sport))
    by reflexivity.
  assert (Eb : live_btts = if String.eqb sport "football"
                           then event ≫= Client.get_btts_odds api else None)
    by reflexivity.
  clearbody live live_btts.
  assert (Hb : forall b, live_btts = Some b ->
                 exists yes no,
                   b !! "btts_yes" = Some (VFloat yes) /\ ~ (yes == 0)%Q
                   /\ b !! "btts_no" = Some (VFloat no) /\ ~ (no == 0)%Q).
  { intros b Hb. rewrite Eb in Hb.
    destruct (String.eqb sport "football"); [|discriminate].
    apply bind_Some in Hb as (eid & _ & Hb). by apply btts_odds_complete in Hb. }
  assert (Hl : forall d, live = Some d ->
                 exists over under line,
                   d !! "over_odds" = Some (VFloat over) /\ ~ (over == 0)%Q
                   /\ d !! "under_odds" = Some (VFloat under) /\ ~ (under == 0)%Q
                   /\ d !! "line" = Some (VStr line)).
  { intros d Hd. rewrite El in Hd. apply bind_Some in Hd as (eid & _ & Hd).
    apply over_under_odds_line in Hd as (o & u & l & ? & ? & ? & ? & ? & _).
    by exists o, u, l. }
  clear El Eb. split.
  - destruct live as [d|].
    + destruct (Hl d eq_refl) as (o & u & l & Eo & Hoz & Eu & Huz & Eline).
      specialize (Hn5 d eq_refl).
      exists o, u, l. repeat match goal with |- _ /\ _ => split end; try assumption.
      * rewrite Ho. unfold dget. rewrite Eo. cbn [default from_option id].
        destruct live_btts; read_entry.
      * rewrite Hu. unfold dget. rewrite Eu. cbn [default from_option id].
        destruct live_btts; read_entry.
      * rewrite Hcalls. unfold calls, dget. rewrite Eline. cbn [default from_option id].
        destruct (Z.geb_spec n 5); [|lia].
        unfold Team.line_to_use. cbn [py_truthy]. by destruct (PyStr.truthy l).
    + repeat match goal with |- _ /\ _ => split end.
      * rewrite Ho. destruct live_btts; [keep_lookup|]; exact Do.
      * rewrite Hu. destruct live_btts; [keep_lookup|]; exact Du.
      * by rewrite Hcalls.
  - destruct live_btts as [b|].
    + destruct (Hb b eq_refl) as (y & no & Ey & Hyz & Eno & Hnz).
      exists y, no. repeat match goal with |- _ /\ _ => split end; try assumption.
      * rewrite Hy. unfold dget. rewrite Ey. read_entry.
      * rewrite Hn. unfold dget. rewrite Eno. read_entry.
    + rewrite Hy, Hn. destruct live; split; keep_lookup; assumption.
Qed.

(** *** Form advantage *)

(** X10: the two form predicates never hold together: whatever the form
    dictionary holds, a home advantage and an away advantage exclude each
    other. *)
Theorem form_advantages_exclude_each_other :
  forall form_data,
    Form._analyze_form_advantage form_data
    && Form._analyze_away_form_advantage form_data = false.
Proof.
  intros form_data.
  unfold Form._analyze_form_advantage, Form._analyze_away_form_advantage.
  destruct (Form.form_at form_data "home_form_overall") as [ho|]; [|reflexivity].
  destruct (Form.form_at form_data "away_form_overall") as [ao|]; [|reflexivity].
  destruct (Form.form_at form_data "home_form_home") as [hh|]; [|reflexivity].
  destruct (Form.form_at form_data "away_form_away") as [aa|]; [|reflexivity].
  cbv zeta.
  generalize (Form.form_points ho) (Form.form_points ao)
    (Form.form_points hh) (Form.form_points aa).
  intros a b c d.
  destruct (Z.geb_spec a 7), (Z.leb_spec b 6), (Z.gtb_spec a b), (Z.gtb_spec c d),
    (Z.geb_spec b 7), (Z.leb_spec a 6), (Z.gtb_spec b a), (Z.gtb_spec d c);
    cbn; try reflexivity; lia.
Qed.

Lemma form_stage_not_qualified env url focus out :
  let out' := Blk.exec (Team.form_stage env url focus false) out in
  out' !! "form_advantage" = Some (VBool false)
  /\ out' !! "home_form_overall" = Some (VForm [])
  /\ out' !! "away_form_overall" = Some (VForm [])
  /\ out' !! "home_form_home" = Some (VForm [])
  /\ out' !! "away_form_away" = Some (VForm []).
Proof.
  cbv zeta. unfold Blk.exec, Team.form_stage, Blk.bind, Blk.set. cbn [fst snd].
  repeat split; read_entry.
Qed.

(** X11: the forms are looked at only for an event that qualifies on H2H:
    in the verdict of an event that does not qualify, [form_advantage] is
    false and the four form lists are empty. *)
Theorem no_form_without_qualification :
  forall env url home_team away_team h2h away_team_focus,
    let out := (Team.process_match env url home_team away_team h2h away_team_focus).1 in
    out !! "qualifies" = Some (VBool false) ->
    out !! "form_advantage" = Some (VBool false)
    /\ out !! "home_form_overall" = Some (VForm [])
    /\ out !! "away_form_overall" = Some (VForm [])
    /\ out !! "home_form_home" = Some (VForm [])
    /\ out !! "away_form_away" = Some (VForm []).
Proof.
  intros env url home_team away_team h2h focus out Hq.
  destruct (process_match_verdict env url home_team away_team h2h focus)
    as (_ & _ & _ & _ & Hq').
  fold out in Hq'. rewrite Hq in Hq'. injection Hq' as Hb.
  subst out. clear Hq. unfold Team.process_match.
  destruct (Team.count_wins home_team away_team h2h) as [cnt_home cnt_away].
  cbv zeta in Hb. cbn [fst snd] in Hb. rewrite <- Hb.
  match goal with |- context [Blk.exec ?m ?o] =>
    destruct (form_stage_not_qualified env url focus o) as (F1 & F2 & F3 & F4 & F5)
  end.
  match goal with |- context [Team.fetch_ou_odds ?e ?u ?s ?n ?o] =>
    pose proof (fun k => fetch_ou_odds_keeps e u s n k o) as Hfetch;
    destruct (Team.fetch_ou_odds e u s n o) as [out1 api_line] end.
  cbn [fst snd] in *.
  repeat split.
  all: rewrite run_ou_analysis_keeps, Hfetch, ou_defaults_keeps
         by (unfold ou_keys; notin_keys).
  all: rewrite !(lookup_insert_ne _ "away_odds"), !(lookup_insert_ne _ "home_odds") by done.
  all: assumption.
Qed.

Lemma no_form_without_qualification_witness :
  (Team.process_match silent_team_env "https://x/mecz/a/b/?mid=Ab1"
     (Some "Alpha") (Some "Beta") (alpha_wins 2) false).1 !! "form_advantage"
  = Some (VBool false).
Proof.
  apply (no_form_without_qualification silent_team_env "https://x/mecz/a/b/?mid=Ab1"
           (Some "Alpha") (Some "Beta") (alpha_wins 2) false).
  vm_compute. reflexivity.
Defined.

(** *** The over/under verdict *)

Lemma fetch_ou_odds_keeps_analysis env url sport n k out :
  k ∉ ["over_odds"; "under_odds"; "btts_yes_odds"; "btts_no_odds"] ->
  (Team.fetch_ou_odds env url sport n out).1 !! k = out !! k.
Proof.
  intros H. split_notin H. unfold Team.fetch_ou_odds.
  destruct (_ && _ && _); [|reflexivity].
  destruct (Team.event_id env) as [[eid|]|]; try reflexivity.
  destruct (PyStr.truthy eid); [|reflexivity].
  destruct (Team.over_under_odds env eid sport) as [[d|]|]; try reflexivity.
  - destruct (dict_truthy d), (String.eqb sport "football");
      try destruct (Team.btts_odds env eid) as [[b|]|];
      try destruct (dict_truthy b); cbn [fst]; keep_lookup.
  - destruct (String.eqb sport "football");
      try destruct (Team.btts_odds env eid) as [[b|]|];
      try destruct (dict_truthy b); cbn [fst]; keep_lookup.
Qed.

Lemma ou_verdict_analysed :
  forall env url home_team away_team h2h away_team_focus,
    let result := Team.process_match env url home_team away_team h2h away_team_focus in
    let out := result.1 in
    let sport := Team.detect_sport url in
    (out !! "ou_qualifies" = Some (VBool true) \/ out !! "ou_qualifies" = Some (VBool false))
    /\ (out !! "ou_qualifies" = Some (VBool true) ->
        5 <= Z.of_nat (length h2h)
        /\ exists call answer,
             result.2 = [call]
             /\ Team.analyze_over_under env call = Some (Some answer)
             /\ py_truthy (dget answer "qualifies") = true
             /\ out !! "ou_recommendation" = Some (dget answer "recommendation"))
    /\ (out !! "btts_qualifies" <> Some (VBool false) ->
        sport = "football" /\ out !! "ou_qualifies" = Some (VBool true)).
Proof.
  intros env url home_team away_team h2h focus result out sport.
  subst out result. unfold Team.process_match.
  destruct (Team.count_wins home_team away_team h2h) as [cnt_home cnt_away].
  fold sport.
  match goal with |- context [Team.fetch_ou_odds ?e ?u ?s ?n (Team.ou_defaults ?o)] =>
    pose proof (fun k H => fetch_ou_odds_keeps_analysis e u s n k (Team.ou_defaults o) H)
      as Hfetch;
    assert (Hq0 : Team.ou_defaults o !! "ou_qualifies" = Some (VBool false))
      by (unfold Team.ou_defaults; read_entry);
    assert (Hb0 : Team.ou_defaults o !! "btts_qualifies" = Some (VBool false))
      by (unfold Team.ou_defaults; read_entry);
    destruct (Team.fetch_ou_odds e u s n (Team.ou_defaults o)) as [out1 api_line]
  end.
  cbn [fst snd] in Hfetch.
  rewrite <- Hfetch in Hq0, Hb0 by notin_keys.
  unfold Team.run_ou_analysis.
  destruct (Z.geb_spec (Z.of_nat (length h2h)) 5) as [Hn|Hn]; cbn [fst snd].
  2: { rewrite Hq0, Hb0. split; [auto|]. split; [discriminate|]. done. }
  match goal with |- context [Team.analyze_over_under env ?c] =>
    set (call := c); destruct (Team.analyze_over_under env call) as [[d|]|] eqn:Ean end;
    cbn [fst snd].
  2,3: rewrite Hq0, Hb0; split; [auto|]; split; [discriminate|]; done.
  destruct (dict_truthy d && py_truthy (dget d "qualifies")) eqn:Et; cbn [fst snd].
  2: { rewrite Hq0, Hb0. split; [auto|]. split; [discriminate|]. done. }
  apply andb_true_iff in Et as [_ Et].
  destruct (String.eqb_spec sport "football") as [Hs|Hs]; cbn [andb].
  - destruct (bool_decide _).
    + assert (Hq : forall v1 v2 v3 v4 v5 v6 (o : PyDict),
        (<["btts_h2h_percentage" := v1]> (<["btts_qualifies" := v2]>
         (<["ou_h2h_percentage" := v3]> (<["ou_line_type" := v4]>
         (<["ou_line" := v5]> (<["ou_recommendation" := v6]>
         (<["ou_qualifies" := VBool true]> o))))))) !! "ou_qualifies"
        = Some (VBool true)) by (intros; read_entry).
      rewrite Hq. split; [auto|]. split; [|auto].
      intros _. split; [assumption|]. exists call, d.
      repeat split; try assumption. read_entry.
    + assert (Hq : forall v3 v4 v5 v6 (o : PyDict),
        (<["ou_h2h_percentage" := v3]> (<["ou_line_type" := v4]>
         (<["ou_line" := v5]> (<["ou_recommendation" := v6]>
         (<["ou_qualifies" := VBool true]> o))))) !! "ou_qualifies"
        = Some (VBool true)) by (intros; read_entry).
      rewrite Hq. split; [auto|]. split; [|auto].
      intros _. split; [assumption|]. exists call, d.
      repeat split; try assumption. read_entry.
  - assert (Hq : forall v3 v4 v5 v6 (o : PyDict),
      (<["ou_h2h_percentage" := v3]> (<["ou_line_type" := v4]>
       (<["ou_line" := v5]> (<["ou_recommendation" := v6]>
       (<["ou_qualifies" := VBool true]> o))))) !! "ou_qualifies"
      = Some (VBool true)) by (intros; read_entry).
    rewrite Hq. split; [auto|]. split.
    + intros _. split; [assumption|]. exists call, d.
      repeat split; try assumption. read_entry.
    + rewrite !lookup_insert_ne by done. rewrite Hb0. done.
Qed.

(** X12: in the verdict of [process_match], [ou_qualifies] is true only
    when there are at least 5 H2H rows and the analyser answered with a
    truthy ['qualifies']; and [btts_qualifies] is anything but [False] only
    for football and only together with a true [ou_qualifies]. *)
Theorem over_under_verdict_needs_the_analyser :
  forall env url home_team away_team h2h away_team_focus,
    let result := Team.process_match env url home_team away_team h2h away_team_focus in
    let out := result.1 in
    let sport := Team.detect_sport url in
    (out !! "ou_qualifies" = Some (VBool true) \/ out !! "ou_qualifies" = Some (VBool false))
    /\ (out !! "ou_qualifies" = Some (VBool true) ->
        5 <= Z.of_nat (length h2h)
        /\ exists call answer,
             result.2 = [call]
             /\ Team.analyze_over_under env call = Some (Some answer)
             /\ py_truthy (dget answer "qualifies") = true
             /\ out !! "ou_recommendation" = Some (dget answer "recommendation"))
    /\ (out !! "btts_qualifies" <> Some (VBool false) ->
        sport = "football" /\ out !! "ou_qualifies" = Some (VBool true)).
Proof. exact ou_verdict_analysed. Qed.

(** *** The form pages *)

Lemma fold_left_invariant {A B} (P : A -> Prop) (f : A -> B -> A) l : forall a,
  P a -> (forall a b, P a -> P (f a b)) -> P (fold_left f l a).
Proof.
  induction l as [|b l IH]; intros a Ha Hf; cbn; [assumption|].
  apply IH; [apply Hf; assumption|assumption].
Qed.

Ltac in_list :=
  repeat first [apply list_elem_of_here | apply list_elem_of_further].

Lemma badge_symbol_result badge s :
  FormPage.badge_symbol badge = Some s -> s ∈ result_symbols.
Proof.
  unfold FormPage.badge_symbol, result_symbols.
  destruct (_ || _); [intros [= <-]; in_list|].
  destruct (_ || _); [intros [= <-]; in_list|].
  destruct (_ || _); [intros [= <-]; in_list|discriminate].
Qed.

Lemma temp_form_results badges :
  Forall (fun s => s ∈ result_symbols) (FormPage.temp_form badges).
Proof.
  apply Forall_forall. intros s Hs. unfold FormPage.temp_form in Hs.
  apply list_elem_of_omap in Hs as (b & _ & Hb).
  eapply badge_symbol_result; eassumption.
Qed.

Lemma assign_invariant context forms idx temp_form :
  form_page_invariant context forms ->
  Forall (fun s => s ∈ result_symbols) temp_form ->
  form_page_invariant context (FormPage.assign context forms idx temp_form).
Proof.
  intros (H1 & H2 & Hh & Ha & Hn) Ht. unfold FormPage.assign.
  destruct (String.eqb_spec context "overall") as [->|Ho].
  { destruct idx as [|[|idx]]; cbn; repeat split; try done.
    all: intros Hc; exfalso; apply Hc; in_list. }
  destruct (String.eqb_spec context "home") as [->|Hhome].
  { destruct idx as [|idx]; cbn; repeat split; try done; auto.
    all: intros Hc; exfalso; apply Hc; in_list. }
  destruct (String.eqb_spec context "away") as [->|Haway].
  { destruct idx as [|idx]; cbn; repeat split; try done; auto.
    all: intros Hc; exfalso; apply Hc; in_list. }
  repeat split; assumption.
Qed.

Lemma fallback_row_invariant context forms score_elem :
  form_page_invariant context forms ->
  form_page_invariant context (FormPage.fallback_row context forms score_elem).
Proof.
  intros Hinv. unfold FormPage.fallback_row.
  destruct score_elem as [score_text|]; [|assumption].
  destruct (PyStr.contains ":" score_text); [|assumption].
  destruct (PyText.split ":" score_text) as [|a [|b [|c rest]]]; try assumption.
  destruct (PyText.py_int a) as [home_score|]; [|assumption].
  destruct (PyText.py_int b) as [away_score|]; [|assumption].
  destruct Hinv as (H1 & H2 & Hh & Ha & Hn).
  assert (Hadd : forall yes symbol l,
            symbol ∈ result_symbols ->
            Forall (fun s => s ∈ result_symbols) l ->
            Forall (fun s => s ∈ result_symbols)
              (if yes : bool then (l ++ [symbol])%list else l)).
  { intros [] symbol l Hs Hl; [|assumption].
    apply Forall_app. split; [assumption|]. by constructor. }
  assert (HW : "W" ∈ result_symbols) by (unfold result_symbols; in_list).
  assert (HD : "D" ∈ result_symbols) by (unfold result_symbols; in_list).
  assert (HL : "L" ∈ result_symbols) by (unfold result_symbols; in_list).
  destruct (String.eqb_spec context "overall") as [->|Ho];
    [|destruct (String.eqb_spec context "home") as [->|Hhome];
      [|destruct (String.eqb_spec context "away") as [->|Haway]]];
    cbn;
    destruct (home_score >? away_score); try destruct (away_score >? home_score);
    cbn [fst snd]; repeat split; auto; try done;
    try (intros Hc; first [by rewrite (Hn Hc) | exfalso; apply Hc; in_list]).
  all: try (apply Forall_app; split; [auto|by constructor]).
Qed.

Lemma from_sections_invariant context sections :
  form_page_invariant context (FormPage.from_sections context sections).
Proof.
  unfold FormPage.from_sections. apply fold_left_invariant.
  - repeat split; done.
  - intros forms [idx section] H. apply assign_invariant; [assumption|].
    apply temp_form_results.
Qed.

Lemma extract_form_invariant page context :
  form_page_invariant context (FormPage._extract_form_from_h2h_page page context).
Proof.
  destruct page as [p|]; [|repeat split; done].
  unfold FormPage._extract_form_from_h2h_page.
  match goal with |- context [take 5 (fst ?f)] => set (forms := f) end.
  assert (H : form_page_invariant context forms).
  { subst forms. destruct (FormPage.needs_fallback _ _).
    - apply fold_left_invariant; [apply from_sections_invariant|].
      intros. by apply fallback_row_invariant.
    - apply from_sections_invariant. }
  destruct H as (H1 & H2 & Hh & Ha & Hn). repeat split; cbn [fst snd].
  - by apply Forall_take.
  - by apply Forall_take.
  - intros Hc. by rewrite (Hh Hc).
  - intros Hc. by rewrite (Ha Hc).
  - intros Hc. by rewrite (Hn Hc).
Qed.

Lemma extract_form_is_form page context :
  is_form (FormPage._extract_form_from_h2h_page page context).1
  /\ is_form (FormPage._extract_form_from_h2h_page page context).2.
Proof.
  pose proof (extract_form_invariant page context) as (H1 & H2 & _).
  unfold is_form. repeat split; try assumption.
  all: destruct page as [p|]; cbn; rewrite ?length_take; lia.
Qed.

(** X13: [_extract_form_from_h2h_page] returns two lists of at most five
    results, each 'W', 'D' or 'L', whatever the page holds. In the context
    'home' the away list is empty, in the context 'away' the home list, and
    in any context other than 'overall', 'home' and 'away' both are. *)
Theorem form_page_gives_forms :
  forall page context,
    let forms := FormPage._extract_form_from_h2h_page page context in
    is_form forms.1 /\ is_form forms.2
    /\ (context = "home" -> forms.2 = [])
    /\ (context = "away" -> forms.1 = [])
    /\ (context ∉ ["overall"; "home"; "away"] -> forms = ([], [])).
Proof.
  intros page context forms. subst forms.
  pose proof (extract_form_is_form page context) as [H1 H2].
  pose proof (extract_form_invariant page context) as (_ & _ & Hh & Ha & Hn).
  auto.
Qed.

Lemma is_form_points l : is_form l -> 0 <= Form.form_points l <= 15.
Proof.
  intros [Hlen _]. rewrite form_points_count.
  pose proof (count_occ_bound string_dec "W" l).
  pose proof (count_occ_bound string_dec "D" l).
  assert (count_occ string_dec l "W" + count_occ string_dec l "D" <= List.length l)%nat.
  { clear. induction l as [|x l IH]; cbn; [lia|].
    destruct (string_dec x "W") as [->|]; destruct (string_dec _ "D"); try done; lia. }
  lia.
Qed.

(** *** The forms in the verdict of [process_match] *)

Ltac split_ands := repeat match goal with |- _ /\ _ => split end.

Lemma try_except_completes body handler out :
  Blk.completes body out = true ->
  Blk.try_except body handler out = body out.
Proof.
  unfold Blk.completes, Blk.try_except.
  destruct (body out) as [out' [[]|]]; [reflexivity|discriminate].
Qed.

(** The [try] of the form stage always ends normally, so its handler does
    not run. *)
Lemma form_stage_without_handler env url focus b out :
  Blk.exec (Team.form_stage env url focus b) out
  = Blk.exec
      (Blk.set "home_form" (VForm []) ;;;
       Blk.set "away_form" (VForm []) ;;;
       Blk.set "home_form_overall" (VForm []) ;;;
       Blk.set "home_form_home" (VForm []) ;;;
       Blk.set "away_form_overall" (VForm []) ;;;
       Blk.set "away_form_away" (VForm []) ;;;
       Blk.set "form_advantage" (VBool false) ;;;
       if b
       then Team.form_try (Form.extract_advanced_team_form url (Team.pages env)) focus b
       else Blk.set "qualifies" (VBool false)) out.
Proof.
  unfold Blk.exec, Team.form_stage.
  unfold Blk.bind at 1 2 3 4 5 6 7 8 9 10 11 12 13 14. cbn [Blk.set].
  destruct b; [|reflexivity].
  rewrite try_except_completes; [reflexivity|apply advanced_form_is_complete].
Qed.

Lemma form_stage_legacy env forms url focus b out :
  Blk.exec (Team.form_stage (with_legacy_forms env forms) url focus b) out
  = Blk.exec (Team.form_stage env url focus b) out.
Proof. rewrite !form_stage_without_handler. reflexivity. Qed.

(** X14: the old form extraction [extract_team_form] is never consulted:
    the dictionary of [extract_advanced_team_form] always holds the entries
    the [try] around the advanced form analysis reads (its progress messages
    are not part of the model), so the verdict of [process_match] and its
    calls to the over/under analyser are the same whatever
    [extract_team_form] would return or raise. *)
Theorem legacy_form_extraction_is_dead :
  forall env forms url home_team away_team h2h away_team_focus,
    Team.process_match (with_legacy_forms env forms) url home_team away_team
      h2h away_team_focus
    = Team.process_match env url home_team away_team h2h away_team_focus.
Proof.
  intros. unfold Team.process_match.
  destruct (Team.count_wins home_team away_team h2h) as [cnt_home cnt_away].
  rewrite form_stage_legacy. reflexivity.
Qed.

(** The four lists of the dictionary [extract_advanced_team_form]
    returns. *)
Lemma advanced_form_lists url pages :
  exists ho ao hh aa,
    let result := Form.extract_advanced_team_form url pages in
    result !! "home_form_overall" = Some (VForm ho)
    /\ result !! "away_form_overall" = Some (VForm ao)
    /\ result !! "home_form_home" = Some (VForm hh)
    /\ result !! "away_form_away" = Some (VForm aa)
    /\ is_Some (result !! "form_advantage")
    /\ (forall p, pages = Some p ->
        (ho = (Form.overall p).1 \/ ho = [])
        /\ (ao = (Form.overall p).2 \/ ao = [])
        /\ (hh = (Form.at_home p).1 \/ hh = [])
        /\ (aa = (Form.at_away p).2 \/ aa = []))
    /\ (pages = None -> ho = [] /\ ao = [] /\ hh = [] /\ aa = []).
Proof.
  unfold Form.extract_advanced_team_form, Form.empty_result.
  destruct (_ || _); [destruct pages as [p|]|].
  - exists (Form.overall p).1, (Form.overall p).2, (Form.at_home p).1, (Form.at_away p).2.
    cbv zeta. split_ands; try read_entry.
    + eexists. read_entry.
    + intros ? [= <-]. auto.
    + discriminate.
  - exists [], [], [], []. cbv zeta. split_ands; try reflexivity.
    + eexists; reflexivity.
    + discriminate.
    + auto.
  - exists [], [], [], []. cbv zeta. split_ands; try reflexivity.
    + eexists; reflexivity.
    + auto.
    + auto.
Qed.

Lemma form_try_lists adv focus b out v1 v2 v3 v4 :
  adv !! "home_form_overall" = Some v1 ->
  adv !! "home_form_home" = Some v2 ->
  adv !! "away_form_overall" = Some v3 ->
  adv !! "away_form_away" = Some v4 ->
  is_Some (adv !! "form_advantage") ->
  let out' := Blk.exec (Team.form_try adv focus b) out in
  out' !! "home_form_overall" = Some v1
  /\ out' !! "home_form_home" = Some v2
  /\ out' !! "away_form_overall" = Some v3
  /\ out' !! "away_form_away" = Some v4
  /\ out' !! "home_form" = Some v1
  /\ out' !! "away_form" = Some v3.
Proof.
  intros H1 H2 H3 H4 [v5 H5]. cbv zeta.
  unfold Blk.exec, Team.form_try, Blk.bind.
  rewrite H1, H2, H3, H4. cbn [Blk.get Blk.ret Blk.set].
  destruct focus; [|rewrite H5]; cbn [Blk.get Blk.ret Blk.set fst];
    repeat split; read_entry.
Qed.

Lemma form_stage_lists env url focus b out :
  exists ho ao hh aa,
    let out' := Blk.exec (Team.form_stage env url focus b) out in
    out' !! "home_form_overall" = Some (VForm ho)
    /\ out' !! "home_form_home" = Some (VForm hh)
    /\ out' !! "away_form_overall" = Some (VForm ao)
    /\ out' !! "away_form_away" = Some (VForm aa)
    /\ out' !! "home_form" = Some (VForm ho)
    /\ out' !! "away_form" = Some (VForm ao)
    /\ (forall p, Team.pages env = Some p ->
        (ho = (Form.overall p).1 \/ ho = [])
        /\ (ao = (Form.overall p).2 \/ ao = [])
        /\ (hh = (Form.at_home p).1 \/ hh = [])
        /\ (aa = (Form.at_away p).2 \/ aa = []))
    /\ (Team.pages env = None -> ho = [] /\ ao = [] /\ hh = [] /\ aa = []).
Proof.
  rewrite form_stage_without_handler. destruct b.
  - destruct (advanced_form_lists url (Team.pages env))
      as (ho & ao & hh & aa & H1 & H2 & H3 & H4 & H5 & Hp & Hn).
    exists ho, ao, hh, aa. cbv zeta.
    unfold Blk.exec. unfold Blk.bind at 1 2 3 4 5 6 7. cbn [Blk.set].
    match goal with |- context [Team.form_try ?a ?f ?b ?o] =>
      destruct (form_try_lists a f b o _ _ _ _ H1 H3 H2 H4 H5)
        as (F1 & F2 & F3 & F4 & F5 & F6)
    end.
    unfold Blk.exec in F1, F2, F3, F4, F5, F6.
    split_ands; assumption.
  - exists [], [], [], []. cbv zeta.
    unfold Blk.exec, Blk.bind, Blk.set. cbn [fst snd].
    split_ands; try read_entry; auto.
Qed.

Lemma process_match_keeps_form env url home_team away_team h2h focus k :
  k ∉ ou_keys -> k <> "home_odds" -> k <> "away_odds" ->
  exists out0 b,
    (Team.process_match env url home_team away_team h2h focus).1 !! k
    = Blk.exec (Team.form_stage env url focus b) out0 !! k.
Proof.
  intros Hk Hh Ha. unfold Team.process_match.
  destruct (Team.count_wins home_team away_team h2h) as [cnt_home cnt_away].
  match goal with |- context [Blk.exec (Team.form_stage _ _ _ ?b) ?o] =>
    exists o, b end.
  match goal with |- context [Team.fetch_ou_odds ?e ?u ?s ?n ?o] =>
    pose proof (fetch_ou_odds_keeps e u s n k o Hk) as Hfetch;
    destruct (Team.fetch_ou_odds e u s n o) as [out1 api_line] end.
  cbn [fst snd] in *.
  rewrite run_ou_analysis_keeps, Hfetch, ou_defaults_keeps by assumption.
  rewrite !lookup_insert_ne by done. reflexivity.
Qed.

(** X15: with the form pages read by [_extract_form_from_h2h_page], every
    form list in the verdict of [process_match] holds at most five results
    'W', 'D' or 'L' and so is worth between 0 and 15 form points; and
    [home_form] and [away_form] are the overall lists. *)
Theorem verdict_forms_are_forms :
  forall env driver url home_team away_team h2h away_team_focus,
    let out :=
      (Team.process_match (with_form_pages env driver url) url home_team
         away_team h2h away_team_focus).1 in
    exists home_overall away_overall home_home away_away,
      out !! "home_form_overall" = Some (VForm home_overall)
      /\ out !! "away_form_overall" = Some (VForm away_overall)
      /\ out !! "home_form_home" = Some (VForm home_home)
      /\ out !! "away_form_away" = Some (VForm away_away)
      /\ out !! "home_form" = Some (VForm home_overall)
      /\ out !! "away_form" = Some (VForm away_overall)
      /\ Forall (fun l => is_form l /\ 0 <= Form.form_points l <= 15)
           [home_overall; away_overall; home_home; away_away].
Proof.
  intros env driver url home_team away_team h2h focus out. subst out.
  set (env' := with_form_pages env driver url).
  unfold Team.process_match.
  destruct (Team.count_wins home_team away_team h2h) as [cnt_home cnt_away].
  match goal with |- context [Blk.exec (Team.form_stage _ _ _ ?b) ?o] =>
    destruct (form_stage_lists env' url focus b o)
      as (ho & ao & hh & aa & F1 & F2 & F3 & F4 & F5 & F6 & Hp & _)
  end.
  cbv zeta in F1, F2, F3, F4, F5, F6.
  exists ho, ao, hh, aa.
  match goal with |- context [Team.fetch_ou_odds ?e ?u ?s ?n ?o] =>
    pose proof (fun k => fetch_ou_odds_keeps e u s n k o) as Hfetch;
    destruct (Team.fetch_ou_odds e u s n o) as [out1 api_line] end.
  cbn [fst snd] in *.
  split_ands.
  1-6: rewrite run_ou_analysis_keeps, Hfetch, ou_defaults_keeps
         by (unfold ou_keys; notin_keys);
       rewrite !(lookup_insert_ne _ "away_odds"), !(lookup_insert_ne _ "home_odds") by done;
       assumption.
  destruct (Hp _ eq_refl) as (H1 & H2 & H3 & H4).
  assert (Hnil : is_form []) by (split; [cbn; lia|constructor]).
  assert (Hf : forall l, is_form l -> is_form l /\ 0 <= Form.form_points l <= 15).
  { intros l Hl. split; [assumption|by apply is_form_points]. }
  assert (Hv : forall context u,
            is_form (FormPage._extract_form_from_h2h_page (driver u) context).1
            /\ is_form (FormPage._extract_form_from_h2h_page (driver u) context).2)
    by (intros; apply extract_form_is_form).
  apply Forall_cons_2; [|apply Forall_cons_2; [|apply Forall_cons_2;
    [|apply Forall_cons_2; [|apply Forall_nil_2]]]]; apply Hf.
  - destruct H1 as [->| ->]; [|assumption]. apply Hv.
  - destruct H2 as [->| ->]; [|assumption]. apply Hv.
  - destruct H3 as [->| ->]; [|assumption]. apply Hv.
  - destruct H4 as [->| ->]; [|assumption]. apply Hv.
Qed.

(** *** The URLs visited *)

Lemma str_app_cons x (a b : string) : String x a ++ b = String x (a ++ b).
Proof. reflexivity. Qed.

Lemma str_app_assoc (a b c : string) : (a ++ b) ++ c = a ++ (b ++ c).
Proof.
  induction a as [|x a IH]; [reflexivity|]. rewrite !str_app_cons. by rewrite IH.
Qed.

Lemma str_app_nil_r (a : string) : a ++ "" = a.
Proof.
  induction a as [|x a IH]; [reflexivity|]. rewrite str_app_cons. by rewrite IH.
Qed.

Lemma str_length_app (a b : string) :
  String.length (a ++ b) = (String.length a + String.length b)%nat.
Proof. induction a as [|x a IH]; [reflexivity|]. simpl. f_equal. exact IH. Qed.

Lemma prefix_app p b : String.prefix p (p ++ b) = true.
Proof.
  induction p as [|x p IH]; [by destruct b|].
  rewrite str_app_cons. cbn [String.prefix].
  destruct (ascii_dec x x); [assumption|done].
Qed.

Lemma prefix_inv p : forall s, String.prefix p s = true -> exists b, s = p ++ b.
Proof.
  induction p as [|x p IH]; intros s H.
  - exists s. reflexivity.
  - destruct s as [|y s]; [discriminate|]. cbn in H.
    destruct (ascii_dec x y) as [->|]; [|discriminate].
    destruct (IH s H) as [b ->]. exists b. reflexivity.
Qed.

Lemma strip_prefix_app p r : PyText.strip_prefix p (p ++ r) = Some r.
Proof.
  induction p as [|x p IH]; [by destruct r|].
  rewrite str_app_cons. cbn [PyText.strip_prefix]. by rewrite Ascii.eqb_refl.
Qed.

Lemma strip_prefix_inv p : forall s r, PyText.strip_prefix p s = Some r -> s = p ++ r.
Proof.
  induction p as [|x p IH]; intros s r H.
  - destruct s; cbn in H; by injection H as <-.
  - destruct s as [|y s]; [discriminate|]. cbn in H.
    destruct (Ascii.eqb_spec x y) as [->|]; [|discriminate].
    rewrite str_app_cons. f_equal. by apply IH.
Qed.

Lemma strip_prefix_prefix p s :
  String.prefix p s = true -> is_Some (PyText.strip_prefix p s).
Proof. intros H. destruct (prefix_inv p s H) as [b ->]. rewrite strip_prefix_app. eauto. Qed.

Lemma contains_unfold sub s :
  PyStr.contains sub s
  = String.prefix sub s
    || match s with
       | EmptyString => false
       | String _ t => PyStr.contains sub t
       end.
Proof. destruct s; reflexivity. Qed.

Lemma contains_here sub b : PyStr.contains sub (sub ++ b) = true.
Proof. rewrite contains_unfold, prefix_app. reflexivity. Qed.

Lemma contains_intro sub a b : PyStr.contains sub (a ++ sub ++ b) = true.
Proof.
  induction a as [|x a IH]; [exact (contains_here sub b)|].
  rewrite str_app_cons. cbn [PyStr.contains]. rewrite IH. apply orb_true_r.
Qed.

Lemma contains_inv sub : forall s,
  PyStr.contains sub s = true -> exists a b, s = a ++ sub ++ b.
Proof.
  induction s as [|x s IH]; intros H; rewrite contains_unfold in H;
    apply orb_true_iff in H as [H|H].
  - destruct (prefix_inv _ _ H) as [b Hb]. exists "", b. assumption.
  - discriminate.
  - destruct (prefix_inv _ _ H) as [b Hb]. exists "", b. assumption.
  - destruct (IH H) as (a & b & ->). exists (String x a), b. reflexivity.
Qed.

Lemma contains_app_l sub a b :
  PyStr.contains sub a = true -> PyStr.contains sub (a ++ b) = true.
Proof.
  intros H. apply contains_inv in H as (a1 & a2 & ->).
  rewrite !str_app_assoc. apply contains_intro.
Qed.

Lemma contains_app_r sub a b :
  PyStr.contains sub b = true -> PyStr.contains sub (a ++ b) = true.
Proof.
  intros H. apply contains_inv in H as (b1 & b2 & ->).
  rewrite <- str_app_assoc. apply contains_intro.
Qed.

(** Enough fuel: the scan of [replace] reaches the end of the text. *)
Lemma replace_fuel_enough old new : forall s fuel,
  old <> "" ->
  (String.length s < fuel)%nat ->
  PyText.replace_fuel fuel old new s = PyText.replace old new s.
Proof.
  intros s. remember (String.length s) as n eqn:Hn.
  revert s Hn. induction n as [n IH] using lt_wf_ind. intros s Hn fuel Hold Hf.
  unfold PyText.replace. rewrite <- Hn.
  destruct fuel as [|fuel]; [lia|]. cbn [PyText.replace_fuel].
  destruct (PyText.strip_prefix old s) as [rest|] eqn:E.
  - apply strip_prefix_inv in E. subst s. rewrite str_length_app in Hn.
    destruct old as [|c old]; [done|].
    cbn [String.length] in Hn. f_equal.
    rewrite (IH (String.length rest)) by (done || lia).
    symmetry. rewrite (IH (String.length rest)) by (done || lia). reflexivity.
  - destruct s as [|c t]; [reflexivity|]. cbn [String.length] in Hn. f_equal.
    rewrite (IH (String.length t)) by (done || lia).
    symmetry. rewrite (IH (String.length t)) by (done || lia). reflexivity.
Qed.

Lemma replace_fuel_inserts old new : forall s fuel,
  (String.length s < fuel)%nat ->
  PyStr.contains old s = true ->
  exists a c, PyText.replace_fuel fuel old new s = a ++ new ++ c.
Proof.
  induction s as [|ch t IH]; intros fuel Hf Hc;
    (destruct fuel as [|fuel]; [cbn in Hf; lia|]); cbn [PyText.replace_fuel];
    rewrite contains_unfold in Hc; apply orb_true_iff in Hc as [Hc|Hc];
    try discriminate.
  - apply strip_prefix_prefix in Hc as [rest ->]. by exists "", (PyText.replace_fuel fuel old new rest).
  - apply strip_prefix_prefix in Hc as [rest ->]. by exists "", (PyText.replace_fuel fuel old new rest).
  - destruct (PyText.strip_prefix old (String ch t)) as [rest|].
    + by exists "", (PyText.replace_fuel fuel old new rest).
    + cbn in Hf. destruct (IH fuel ltac:(lia) Hc) as (a & c & ->).
      exists (String ch a), c. reflexivity.
Qed.

Lemma replace_inserts old new s :
  PyStr.contains old s = true ->
  exists a c, PyText.replace old new s = a ++ new ++ c.
Proof. intros H. apply replace_fuel_inserts; [lia|assumption]. Qed.

Lemma no_query_char_app a b :
  Client.no_query_char (a ++ b)
  = Client.no_query_char a && Client.no_query_char b.
Proof.
  induction a as [|x a IH]; [reflexivity|]. rewrite str_app_cons.
  cbn [Client.no_query_char]. rewrite IH. by rewrite andb_assoc.
Qed.

Lemma rstrip_slash_prefix s : exists t, s = PyText.rstrip_slash s ++ t.
Proof.
  induction s as [|c s [t IH]]; [by exists ""|].
  cbn [PyText.rstrip_slash]. destruct (PyText.rstrip_slash s) as [|d r] eqn:E.
  - destruct (Ascii.eqb c "/").
    + by exists (String c s).
    + exists s. reflexivity.
  - exists t. rewrite str_app_cons. by rewrite <- IH.
Qed.

Lemma rstrip_slash_no_query s :
  Client.no_query_char s = true ->
  Client.no_query_char (PyText.rstrip_slash s) = true.
Proof.
  intros H. destruct (rstrip_slash_prefix s) as [t Ht].
  rewrite Ht, no_query_char_app in H. by apply andb_true_iff in H as [H _].
Qed.

Lemma replace_fuel_no_query old new : forall fuel s,
  Client.no_query_char new = true ->
  Client.no_query_char s = true ->
  Client.no_query_char (PyText.replace_fuel fuel old new s) = true.
Proof.
  induction fuel as [|fuel IH]; intros s Hn Hs; [assumption|].
  cbn [PyText.replace_fuel].
  destruct (PyText.strip_prefix old s) as [rest|] eqn:E.
  - apply strip_prefix_inv in E. subst s. rewrite no_query_char_app in Hs.
    apply andb_true_iff in Hs as [_ Hs].
    rewrite no_query_char_app, Hn. by apply IH.
  - destruct s as [|c t]; [reflexivity|].
    cbn [Client.no_query_char] in *. apply andb_true_iff in Hs as [-> Hs].
    by apply IH.
Qed.

Lemma split_once_query base q :
  Client.no_query_char base = true ->
  PyText.split_once "?" (base ++ String "?" q) = Some (base, q).
Proof.
  induction base as [|c t IH]; intros H; [reflexivity|].
  rewrite str_app_cons. cbn [PyText.split_once Client.no_query_char] in *.
  apply andb_true_iff in H as [Hc Ht].
  destruct (Ascii.eqb c "?"); [discriminate|]. by rewrite IH.
Qed.

(** The base part of the H2H URL. *)
Lemma h2h_base_contains page base_url :
  PyStr.contains "/h2h/" page = true ->
  PyStr.contains "/h2h/"
    (if PyStr.contains "/szczegoly" base_url
     then PyText.replace "/szczegoly" page base_url
     else if negb (PyStr.contains "/h2h/" base_url)
     then base_url ++ page
     else base_url) = true.
Proof.
  intros Hp. destruct (PyStr.contains "/szczegoly" base_url) eqn:E.
  - destruct (replace_inserts "/szczegoly" page base_url E) as (a & c & ->).
    apply contains_app_r, contains_app_l, Hp.
  - destruct (PyStr.contains "/h2h/" base_url) eqn:E'; cbn [negb].
    + exact E'.
    + by apply contains_app_r.
Qed.

(** X16: the page [process_match] and [process_match_tennis] open is an
    H2H page whatever the match URL is: the part of the rewritten URL before
    the query string always contains ["/h2h/"], and the query string is
    appended as it was. *)
Theorem h2h_url_is_an_h2h_page :
  forall page url,
    page ∈ ["/h2h/ogolem"; "/h2h/wszystkie-nawierzchnie"] ->
    exists base_url,
      PyStr.contains "/h2h/" base_url = true
      /\ Urls.h2h_url_of page url
         = base_url ++ match PyText.split_once "?" url with
                       | Some (_, params) => "?" ++ params
                       | None => ""
                       end.
Proof.
  intros page url Hpage.
  assert (Hp : PyStr.contains "/h2h/" page = true).
  { apply elem_of_cons in Hpage as [->|Hpage]; [reflexivity|].
    apply elem_of_cons in Hpage as [->|Hpage]; [reflexivity|].
    by apply elem_of_nil in Hpage. }
  unfold Urls.h2h_url_of.
  destruct (PyText.split_once "?" url) as [[b p]|];
    eexists; (split; [|reflexivity]); by apply h2h_base_contains.
Qed.

Lemma h2h_url_is_an_h2h_page_witness :
  exists base_url,
    PyStr.contains "/h2h/" base_url = true
    /\ Urls.h2h_url_of "/h2h/ogolem"
         "https://www.livesport.com/pl/mecz/pilka-nozna/a/b/szczegoly/?mid=KQAaF7d2"
       = base_url ++ "?mid=KQAaF7d2".
Proof.
  apply (h2h_url_is_an_h2h_page "/h2h/ogolem"
           "https://www.livesport.com/pl/mecz/pilka-nozna/a/b/szczegoly/?mid=KQAaF7d2").
  apply list_elem_of_here.
Defined.

Lemma h2h_url_event page base event_id rest :
  page ∈ ["/h2h/ogolem"; "/h2h/wszystkie-nawierzchnie"] ->
  Client.no_query_char base = true ->
  event_id <> "" ->
  PyText.all_alnum event_id = true ->
  match rest with
  | EmptyString => True
  | String c _ => PyText.is_alnum c = false
  end ->
  Client.extract_event_id_from_url
    (Urls.h2h_url_of page (base ++ "?mid=" ++ event_id ++ rest))
  = Some event_id.
Proof.
  intros Hpage Hbase Hne Hid Hrest.
  assert (Hp : Client.no_query_char page = true).
  { apply elem_of_cons in Hpage as [->|Hpage]; [reflexivity|].
    apply elem_of_cons in Hpage as [->|Hpage]; [reflexivity|].
    by apply elem_of_nil in Hpage. }
  unfold Urls.h2h_url_of.
  change ("?mid=" ++ event_id ++ rest) with (String "?" ("mid=" ++ event_id ++ rest)).
  rewrite split_once_query by assumption.
  change ("?" ++ "mid=" ++ event_id ++ rest) with ("?mid=" ++ event_id ++ rest).
  apply extract_event_id_canonical; try assumption.
  pose proof (rstrip_slash_no_query base Hbase) as Hr.
  destruct (PyStr.contains "/szczegoly" _).
  - by apply replace_fuel_no_query.
  - destruct (negb _); [|assumption].
    rewrite no_query_char_app, Hr, Hp. reflexivity.
Qed.

(** X17: the H2H page is opened for the same event: for a match URL
    [base ?mid= id rest] the rewritten URL of [process_match] and of
    [process_match_tennis] still yields [id] to
    [extract_event_id_from_url]. *)
Theorem h2h_page_keeps_the_event :
  forall page base event_id rest,
    page ∈ ["/h2h/ogolem"; "/h2h/wszystkie-nawierzchnie"] ->
    Client.no_query_char base = true ->
    event_id <> "" ->
    PyText.all_alnum event_id = true ->
    match rest with
    | EmptyString => True
    | String c _ => PyText.is_alnum c = false
    end ->
    Client.extract_event_id_from_url
      (Urls.h2h_url_of page (base ++ "?mid=" ++ event_id ++ rest))
    = Client.extract_event_id_from_url (base ++ "?mid=" ++ event_id ++ rest).
Proof.
  intros. rewrite h2h_url_event by assumption.
  symmetry. by apply extract_event_id_canonical.
Qed.

Lemma h2h_page_keeps_the_event_witness :
  Client.extract_event_id_from_url
    (Urls.h2h_url_of "/h2h/wszystkie-nawierzchnie"
       ("https://www.livesport.com/pl/mecz/tenis/a/b/szczegoly/" ++ "?mid="
        ++ "KQAaF7d2" ++ "&tab=h2h"))
  = Client.extract_event_id_from_url
      ("https://www.livesport.com/pl/mecz/tenis/a/b/szczegoly/" ++ "?mid="
       ++ "KQAaF7d2" ++ "&tab=h2h").
Proof.
  apply (h2h_page_keeps_the_event "/h2h/wszystkie-nawierzchnie"
           "https://www.livesport.com/pl/mecz/tenis/a/b/szczegoly/"
           "KQAaF7d2" "&tab=h2h");
    [apply list_elem_of_further, list_elem_of_here|reflexivity|discriminate
    |reflexivity|reflexivity].
Defined.

(** *** The H2H table *)

Lemma winner_of_tag goals_home goals_away :
  Parse.winner_of goals_home goals_away ∈ winner_tags.
Proof.
  unfold Parse.winner_of, winner_tags.
  destruct (PyText.py_int goals_home) as [gh|]; [|in_list].
  destruct (PyText.py_int goals_away) as [ga|]; [|in_list].
  destruct (gh >? ga); [in_list|]. destruct (ga >? gh); in_list.
Qed.

Lemma truthy_ne s : PyStr.truthy s = true -> s <> "".
Proof. by destruct s. Qed.

Lemma parse_row_item row item :
  Parse.parse_row row = Some item ->
  h_home item <> "" /\ h_away item <> "" /\ h_score item <> ""
  /\ h_winner item ∈ winner_tags
  /\ exists goals_home goals_away,
       h_score item = goals_home ++ "-" ++ goals_away
       /\ h_winner item = Parse.winner_of goals_home goals_away
       /\ (match Parse.row_result_spans row with
           | a :: b :: _ => goals_home = a /\ goals_away = b
           | _ => PyStr.score_search (Parse.row_text row)
                  = Some (goals_home, goals_away)
           end).
Proof.
  unfold Parse.parse_row.
  match goal with |- context [let '(h, a) := ?e in _] =>
    destruct e as [home away] end.
  destruct (Parse.row_result_spans row) as [|a [|b spans]].
  - cbn [PyStr.truthy negb].
    destruct (PyStr.score_search (Parse.row_text row)) as [[g1 g2]|].
    + destruct home as [home|], away as [away|]; try discriminate.
      destruct (PyStr.truthy home) eqn:Eh; [|discriminate].
      destruct (PyStr.truthy away) eqn:Ea; [|discriminate].
      destruct (PyStr.truthy (g1 ++ "-" ++ g2)) eqn:Es; [|discriminate].
      intros [= <-]. cbn [h_home h_away h_score h_winner].
      split_ands; try by apply truthy_ne.
      * apply winner_of_tag.
      * by exists g1, g2.
    + destruct home as [home|], away as [away|]; try discriminate.
      rewrite andb_false_r. discriminate.
  - cbn [PyStr.truthy negb].
    destruct (PyStr.score_search (Parse.row_text row)) as [[g1 g2]|].
    + destruct home as [home|], away as [away|]; try discriminate.
      destruct (PyStr.truthy home) eqn:Eh; [|discriminate].
      destruct (PyStr.truthy away) eqn:Ea; [|discriminate].
      destruct (PyStr.truthy (g1 ++ "-" ++ g2)) eqn:Es; [|discriminate].
      intros [= <-]. cbn [h_home h_away h_score h_winner].
      split_ands; try by apply truthy_ne.
      * apply winner_of_tag.
      * by exists g1, g2.
    + destruct home as [home|], away as [away|]; try discriminate.
      rewrite andb_false_r. discriminate.
  - assert (Hs : PyStr.truthy (a ++ "-" ++ b) = true).
    { destruct a; reflexivity. }
    rewrite Hs. cbn [negb].
    destruct home as [home|], away as [away|]; try discriminate.
    destruct (PyStr.truthy home) eqn:Eh; [|discriminate].
    destruct (PyStr.truthy away) eqn:Ea; [|discriminate].
    rewrite ?Hs. cbn [andb].
    intros [= <-]. cbn [h_home h_away h_score h_winner].
    split_ands; try by apply truthy_ne.
    + apply winner_of_tag.
    + by exists a, b.
Qed.

Lemma omap_length {A B} (f : A -> option B) l :
  (List.length (omap f l) <= List.length l)%nat.
Proof.
  induction l as [|x l IH]; [reflexivity|]. cbn. destruct (f x); cbn; lia.
Qed.

Lemma parse_rows_length rows :
  (List.length (Parse._parse_h2h_rows (take 5 rows)) <= 5)%nat.
Proof.
  unfold Parse._parse_h2h_rows.
  pose proof (omap_length Parse.parse_row (take 5 rows)).
  rewrite length_take in H. lia.
Qed.

Lemma parse_h2h_length soup :
  (List.length (Parse.parse_h2h_from_soup soup) <= 5)%nat.
Proof.
  unfold Parse.parse_h2h_from_soup.
  destruct (match Parse.h2h_sections soup with [] => _ | _ => _ end) as [|s l];
    [destruct (Parse.all_h2h_rows soup)|].
  - cbn. lia.
  - apply parse_rows_length.
  - destruct (match List.find _ _ with Some _ => _ | None => _ end);
      [apply parse_rows_length|cbn; lia].
Qed.

Lemma parse_h2h_rows soup item :
  item ∈ Parse.parse_h2h_from_soup soup ->
  exists row, Parse.parse_row row = Some item.
Proof.
  assert (H : forall rows, item ∈ Parse._parse_h2h_rows rows ->
                exists row, Parse.parse_row row = Some item).
  { intros rows Hi. apply list_elem_of_omap in Hi as (row & _ & Hr). eauto. }
  unfold Parse.parse_h2h_from_soup.
  destruct (match Parse.h2h_sections soup with [] => _ | _ => _ end) as [|s l];
    [destruct (Parse.all_h2h_rows soup)|].
  - cbn. intros Hi. by apply elem_of_nil in Hi.
  - apply H.
  - destruct (match List.find _ _ with Some _ => _ | None => _ end);
      [apply H|]. intros Hi. by apply elem_of_nil in Hi.
Qed.

(** X18: [parse_h2h_from_soup] returns at most five rows, whatever the
    page holds, and every row has a non-empty home name, away name and
    score; the score is the two goal texts joined by ['-'], and the winner
    tag is 'home', 'away', 'draw' or 'unknown'. *)
Theorem parsed_rows_are_well_formed :
  forall soup,
    let h2h := Parse.parse_h2h_from_soup soup in
    (List.length h2h <= 5)%nat
    /\ Forall (fun item =>
                 h_home item <> "" /\ h_away item <> "" /\ h_score item <> ""
                 /\ h_winner item ∈ winner_tags
                 /\ exists goals_home goals_away,
                      h_score item = goals_home ++ "-" ++ goals_away
                      /\ h_winner item = Parse.winner_of goals_home goals_away)
         h2h.
Proof.
  intros soup h2h. split; [apply parse_h2h_length|].
  apply Forall_forall. intros item Hi.
  apply parse_h2h_rows in Hi as [row Hrow].
  apply parse_row_item in Hrow as (H1 & H2 & H3 & H4 & gh & ga & H5 & H6 & _).
  split_ands; try assumption. by exists gh, ga.
Qed.

(** *** Numbers in texts *)

Lemma isdigit_not_space c : PyStr.isdigit c = true -> PyStr.isspace c = false.
Proof.
  unfold PyStr.isdigit, PyStr.isspace. intros H.
  apply andb_true_iff in H as [H1 H2]. apply N.leb_le in H1, H2.
  repeat (apply orb_false_iff; split); try apply andb_false_iff;
    rewrite ?N.leb_gt, ?N.eqb_neq; lia.
Qed.

Lemma lstrip_digit c t :
  PyStr.isdigit c = true -> PyStr.lstrip (String c t) = String c t.
Proof. intros H. cbn. by rewrite (isdigit_not_space c H). Qed.

Lemma rstrip_digits d : PyStr.all_digits d = true -> PyStr.rstrip d = d.
Proof.
  induction d as [|c t IH]; [reflexivity|]. cbn [PyStr.all_digits PyStr.rstrip].
  intros H. apply andb_true_iff in H as [Hc Ht]. rewrite (IH Ht).
  destruct t; [|reflexivity]. by rewrite (isdigit_not_space c Hc).
Qed.

Lemma isdigit_not_int_space c :
  PyStr.isdigit c = true -> PyText.int_space c = false.
Proof.
  unfold PyStr.isdigit, PyText.int_space. intros H.
  apply andb_true_iff in H as [H1 H2]. apply N.leb_le in H1, H2.
  repeat (apply orb_false_iff; split); try apply andb_false_iff;
    rewrite ?N.leb_gt, ?N.eqb_neq; lia.
Qed.

Lemma int_strip_digits d :
  PyStr.all_digits d = true -> PyText.int_rstrip (PyText.int_lstrip d) = d.
Proof.
  intros H.
  assert (Hl : PyText.int_lstrip d = d).
  { destruct d as [|c t]; [reflexivity|]. cbn [PyStr.all_digits] in H.
    apply andb_true_iff in H as [Hc _]. cbn [PyText.int_lstrip].
    by rewrite (isdigit_not_int_space c Hc). }
  rewrite Hl. clear Hl.
  induction d as [|c t IH]; [reflexivity|].
  cbn [PyStr.all_digits PyText.int_rstrip] in *.
  apply andb_true_iff in H as [Hc Ht]. rewrite (IH Ht).
  destruct t; [|reflexivity]. by rewrite (isdigit_not_int_space c Hc).
Qed.

Lemma strip_digits d : PyStr.all_digits d = true -> PyStr.strip d = d.
Proof.
  intros H. unfold PyStr.strip. destruct d as [|c t]; [reflexivity|].
  pose proof H as H'. cbn [PyStr.all_digits] in H'.
  apply andb_true_iff in H' as [Hc _].
  rewrite lstrip_digit by assumption. by apply rstrip_digits.
Qed.

Lemma int_body_digits d : forall acc n,
  PyStr.all_digits d = true ->
  PyText.int_body acc n d
  = Some (PyStr.digits_value acc d, (n + String.length d)%nat).
Proof.
  induction d as [|c t IH]; intros acc n H.
  - cbn. do 2 f_equal. lia.
  - cbn [PyStr.all_digits] in H. apply andb_true_iff in H as [Hc Ht].
    cbn [PyText.int_body PyStr.digits_value String.length]. rewrite Hc.
    rewrite IH by assumption. do 2 f_equal. lia.
Qed.

Lemma digit_is_no_sign c (A : Type) (plus minus other : A) :
  PyStr.isdigit c = true ->
  (if Ascii.eqb c "+" then plus else if Ascii.eqb c "-" then minus else other)
  = other.
Proof.
  intros H. unfold PyStr.isdigit in H.
  apply andb_true_iff in H as [H1 H2]. apply N.leb_le in H1, H2.
  destruct (Ascii.eqb_spec c "+") as [->|_]; [cbn in H1; lia|].
  destruct (Ascii.eqb_spec c "-") as [->|_]; [cbn in H1; lia|].
  reflexivity.
Qed.

(** [int] on a string of digits. *)
Lemma py_int_digits d :
  d <> "" -> PyStr.all_digits d = true ->
  PyText.py_int d = PyStr.int_of_digits d.
Proof.
  intros Hne Hd. unfold PyText.py_int, PyStr.int_of_digits.
  rewrite int_strip_digits by assumption.
  destruct d as [|c t]; [done|].
  pose proof Hd as Hd'. cbn [PyStr.all_digits] in Hd'.
  apply andb_true_iff in Hd' as [Hc Ht].
  assert (Hsign :
    match String c t with
    | String "+" r => (1, r)
    | String "-" r => (-1, r)
    | _ => (1, String c t)
    end = (1, String c t)).
  { unfold PyStr.isdigit in Hc. apply andb_true_iff in Hc as [H1 H2].
    apply N.leb_le in H1, H2.
    destruct c as [[] [] [] [] [] [] [] []]; cbn in H1, H2; try lia; reflexivity. }
  rewrite Hsign. rewrite Hc, int_body_digits by assumption.
  cbn [Nat.add]. destruct (_ <? _)%nat; [reflexivity|].
  f_equal. lia.
Qed.

Lemma span_digits_stop g : forall r,
  PyStr.all_digits g = true ->
  match r with
  | EmptyString => True
  | String c _ => PyStr.isdigit c = false
  end ->
  PyStr.span_digits (g ++ r) = (g, r).
Proof.
  induction g as [|c t IH]; intros r Hg Hr.
  - destruct r as [|c r]; [reflexivity|].
    change ("" ++ String c r) with (String c r).
    cbn [PyStr.span_digits]. by rewrite Hr.
  - cbn [PyStr.all_digits] in Hg. apply andb_true_iff in Hg as [Hc Ht].
    rewrite str_app_cons. cbn [PyStr.span_digits]. rewrite Hc.
    by rewrite IH.
Qed.

Lemma score_match_here_pair gh ga :
  gh <> "" -> PyStr.all_digits gh = true ->
  ga <> "" -> PyStr.all_digits ga = true ->
  PyStr.score_match_here (gh ++ "-" ++ ga) = Some (gh, ga).
Proof.
  intros Hh Hdh Ha Hda. unfold PyStr.score_match_here.
  change ("-" ++ ga) with (String "-" ga).
  rewrite span_digits_stop by (assumption || reflexivity).
  destruct gh as [|c1 g1]; [done|].
  change (PyStr.lstrip (String "-" ga)) with (String "-" ga).
  cbv iota beta. change (Ascii.eqb "-" ":" || Ascii.eqb "-" "-")%bool with true.
  cbv iota.
  destruct ga as [|c2 g2]; [done|].
  pose proof Hda as Hda'. cbn [PyStr.all_digits] in Hda'.
  apply andb_true_iff in Hda' as [Hc2 _].
  rewrite lstrip_digit by assumption.
  rewrite <- (str_app_nil_r (String c2 g2)) at 1.
  rewrite span_digits_stop by done. reflexivity.
Qed.

Lemma score_search_pair gh ga :
  gh <> "" -> PyStr.all_digits gh = true ->
  ga <> "" -> PyStr.all_digits ga = true ->
  PyStr.score_search (gh ++ "-" ++ ga) = Some (gh, ga).
Proof.
  intros. pose proof (score_match_here_pair gh ga) as E.
  destruct (gh ++ "-" ++ ga); cbn [PyStr.score_search]; by rewrite E.
Qed.

(** X19: the score [_parse_h2h_rows] writes for two goal texts that are
    numbers is read back by the counting loops of [process_match] and
    [process_match_tennis] as the same two numbers, and the winner tag of
    the row is the comparison of these numbers ('unknown' only beyond the
    4300 digits [int] accepts). *)
Theorem parsed_score_is_read_back :
  forall goals_home goals_away,
    goals_home <> "" -> PyStr.all_digits goals_home = true ->
    goals_away <> "" -> PyStr.all_digits goals_away = true ->
    PyStr.score_search (goals_home ++ "-" ++ goals_away)
    = Some (goals_home, goals_away)
    /\ Parse.winner_of goals_home goals_away
       = match PyStr.int_of_digits goals_home, PyStr.int_of_digits goals_away with
         | Some gh, Some ga => tag_of gh ga
         | _, _ => "unknown"
         end.
Proof.
  intros gh ga Hh Hdh Ha Hda. split; [by apply score_search_pair|].
  unfold Parse.winner_of. rewrite !py_int_digits by assumption.
  destruct (PyStr.int_of_digits gh), (PyStr.int_of_digits ga); reflexivity.
Qed.

Lemma parsed_score_is_read_back_witness :
  PyStr.score_search ("3" ++ "-" ++ "1") = Some ("3", "1")
  /\ Parse.winner_of "3" "1" = "home".
Proof.
  apply (parsed_score_is_read_back "3" "1");
    [discriminate|reflexivity|discriminate|reflexivity].
Defined.

(** X20: the verdicts over the parsed table. [h2h_count] is at most 5, so
    the over/under analyser, which both [process_match] and
    [process_match_tennis] consult from five rows on, is consulted only
    when the table gave exactly five rows; with fewer, [ou_qualifies] is
    not true. *)
Theorem over_under_needs_five_rows :
  forall soup,
    let h2h := Parse.parse_h2h_from_soup soup in
    let n := Z.of_nat (List.length h2h) in
    0 <= n <= 5
    /\ (forall env url home_team away_team away_team_focus,
          let result :=
            Team.process_match env url home_team away_team h2h away_team_focus in
          result.1 !! "h2h_count" = Some (VInt n)
          /\ (result.2 <> [] -> n = 5)
          /\ (result.1 !! "ou_qualifies" = Some (VBool true) -> n = 5))
    /\ (forall env url player_a player_b,
          exists out calls,
            Tennis.process_match_tennis env url player_a player_b h2h
            = Some (out, calls)
            /\ (calls <> [] -> n = 5)).
Proof.
  intros soup h2h n.
  assert (Hn : 0 <= n <= 5).
  { subst n h2h. pose proof (parse_h2h_length soup). lia. }
  split; [assumption|]. split.
  - intros env url home_team away_team focus result. subst result.
    destruct (process_match_verdict env url home_team away_team h2h focus)
      as (_ & _ & Hc & _).
    split; [exact Hc|]. split.
    + rewrite team_ou_calls. fold n.
      destruct (Z.geb_spec n 5); [lia|done].
    + intros Hq.
      destruct (ou_verdict_analysed env url home_team away_team h2h focus)
        as (_ & Hou & _).
      apply Hou in Hq as [Hq _]. fold n in Hq. lia.
  - intros env url player_a player_b.
    rewrite process_match_tennis_out. eexists _, _. split; [reflexivity|].
    rewrite tennis_ou_calls. fold n.
    destruct (Z.geb_spec n 5); [lia|done].
Qed.

(** *** The tennis page *)

Lemma findall_fuel_forall {A} (P : A -> Prop) here :
  (forall s a rest, here s = Some (a, rest) -> P a) ->
  forall fuel s, Forall P (PyText.findall_fuel (A:=A) fuel here s).
Proof.
  intros Hh. induction fuel as [|fuel IH]; intros s; cbn [PyText.findall_fuel].
  - constructor.
  - destruct (here s) as [[a rest]|] eqn:E.
    + constructor; [eapply Hh; eassumption|apply IH].
    + destruct s; [constructor|apply IH].
Qed.

(** Enough fuel: when a match consumes at least one character, the scan of
    [findall] reaches the end of the text. *)
Lemma findall_fuel_enough {A} (here : string -> option (A * string)) :
  (forall s a rest, here s = Some (a, rest) ->
     (String.length rest < String.length s)%nat) ->
  forall s fuel,
    (String.length s < fuel)%nat ->
    PyText.findall_fuel fuel here s = PyText.findall here s.
Proof.
  intros Hh s. remember (String.length s) as n eqn:Hn.
  revert s Hn. induction n as [n IH] using lt_wf_ind. intros s Hn fuel Hf.
  unfold PyText.findall. rewrite <- Hn.
  destruct fuel as [|fuel]; [lia|]. cbn [PyText.findall_fuel].
  destruct (here s) as [[a rest]|] eqn:E.
  - apply Hh in E. f_equal.
    rewrite (IH (String.length rest)) by lia.
    symmetry. rewrite (IH (String.length rest)) by lia. reflexivity.
  - destruct s as [|c t]; [reflexivity|]. cbn [String.length] in Hn.
    rewrite (IH (String.length t)) by lia.
    symmetry. rewrite (IH (String.length t)) by lia. reflexivity.
Qed.

Lemma strip_prefix_ci_length p : forall s r,
  PyText.strip_prefix_ci p s = Some r ->
  (String.length r + String.length p = String.length s)%nat.
Proof.
  induction p as [|a p IH]; intros s r H.
  - destruct s; cbn in H; injection H as <-; cbn; lia.
  - destruct s as [|b s]; [discriminate|]. cbn in H.
    destruct (Ascii.eqb a (PyStr.lower_char b)); [|discriminate].
    apply IH in H. cbn. lia.
Qed.

Lemma span_digits_length s :
  (String.length (PyStr.span_digits s).2 <= String.length s)%nat.
Proof.
  induction s as [|c t IH]; cbn; [lia|].
  destruct (PyStr.isdigit c); [|cbn; lia].
  destruct (PyStr.span_digits t) as [d r]. cbn in *. lia.
Qed.

Lemma lstrip_length s : (String.length (PyStr.lstrip s) <= String.length s)%nat.
Proof.
  induction s as [|c t IH]; cbn; [lia|].
  destruct (PyStr.isspace c); cbn; lia.
Qed.

Lemma tour_here_length s g r :
  TennisPage.tour_here s = Some (g, r) ->
  (String.length r + 3 = String.length s)%nat.
Proof.
  unfold TennisPage.tour_here.
  destruct s as [|a [|b [|c rest]]]; try discriminate.
  destruct (_ || _); [|discriminate]. intros [= <- <-]. cbn. lia.
Qed.

Lemma rank_match_here_progress s a rest :
  TennisPage.rank_match_here s = Some (a, rest) ->
  (String.length rest < String.length s)%nat.
Proof.
  unfold TennisPage.rank_match_here.
  destruct (PyText.strip_prefix_ci _ s) as [r0|] eqn:E0; [|discriminate].
  destruct (TennisPage.tour_here r0) as [[tour r1]|] eqn:E1; [|discriminate].
  destruct (PyText.strip_prefix_ci _ r1) as [r2|] eqn:E2; [|discriminate].
  pose proof (span_digits_length r2) as Hd.
  destruct (PyStr.span_digits r2) as [digits r3]. cbn [snd] in Hd.
  destruct digits; [discriminate|].
  destruct (PyText.strip_prefix_ci _ r3) as [r4|] eqn:E3; [|discriminate].
  intros [= <- <-].
  apply strip_prefix_ci_length in E0, E2, E3. apply tour_here_length in E1.
  lia.
Qed.

Lemma text_rank_here_progress s a rest :
  TennisPage.text_rank_here s = Some (a, rest) ->
  (String.length rest < String.length s)%nat.
Proof.
  unfold TennisPage.text_rank_here.
  destruct (TennisPage.tour_here s) as [[tour [|c r1]]|] eqn:E1; try discriminate.
  destruct (Ascii.eqb c ":"); [|discriminate].
  pose proof (span_digits_length (PyStr.lstrip r1)) as Hd.
  pose proof (lstrip_length r1) as Hl.
  destruct (PyStr.span_digits (PyStr.lstrip r1)) as [digits r2]. cbn [snd] in Hd.
  destruct digits; [discriminate|]. intros [= <- <-].
  apply tour_here_length in E1. cbn in E1. lia.
Qed.

Lemma rank_match_here_digits s tour digits rest :
  TennisPage.rank_match_here s = Some ((tour, digits), rest) ->
  PyStr.all_digits digits = true.
Proof.
  unfold TennisPage.rank_match_here.
  destruct (PyText.strip_prefix_ci _ s) as [r0|]; [|discriminate].
  destruct (TennisPage.tour_here r0) as [[t r1]|]; [|discriminate].
  destruct (PyText.strip_prefix_ci _ r1) as [r2|]; [|discriminate].
  pose proof (span_digits_all_digits r2) as Hd.
  destruct (PyStr.span_digits r2) as [d r3]. cbn [fst] in Hd.
  destruct d; [discriminate|].
  destruct (PyText.strip_prefix_ci _ r3) as [r4|]; [|discriminate].
  by intros [= <- <- <-].
Qed.

Lemma text_rank_here_digits s digits rest :
  TennisPage.text_rank_here s = Some (digits, rest) ->
  PyStr.all_digits digits = true.
Proof.
  unfold TennisPage.text_rank_here.
  destruct (TennisPage.tour_here s) as [[tour [|c r1]]|]; try discriminate.
  destruct (Ascii.eqb c ":"); [|discriminate].
  pose proof (span_digits_all_digits (PyStr.lstrip r1)) as Hd.
  destruct (PyStr.span_digits (PyStr.lstrip r1)) as [d r2]. cbn [fst] in Hd.
  destruct d; [discriminate|]. by intros [= <- <-].
Qed.

Lemma int_of_digits_nonneg d r :
  PyStr.all_digits d = true -> PyStr.int_of_digits d = Some r -> 0 <= r.
Proof.
  unfold PyStr.int_of_digits. intros Hd.
  destruct (_ <? _)%nat; [discriminate|]. intros [= <-].
  by apply digits_value_nonneg.
Qed.

Lemma by_name_nonneg name participants first second r :
  PyStr.all_digits first = true -> PyStr.all_digits second = true ->
  TennisPage.by_name name participants first second = Some (Some r) -> 0 <= r.
Proof.
  intros H1 H2. unfold TennisPage.by_name.
  destruct participants as [|p1 [|p2 l]]; try discriminate.
  destruct (_ || _); [intros [= E]; exact (int_of_digits_nonneg _ _ H1 E)|].
  destruct (_ || _); [intros [= E]; exact (int_of_digits_nonneg _ _ H2 E)|discriminate].
Qed.

Lemma extract_player_ranking_nonneg page player_name r :
  TennisPage.extract_player_ranking page player_name = Some r -> 0 <= r.
Proof.
  unfold TennisPage.extract_player_ranking.
  destruct player_name as [name|]; [|discriminate].
  destruct (negb (PyStr.truthy name)); [discriminate|].
  pose proof (findall_fuel_forall
                (fun g : string * string => PyStr.all_digits g.2 = true)
                TennisPage.rank_match_here
                (fun s a rest => match a with (t, d) =>
                   rank_match_here_digits s t d rest end)
                (S (String.length (TennisPage.html_source page)))
                (TennisPage.html_source page)) as Hm.
  pose proof (findall_fuel_forall
                (fun g : string => PyStr.all_digits g = true)
                TennisPage.text_rank_here text_rank_here_digits
                (S (String.length (TennisPage.page_text page)))
                (TennisPage.page_text page)) as Ht.
  fold (PyText.findall TennisPage.rank_match_here (TennisPage.html_source page)) in Hm.
  fold (PyText.findall TennisPage.text_rank_here (TennisPage.page_text page)) in Ht.
  destruct (PyText.findall TennisPage.rank_match_here _) as [|[t0 r0] [|[t1 r1] ms]].
  - destruct (PyText.findall TennisPage.text_rank_here _) as [|a0 [|a1 l]];
      try discriminate.
    apply Forall_cons in Ht as [Ha0 Ht]. apply Forall_cons in Ht as [Ha1 _].
    destruct (TennisPage.by_name _ _ a0 a1) as [[x|]|] eqn:E; try discriminate.
    intros [= <-]. eapply by_name_nonneg; [| |eassumption]; assumption.
  - apply Forall_cons in Hm as [Hr0 _]. cbn [snd] in Hr0.
    by apply int_of_digits_nonneg.
  - apply Forall_cons in Hm as [Hr0 Hm]. apply Forall_cons in Hm as [Hr1 _].
    cbn [snd] in Hr0, Hr1.
    destruct (TennisPage.by_name _ _ r0 r1) as [[x|]|] eqn:E; try discriminate.
    + intros [= <-]. eapply by_name_nonneg; [| |eassumption]; assumption.
    + destruct (PyText.findall TennisPage.text_rank_here _) as [|a0 [|a1 l]];
        try discriminate.
      apply Forall_cons in Ht as [Ha0 Ht]. apply Forall_cons in Ht as [Ha1 _].
      destruct (TennisPage.by_name _ _ a0 a1) as [[x|]|] eqn:E'; try discriminate.
      intros [= <-]. eapply by_name_nonneg; [| |eassumption]; assumption.
Qed.

(** X21: [extract_player_ranking] gives no ranking for a missing or empty
    name, and never a negative one. When the page embeds exactly one
    ranking, every named player gets it, so both players of the match are
    given the same ranking. *)
Theorem single_ranking_is_shared :
  forall page,
    TennisPage.extract_player_ranking page None = None
    /\ TennisPage.extract_player_ranking page (Some "") = None
    /\ (forall player_name r,
          TennisPage.extract_player_ranking page player_name = Some r -> 0 <= r)
    /\ (forall tour rank player_a player_b,
          PyText.findall TennisPage.rank_match_here (TennisPage.html_source page)
          = [(tour, rank)] ->
          player_a <> "" -> player_b <> "" ->
          TennisPage.extract_player_ranking page (Some player_a)
          = PyStr.int_of_digits rank
          /\ TennisPage.extract_player_ranking page (Some player_b)
             = TennisPage.extract_player_ranking page (Some player_a)).
Proof.
  intros page. split_ands; try reflexivity.
  - apply extract_player_ranking_nonneg.
  - intros tour rank a b Hm Ha Hb.
    unfold TennisPage.extract_player_ranking. rewrite Hm.
    destruct a; [done|]. destruct b; [done|]. split; reflexivity.
Qed.

Lemma single_ranking_is_shared_witness :
  TennisPage.extract_player_ranking sample_tennis_page (Some "Alcaraz C.") = Some 13
  /\ TennisPage.extract_player_ranking sample_tennis_page (Some "Sinner J.")
     = TennisPage.extract_player_ranking sample_tennis_page (Some "Alcaraz C.").
Proof.
  destruct (single_ranking_is_shared sample_tennis_page) as (_ & _ & _ & H).
  apply (H "ATP" "13" "Alcaraz C." "Sinner J."); [vm_compute; reflexivity|done|done].
Defined.

Lemma surface_of_elements_known elements surface :
  TennisPage.surface_of_elements elements = Some surface ->
  surface ∈ Surface.surfaces.
Proof.
  unfold Surface.surfaces.
  induction elements as [|el rest IH]; [discriminate|].
  cbn [TennisPage.surface_of_elements].
  destruct (_ || _); [intros [= <-]; in_list|].
  destruct (_ || _); [intros [= <-]; in_list|].
  destruct (_ || _); [intros [= <-]; in_list|assumption].
Qed.

Lemma detect_surface_known page url :
  exists surface,
    TennisPage.detect_tennis_surface page url = Some surface
    /\ surface ∈ Surface.surfaces.
Proof.
  unfold TennisPage.detect_tennis_surface.
  destruct (TennisPage.surface_of_elements _) as [s|] eqn:E.
  - exists s. split; [reflexivity|by eapply surface_of_elements_known].
  - destruct (TennisPage.any_keyword TennisPage.clay_keywords _ _);
      [|destruct (TennisPage.any_keyword TennisPage.grass_keywords _ _);
        [|destruct (TennisPage.any_keyword TennisPage.hard_keywords _ _)]];
      eexists; (split; [reflexivity|unfold Surface.surfaces; in_list]).
Qed.

(** X22: [detect_tennis_surface] always names one of the three surfaces
    the surface statistics are computed for. Without a surface element on
    the page the answer is 'clay' when a clay keyword is in the text or the
    URL, else 'grass' when a grass keyword is, and 'hard' in every other
    case: the hard keywords change nothing. *)
Theorem surface_is_always_detected :
  forall page url,
    exists surface,
      TennisPage.detect_tennis_surface page url = Some surface
      /\ surface ∈ Surface.surfaces
      /\ (TennisPage.surface_of_elements (TennisPage.surface_classes page) = None ->
          let text := PyStr.lower (TennisPage.page_text page) in
          let url_lower := PyStr.lower url in
          let clay := TennisPage.any_keyword TennisPage.clay_keywords text url_lower in
          let grass := TennisPage.any_keyword TennisPage.grass_keywords text url_lower in
          surface = if clay then "clay" else if grass then "grass" else "hard").
Proof.
  intros page url. unfold TennisPage.detect_tennis_surface.
  destruct (TennisPage.surface_of_elements _) as [s|] eqn:E.
  - exists s. split_ands; [reflexivity|by eapply surface_of_elements_known|discriminate].
  - destruct (TennisPage.any_keyword TennisPage.clay_keywords _ _);
      [|destruct (TennisPage.any_keyword TennisPage.grass_keywords _ _);
        [|destruct (TennisPage.any_keyword TennisPage.hard_keywords _ _)]];
      eexists; (split_ands; [reflexivity|unfold Surface.surfaces; in_list|reflexivity]).
Qed.

Lemma form_chars_results text :
  Forall (fun s => s ∈ result_symbols) (TennisPage.form_chars text).
Proof.
  unfold result_symbols.
  induction text as [|c t IH]; cbn [TennisPage.form_chars]; [constructor|].
  unfold TennisPage.form_char.
  destruct (_ || _)%bool; [constructor; [in_list|assumption]|].
  destruct (_ || _)%bool; [constructor; [in_list|assumption]|].
  destruct (_ || _)%bool; [constructor; [in_list|assumption]|assumption].
Qed.

Lemma from_indicators_form indicators form :
  TennisPage.from_indicators indicators = Some form ->
  (3 <= List.length form <= 5)%nat /\ Forall (fun s => s ∈ ["W"; "L"]) form.
Proof.
  induction indicators as [|text rest IH]; [discriminate|].
  cbn [TennisPage.from_indicators].
  destruct (Nat.leb_spec 3 (List.length (TennisPage.form_chars text))) as [Hl|_];
    [|assumption].
  intros [= <-]. split.
  - rewrite length_map, length_take. lia.
  - apply Forall_map. eapply Forall_impl; [apply Forall_take, form_chars_results|].
    intros s Hs. cbn. unfold result_symbols in Hs.
    apply elem_of_cons in Hs as [->|Hs]; [in_list|].
    apply elem_of_cons in Hs as [->|Hs]; [in_list|].
    apply elem_of_cons in Hs as [->|Hs]; [in_list|].
    by apply elem_of_nil in Hs.
Qed.

Lemma form_step_form pn pf m :
  Forall (fun s => s ∈ ["W"; "L"]) pf ->
  Forall (fun s => s ∈ ["W"; "L"]) (TennisPage.form_step pn pf m)
  /\ (List.length pf <= List.length (TennisPage.form_step pn pf m)
      <= S (List.length pf))%nat.
Proof.
  intros H. unfold TennisPage.form_step.
  assert (HW : Forall (fun s => s ∈ ["W"; "L"]) (pf ++ ["W"])).
  { apply Forall_app. split; [assumption|]. constructor; [in_list|constructor]. }
  assert (HL : Forall (fun s => s ∈ ["W"; "L"]) (pf ++ ["L"])).
  { apply Forall_app. split; [assumption|]. constructor; [in_list|constructor]. }
  destruct (_ || _); [|destruct (_ || _)];
    repeat match goal with |- context [String.eqb ?a ?b] => destruct (String.eqb a b) end;
    rewrite ?length_app; cbn [List.length]; split; (assumption || lia).
Qed.

Lemma form_loop_form pn h2h : forall pf,
  Forall (fun s => s ∈ ["W"; "L"]) pf -> (List.length pf <= 4)%nat ->
  Forall (fun s => s ∈ ["W"; "L"]) (TennisPage.form_loop pn pf h2h)
  /\ (List.length (TennisPage.form_loop pn pf h2h) <= 5)%nat.
Proof.
  induction h2h as [|m rest IH]; intros pf Hf Hl; cbn [TennisPage.form_loop].
  - split; [assumption|lia].
  - destruct (form_step_form pn pf m Hf) as [Hf' Hl'].
    destruct (Nat.leb_spec 5 (List.length (TennisPage.form_step pn pf m))).
    + split; [assumption|lia].
    + apply IH; [assumption|lia].
Qed.

Lemma pad_form pf :
  Forall (fun s => s ∈ ["W"; "L"]) pf -> (List.length pf <= 5)%nat ->
  pf <> [] ->
  Forall (fun s => s ∈ ["W"; "L"]) (TennisPage.pad pf)
  /\ List.length (TennisPage.pad pf) = 5%nat.
Proof.
  intros Hf Hl Hne. unfold TennisPage.pad.
  destruct pf as [|x pf']; [done|]. set (pf := x :: pf') in *.
  destruct (Nat.ltb_spec (List.length pf) 5).
  - split.
    + apply Forall_app. split; [assumption|].
      apply Forall_forall. intros s Hs. apply list_elem_of_In, repeat_spec in Hs.
      subst s. destruct (negb _); in_list.
    + rewrite length_app, repeat_length. lia.
  - split; [assumption|lia].
Qed.

Lemma extract_player_form_cases page player_name h2h :
  let form := TennisPage.extract_player_form_simple page player_name h2h in
  (PyStr.otruthy player_name = false /\ form = [])
  \/ (PyStr.otruthy player_name = true
      /\ (3 <= List.length form <= 5)%nat
      /\ Forall (fun s => s ∈ ["W"; "L"]) form
      /\ (TennisPage.from_indicators (TennisPage.form_indicators page) = None ->
          List.length form = 5%nat)).
Proof.
  cbv zeta. unfold TennisPage.extract_player_form_simple.
  destruct player_name as [name|]; [|by left].
  destruct name as [|c name]; [by left|]. right. cbn [negb PyStr.truthy PyStr.otruthy].
  split; [reflexivity|].
  assert (Hd : (3 <= List.length TennisPage.default_form <= 5)%nat
               /\ Forall (fun s => s ∈ ["W"; "L"]) TennisPage.default_form
               /\ List.length TennisPage.default_form = 5%nat).
  { unfold TennisPage.default_form. split_ands; cbn; try lia.
    repeat (constructor; [in_list|]). constructor. }
  destruct (TennisPage.from_indicators _) as [form|] eqn:E.
  - apply from_indicators_form in E as [E1 E2]. split_ands; [lia|lia|assumption|discriminate].
  - destruct h2h as [|m rest].
    + destruct Hd as (?&?&?). split_ands; tauto || lia.
    + set (h2h := m :: rest).
      destruct (form_loop_form (normalize (String c name)) h2h [])
        as [Hf Hl]; [constructor|cbn; lia|].
      destruct (TennisPage.form_loop _ [] h2h) as [|x pf'] eqn:El.
      * cbn [TennisPage.pad]. destruct Hd as (?&?&?). split_ands; tauto || lia.
      * destruct (pad_form (x :: pf') Hf Hl) as [Hp Hn]; [done|].
        destruct (TennisPage.pad (x :: pf')) as [|y p'] eqn:Ep; [discriminate|].
        rewrite length_take, Hn. split_ands; [lia|lia|by apply Forall_take|intros _; lia].
Qed.

(** X23: [extract_player_form_simple] returns the empty list for a missing
    or empty name and else between three and five results, each 'W' or 'L'
    and never 'D'; exactly five when no form indicator of the page gives
    three results. *)
Theorem player_form_is_wins_and_losses :
  forall page player_name h2h,
    let form := TennisPage.extract_player_form_simple page player_name h2h in
    (PyStr.otruthy player_name = false -> form = [])
    /\ (PyStr.otruthy player_name = true ->
        (3 <= List.length form <= 5)%nat
        /\ Forall (fun s => s ∈ ["W"; "L"]) form
        /\ (TennisPage.from_indicators (TennisPage.form_indicators page) = None ->
            List.length form = 5%nat)).
Proof.
  intros page player_name h2h form.
  destruct (extract_player_form_cases page player_name h2h) as [[H1 H2]|[H1 H2]];
    fold form in H2; split; intros H; congruence || assumption.
Qed.

Lemma surface_stats_for name h2h cur ranking surface :
  name <> "" -> surface ∈ Surface.surfaces ->
  exists stats v,
    Surface.calculate_surface_stats_from_h2h h2h (Some name) cur ranking = Some stats
    /\ stats !! surface = Some v
    /\ (30 # 100 <= v <= 98 # 100)%Q.
Proof.
  intros Hne Hs.
  rewrite calculate_surface_stats_profile by (by destruct name).
  eexists. unfold SurfaceSpec.profile, SurfaceSpec.surface_value, Surface.surfaces in *.
  apply elem_of_cons in Hs as [->|Hs]; [|apply elem_of_cons in Hs as [->|Hs];
    [|apply elem_of_cons in Hs as [->|Hs]; [|by apply elem_of_nil in Hs]]];
    eexists; (split; [reflexivity|]); (split; [read_entry|apply Qclamp_range]).
Qed.

(** X24: with ranking, surface and form read from the page, the tennis
    analyser is always given a surface among clay, grass and hard, for each
    named player surface statistics with a value for that surface within
    [0.30, 0.98], and form lists of at most five results 'W' or 'L'. *)
Theorem tennis_analyser_input_is_complete :
  forall env page url player_a player_b h2h,
    let env' := with_tennis_page env page url player_a player_b h2h in
    let input := Tennis.analyzer_input env' url player_a player_b h2h in
    exists surface,
      Tennis.in_surface input = Some surface
      /\ surface ∈ Surface.surfaces
      /\ (forall name, player_a = Some name -> name <> "" ->
          exists stats v,
            Tennis.in_surface_stats_a input = Some stats
            /\ stats !! surface = Some v /\ (30 # 100 <= v <= 98 # 100)%Q)
      /\ (forall name, player_b = Some name -> name <> "" ->
          exists stats v,
            Tennis.in_surface_stats_b input = Some stats
            /\ stats !! surface = Some v /\ (30 # 100 <= v <= 98 # 100)%Q)
      /\ Forall (fun form =>
                   (List.length form <= 5)%nat
                   /\ Forall (fun f => Tennis.v3_result f ∈ ["W"; "L"]) form)
           [Tennis.in_form_a input; Tennis.in_form_b input].
Proof.
  intros env page url player_a player_b h2h env' input.
  destruct (detect_surface_known page url) as (surface & Hs & Hin).
  exists surface. subst input. unfold Tennis.analyzer_input.
  cbn [Tennis.in_surface Tennis.in_surface_stats_a Tennis.in_surface_stats_b
       Tennis.in_form_a Tennis.in_form_b].
  change (Tennis.surface env') with (TennisPage.detect_tennis_surface page url).
  rewrite Hs.
  assert (Ht : PyStr.otruthy (Some surface) = true).
  { unfold Surface.surfaces in Hin.
    apply elem_of_cons in Hin as [->|Hin]; [reflexivity|].
    apply elem_of_cons in Hin as [->|Hin]; [reflexivity|].
    apply elem_of_cons in Hin as [->|Hin]; [reflexivity|].
    by apply elem_of_nil in Hin. }
  rewrite Ht.
  assert (Hform : forall name,
            (List.length (Tennis.v3_form
                            (TennisPage.extract_player_form_simple page name h2h))
             <= 5)%nat
            /\ Forall (fun f => Tennis.v3_result f ∈ ["W"; "L"])
                 (Tennis.v3_form
                    (TennisPage.extract_player_form_simple page name h2h))).
  { intros name. unfold Tennis.v3_form. rewrite length_map.
    destruct (extract_player_form_cases page name h2h) as [[_ ->]|(_ & Hl & Hf & _)].
    - split; [cbn; lia|constructor].
    - split; [lia|]. apply Forall_map. eapply Forall_impl; [exact Hf|]. done. }
  split_ands; [reflexivity|assumption| | |].
  - intros name -> Hne. by apply surface_stats_for.
  - intros name -> Hne. by apply surface_stats_for.
  - apply Forall_cons_2; [apply Hform|apply Forall_cons_2; [apply Hform|constructor]].
Qed.

(** *** The match links *)

Lemma existsb_contains patterns s :
  existsb (fun p => PyStr.contains p s) patterns = true ->
  exists pattern, pattern ∈ patterns /\ PyStr.contains pattern s = true.
Proof.
  intros H. apply existsb_exists in H as (p & Hin & Hp).
  exists p. split; [by apply list_elem_of_In|assumption].
Qed.

Lemma startswith_char p c h :
  PyText.startswith (String p "") (String c h) = Ascii.eqb p c.
Proof.
  unfold PyText.startswith. cbn [String.prefix].
  destruct (ascii_dec p c) as [->|Hn].
  - rewrite Ascii.eqb_refl. by destruct h.
  - symmetry. by apply Ascii.eqb_neq.
Qed.

Lemma sport_url_start sport sport_url :
  Links.SPORT_URLS !! sport = Some sport_url ->
  exists rest, sport_url = String "h" rest.
Proof.
  unfold Links.SPORT_URLS. intros H.
  repeat (apply lookup_insert_Some in H as [[_ <-]|[_ H]]; [eauto|]).
  apply lookup_singleton_Some in H as [_ <-]. eauto.
Qed.

Lemma anchor_step_links sport_url leagues all_links sport_links a :
  (exists rest, sport_url = String "h" rest) ->
  NoDup (all_links ++ sport_links) ->
  Forall (is_match_link Links.patterns_match) sport_links ->
  let sport_links' := Links.anchor_step sport_url leagues all_links sport_links a in
  NoDup (all_links ++ sport_links')
  /\ Forall (is_match_link Links.patterns_match) sport_links'.
Proof.
  intros [rest ->] Hnd Hf. cbv zeta. unfold Links.anchor_step.
  destruct (existsb _ Links.patterns_match) eqn:Ep; [|by split].
  match goal with |- context [Links.league_passes _ ?l _] => set (link := l) end.
  destruct (Links.league_passes leagues link a); [|by split].
  destruct (bool_decide (link ∉ sport_links)) eqn:E1; [|by split].
  destruct (bool_decide (link ∉ all_links)) eqn:E2; [|by split].
  apply bool_decide_eq_true in E1, E2. cbn [andb]. split.
  - rewrite app_assoc. apply NoDup_app. split; [assumption|]. split.
    + intros x Hx Hx'. apply list_elem_of_singleton in Hx'. subst x.
      apply elem_of_app in Hx as [Hx|Hx]; [by apply E2|by apply E1].
    + apply NoDup_singleton.
  - apply Forall_app. split; [assumption|]. constructor; [|constructor].
    apply existsb_contains in Ep as (p & Hin & Hp).
    subst link. unfold is_match_link.
    destruct (Links.href a) as [|c h] eqn:Eh.
    { exfalso. clear -Hin Hp. unfold Links.patterns_match in Hin.
      repeat (apply elem_of_cons in Hin as [->|Hin]; [discriminate|]).
      by apply elem_of_nil in Hin. }
    rewrite !startswith_char.
    destruct (Ascii.eqb_spec "/" c) as [<-|H1].
    + change (Links.site ++ String "/" h) with (String "h" ("ttps://www.livesport.com" ++ String "/" h)).
      rewrite !startswith_char. split_ands; [|reflexivity|reflexivity].
      exists p. split; [assumption|].
      change (String "h" ("ttps://www.livesport.com" ++ String "/" h))
        with (Links.site ++ String "/" h).
      by apply contains_app_r.
    + destruct (Ascii.eqb_spec "#" c) as [<-|H2].
      * rewrite str_app_cons, !startswith_char. split_ands; [|reflexivity|reflexivity].
        exists p. split; [assumption|].
        rewrite <- str_app_cons. by apply contains_app_r.
      * rewrite !startswith_char. split_ands; [eauto| |]; by apply Ascii.eqb_neq.
Qed.

Lemma anchors_fold_links sport_url leagues all_links anchors : forall sport_links,
  (exists rest, sport_url = String "h" rest) ->
  NoDup (all_links ++ sport_links) ->
  Forall (is_match_link Links.patterns_match) sport_links ->
  let sport_links' :=
    fold_left (Links.anchor_step sport_url leagues all_links) anchors sport_links in
  NoDup (all_links ++ sport_links')
  /\ Forall (is_match_link Links.patterns_match) sport_links'.
Proof.
  induction anchors as [|a rest IH]; intros sport_links Hu Hnd Hf; cbn [fold_left].
  - by split.
  - destruct (anchor_step_links sport_url leagues all_links sport_links a Hu Hnd Hf)
      as [Hnd' Hf'].
    by apply IH.
Qed.

Lemma sports_loop_links driver date leagues sports : forall all_links,
  NoDup all_links ->
  Forall (is_match_link Links.patterns_match) all_links ->
  NoDup (Links.sports_loop driver date leagues sports all_links)
  /\ Forall (is_match_link Links.patterns_match)
       (Links.sports_loop driver date leagues sports all_links).
Proof.
  induction sports as [|sport rest IH]; intros all_links Hnd Hf;
    cbn [Links.sports_loop]; [by split|].
  destruct (Links.SPORT_URLS !! sport) as [sport_url|] eqn:Es; [|by apply IH].
  destruct (driver _) as [anchors|]; [|by apply IH].
  destruct (anchors_fold_links sport_url leagues all_links anchors [])
    as [Hnd' Hf'].
  - by eapply sport_url_start.
  - by rewrite app_nil_r.
  - constructor.
  - apply IH; [assumption|]. apply Forall_app. by split.
Qed.

Lemma sports_loop_unknown driver date leagues sports : forall all_links,
  Forall (fun sport => Links.SPORT_URLS !! sport = None) sports ->
  Links.sports_loop driver date leagues sports all_links = all_links.
Proof.
  induction sports as [|sport rest IH]; intros all_links H; [reflexivity|].
  apply Forall_cons in H as [Hs H]. cbn [Links.sports_loop]. rewrite Hs.
  by apply IH.
Qed.

(** X25: [get_match_links_from_day] returns each link once, whatever the
    pages hold and in whatever order the sports are given; every link
    contains one of the four match patterns and none is left relative to
    the site or to the page. Sports that [SPORT_URLS] does not know add
    nothing. *)
Theorem day_links_are_distinct_match_links :
  forall driver date sports leagues,
    let links := Links.get_match_links_from_day driver date sports leagues in
    NoDup links
    /\ Forall (is_match_link Links.patterns_match) links
    /\ (sports <> [] ->
        Forall (fun sport => Links.SPORT_URLS !! sport = None) sports ->
        links = []).
Proof.
  intros driver date sports leagues links. subst links.
  unfold Links.get_match_links_from_day.
  destruct (sports_loop_links driver date leagues
              (match sports with [] => ["football"] | _ => sports end) [])
    as [H1 H2]; [constructor|constructor|].
  split_ands; [assumption|assumption|].
  intros Hne Hu. destruct sports as [|s l]; [done|].
  by apply sports_loop_unknown.
Qed.

Lemma advanced_step_links all_links a :
  NoDup all_links ->
  Forall (fun link =>
            (exists pattern, pattern ∈ ["/match/"; "/mecz/"]
                             /\ PyStr.contains pattern link = true)
            /\ PyText.startswith "/" link = false) all_links ->
  NoDup (Links.advanced_step all_links a)
  /\ Forall (fun link =>
               (exists pattern, pattern ∈ ["/match/"; "/mecz/"]
                                /\ PyStr.contains pattern link = true)
               /\ PyText.startswith "/" link = false)
       (Links.advanced_step all_links a).
Proof.
  intros Hnd Hf. unfold Links.advanced_step.
  destruct (existsb _ _) eqn:Ep; [|by split].
  match goal with |- context [bool_decide (?l ∉ _)] => set (link := l) end.
  destruct (bool_decide (link ∉ all_links)) eqn:E; [|by split].
  apply bool_decide_eq_true in E. split.
  - apply NoDup_app. split; [assumption|]. split; [|apply NoDup_singleton].
    intros x Hx Hx'. apply list_elem_of_singleton in Hx'. by subst x.
  - apply Forall_app. split; [assumption|]. constructor; [|constructor].
    apply existsb_contains in Ep as (p & Hin & Hp). subst link.
    destruct (PyText.startswith "/" (Links.href a)) eqn:Es.
    + split; [|reflexivity]. exists p. split; [assumption|]. by apply contains_app_r.
    + split; [eauto|assumption].
Qed.

Lemma advanced_loop_links driver date sports : forall all_links,
  NoDup all_links ->
  Forall (fun link =>
            (exists pattern, pattern ∈ ["/match/"; "/mecz/"]
                             /\ PyStr.contains pattern link = true)
            /\ PyText.startswith "/" link = false) all_links ->
  NoDup (Links.advanced_loop driver date sports all_links)
  /\ Forall (fun link =>
               (exists pattern, pattern ∈ ["/match/"; "/mecz/"]
                                /\ PyStr.contains pattern link = true)
               /\ PyText.startswith "/" link = false)
       (Links.advanced_loop driver date sports all_links).
Proof.
  induction sports as [|sport rest IH]; intros all_links Hnd Hf;
    cbn [Links.advanced_loop]; [by split|].
  destruct (Links.SPORT_URLS !! sport) as [base_url|]; [|by apply IH].
  destruct (driver _) as [anchors|]; [|by apply IH].
  apply IH.
  - clear IH. revert all_links Hnd Hf.
    induction anchors as [|a l IHl]; intros all_links Hnd Hf; [assumption|].
    cbn [fold_left]. destruct (advanced_step_links all_links a Hnd Hf) as [? ?].
    by apply IHl.
  - clear IH. revert all_links Hnd Hf.
    induction anchors as [|a l IHl]; intros all_links Hnd Hf; [assumption|].
    cbn [fold_left]. destruct (advanced_step_links all_links a Hnd Hf) as [? ?].
    by apply IHl.
Qed.

(** X26: [get_match_links_advanced] returns each link once as well; every
    link contains ["/match/"] or ["/mecz/"] and none starts with a
    slash. *)
Theorem advanced_links_are_distinct_match_links :
  forall driver date sports,
    let links := Links.get_match_links_advanced driver date sports in
    NoDup links
    /\ Forall (fun link =>
                 (exists pattern, pattern ∈ ["/match/"; "/mecz/"]
                                  /\ PyStr.contains pattern link = true)
                 /\ PyText.startswith "/" link = false) links.
Proof.
  intros driver date sports links. subst links.
  unfold Links.get_match_links_advanced.
  apply advanced_loop_links; constructor.
Qed.

Lemma strip_prefix_is_prefix p s r :
  PyText.strip_prefix p s = Some r -> String.prefix p s = true.
Proof. intros H. apply strip_prefix_inv in H as ->. apply prefix_app. Qed.

Lemma partition_unfold sep s :
  PyText.partition sep s
  = match PyText.strip_prefix sep s with
    | Some rest => Some (EmptyString, rest)
    | None =>
        match s with
        | EmptyString => None
        | String c t =>
            match PyText.partition sep t with
            | Some (l, r) => Some (String c l, r)
            | None => None
            end
        end
    end.
Proof. destruct s; reflexivity. Qed.

Lemma partition_query base q :
  Client.no_query_char base = true ->
  PyText.partition "?" (base ++ String "?" q) = Some (base, q).
Proof.
  induction base as [|c t IH]; intros H; [by destruct q|].
  rewrite str_app_cons. cbn [Client.no_query_char] in H.
  apply andb_true_iff in H as [Hc Ht].
  cbn [PyText.partition PyText.strip_prefix].
  destruct (Ascii.eqb_spec "?" c) as [<-|Hn]; [discriminate|].
  by rewrite IH.
Qed.

Lemma partition_none sep : forall s,
  PyStr.contains sep s = false -> PyText.partition sep s = None.
Proof.
  induction s as [|c t IH]; intros H; rewrite contains_unfold in H;
    apply orb_false_iff in H as [Hp Hc]; cbn [PyText.partition].
  - destruct (PyText.strip_prefix sep "") eqn:E; [|reflexivity].
    apply strip_prefix_is_prefix in E. congruence.
  - destruct (PyText.strip_prefix sep (String c t)) eqn:E.
    + apply strip_prefix_is_prefix in E. congruence.
    + by rewrite IH.
Qed.

(** A match of ["mid="] that starts before a [?] lies before it. *)
Lemma mid_before_query b x r :
  PyText.strip_prefix "mid=" (b ++ String "?" x) = Some r ->
  String.prefix "mid=" b = true.
Proof.
  destruct b as [|c1 [|c2 [|c3 [|c4 b]]]]; rewrite ?str_app_cons;
    change ("" ++ String "?" x) with (String "?" x);
    cbn [PyText.strip_prefix];
    repeat match goal with
           | |- context [Ascii.eqb ?a ?c] =>
               first [ is_var c; destruct (Ascii.eqb_spec a c) as [<-|?]
                     | change (Ascii.eqb a c) with false; cbv iota ];
               try discriminate
           end.
  intros _. cbn. by destruct b.
Qed.

Lemma partition_mid base x :
  PyStr.contains "mid=" base = false ->
  PyText.partition "mid=" (base ++ String "?" ("mid=" ++ x))
  = Some (base ++ "?", x).
Proof.
  induction base as [|c t IH]; intros H.
  - change ("" ++ String "?" ("mid=" ++ x)) with (String "?" ("mid=" ++ x)).
    cbn [PyText.partition]. change (PyText.strip_prefix "mid=" (String "?" ("mid=" ++ x)))
      with (@None string).
    cbv iota. rewrite partition_unfold, strip_prefix_app. reflexivity.
  - rewrite contains_unfold in H. apply orb_false_iff in H as [Hp Hc].
    rewrite str_app_cons. cbn [PyText.partition].
    destruct (PyText.strip_prefix "mid=" (String c (t ++ String "?" ("mid=" ++ x))))
      eqn:E.
    + rewrite <- str_app_cons in E. apply mid_before_query in E. congruence.
    + rewrite IH by assumption. reflexivity.
Qed.

Lemma form_url_event page base event_id rest :
  page ∈ ["ogolem"; "u-siebie"; "na-wyjezdzie"] ->
  Client.no_query_char base = true ->
  PyStr.contains "mid=" base = false ->
  event_id <> "" ->
  PyText.all_alnum event_id = true ->
  match rest with
  | EmptyString => True
  | String c _ => PyText.is_alnum c = false
  end ->
  PyStr.contains "mid=" (event_id ++ rest) = false ->
  let url := base ++ "?mid=" ++ event_id ++ rest in
  Urls.form_url page url
  = Urls.form_base_url url ++ "/h2h/" ++ page ++ "/?mid=" ++ event_id ++ rest
  /\ Client.extract_event_id_from_url (Urls.form_url page url) = Some event_id.
Proof.
  intros Hpage Hbase Hmid Hne Hid Hrest Honce url.
  assert (Hm : Urls.form_mid url = event_id ++ rest).
  { unfold Urls.form_mid. subst url.
    change ("?mid=" ++ event_id ++ rest) with (String "?" ("mid=" ++ event_id ++ rest)).
    rewrite partition_mid by assumption. by rewrite partition_none. }
  assert (Hu : Urls.form_url page url
               = Urls.form_base_url url ++ "/h2h/" ++ page ++ "/?mid=" ++ event_id ++ rest).
  { unfold Urls.form_url. by rewrite Hm. }
  split; [exact Hu|]. rewrite Hu.
  assert (Hb : Client.no_query_char (Urls.form_base_url url) = true).
  { unfold Urls.form_base_url. subst url.
    change ("?mid=" ++ event_id ++ rest) with (String "?" ("mid=" ++ event_id ++ rest)).
    rewrite partition_query by assumption.
    pose proof (rstrip_slash_no_query base Hbase) as Hr.
    destruct (_ || _); [|assumption]. by apply replace_fuel_no_query. }
  assert (Hp : Client.no_query_char ("/h2h/" ++ page ++ "/") = true).
  { repeat (apply elem_of_cons in Hpage as [->|Hpage]; [reflexivity|]).
    by apply elem_of_nil in Hpage. }
  replace (Urls.form_base_url url ++ "/h2h/" ++ page ++ "/?mid=" ++ event_id ++ rest)
    with ((Urls.form_base_url url ++ "/h2h/" ++ page ++ "/") ++ "?mid=" ++ event_id ++ rest).
  - apply extract_event_id_canonical; try assumption.
    by rewrite no_query_char_app, Hb, Hp.
  - rewrite !str_app_assoc. reflexivity.
Qed.

(** X27: the three form pages [extract_advanced_team_form] visits are
    H2H pages of the same event: for a match URL [base ?mid= id rest] in
    which ["mid="] occurs once, the URL of each page is the base, then
    ["/h2h/"], the page and ["/?mid="] with what followed it in the match
    URL, and [extract_event_id_from_url] reads [id] back from it. *)
Theorem form_pages_keep_the_event :
  forall page base event_id rest,
    page ∈ ["ogolem"; "u-siebie"; "na-wyjezdzie"] ->
    Client.no_query_char base = true ->
    PyStr.contains "mid=" base = false ->
    event_id <> "" ->
    PyText.all_alnum event_id = true ->
    match rest with
    | EmptyString => True
    | String c _ => PyText.is_alnum c = false
    end ->
    PyStr.contains "mid=" (event_id ++ rest) = false ->
    let url := base ++ "?mid=" ++ event_id ++ rest in
    Urls.form_url page url
    = Urls.form_base_url url ++ "/h2h/" ++ page ++ "/?mid=" ++ event_id ++ rest
    /\ Client.extract_event_id_from_url (Urls.form_url page url)
       = Client.extract_event_id_from_url url.
Proof.
  intros page base event_id rest Hpage Hbase Hmid Hne Hid Hrest Honce url.
  destruct (form_url_event page base event_id rest) as [H1 H2]; try assumption.
  split; [exact H1|]. fold url in H2. rewrite H2. symmetry.
  by apply extract_event_id_canonical.
Qed.

Lemma form_pages_keep_the_event_witness :
  Urls.form_url "u-siebie"
    ("https://www.livesport.com/pl/mecz/pilka-nozna/a/b/" ++ "?mid=" ++ "KQAaF7d2" ++ "")
  = "https://www.livesport.com/pl/mecz/pilka-nozna/a/b/h2h/u-siebie/?mid=KQAaF7d2"
  /\ Client.extract_event_id_from_url
       (Urls.form_url "u-siebie"
          ("https://www.livesport.com/pl/mecz/pilka-nozna/a/b/" ++ "?mid=" ++ "KQAaF7d2" ++ ""))
     = Client.extract_event_id_from_url
         ("https://www.livesport.com/pl/mecz/pilka-nozna/a/b/" ++ "?mid=" ++ "KQAaF7d2" ++ "").
Proof.
  apply (form_pages_keep_the_event "u-siebie"
           "https://www.livesport.com/pl/mecz/pilka-nozna/a/b/" "KQAaF7d2" "");
    [apply list_elem_of_further, list_elem_of_here|reflexivity|reflexivity
    |discriminate|reflexivity|exact I|reflexivity].
Defined.

(** *** All the odds of an event *)

Lemma fetched_odds_keys api event_id bet_type result k :
  Client._fetch_odds_with_bet_type api event_id bet_type = Some result ->
  k ∉ ["bookmaker_id"; "bookmaker_name"; "source"; "event_id"; "bet_type_used";
       "home_odds"; "draw_odds"; "away_odds"] ->
  result !! k = None.
Proof.
  intros H Hk. split_notin Hk. unfold Client._fetch_odds_with_bet_type in H.
  destruct (Client.http _ _ _) as [odds_data|]; [|discriminate].
  destruct (bool_decide _); [discriminate|].
  destruct (Client.side_odds api odds_data ["home"; "team1"; "1"]) as [home|];
    [|discriminate].
  destruct (Client.side_odds api odds_data ["draw"]) as [draw|]; [|discriminate].
  destruct (Client.side_odds api odds_data ["away"; "team2"; "2"]) as [away|];
    [|discriminate].
  destruct (_ && _); [|discriminate]. injection H as <-.
  rewrite !set_odds_lookup_ne by done.
  repeat (rewrite lookup_insert_ne by done). by apply lookup_singleton_ne.
Qed.

(** X28: [get_complete_odds] gives the prices in groups. The home and the
    away price are both there and non-zero or both missing; so are the over
    and the under price, which come with the line as a string; the two
    BTTS prices are both there and non-zero or both missing, and they are
    missing for every sport other than football. *)
Theorem complete_odds_come_in_groups :
  forall api event_id sport,
    let result := Client.get_complete_odds api event_id sport in
    (result !! "home_odds" = None /\ result !! "away_odds" = None
     \/ exists home away,
          result !! "home_odds" = Some (VFloat home) /\ ~ (home == 0)%Q
          /\ result !! "away_odds" = Some (VFloat away) /\ ~ (away == 0)%Q)
    /\ (result !! "over_odds" = None /\ result !! "under_odds" = None
        /\ result !! "ou_line" = None
        \/ exists over under line,
             result !! "over_odds" = Some (VFloat over) /\ ~ (over == 0)%Q
             /\ result !! "under_odds" = Some (VFloat under) /\ ~ (under == 0)%Q
             /\ result !! "ou_line" = Some (VStr line))
    /\ (result !! "btts_yes" = None /\ result !! "btts_no" = None
        \/ sport = "football"
           /\ exists yes no,
                result !! "btts_yes" = Some (VFloat yes) /\ ~ (yes == 0)%Q
                /\ result !! "btts_no" = Some (VFloat no) /\ ~ (no == 0)%Q).
Proof.
  intros api event_id sport result. subst result.
  unfold Client.get_complete_odds.
  set (r1 := match (Client.get_odds_for_event api event_id (Some sport)).1 with
             | Some main_odds =>
                 if dict_truthy main_odds then main_odds ∪ (∅ : PyDict) else ∅
             | None => ∅
             end).
  assert (H1 : (r1 !! "home_odds" = None /\ r1 !! "away_odds" = None
                \/ exists home away,
                     r1 !! "home_odds" = Some (VFloat home) /\ ~ (home == 0)%Q
                     /\ r1 !! "away_odds" = Some (VFloat away) /\ ~ (away == 0)%Q)
               /\ (forall k, k ∈ ["over_odds"; "under_odds"; "ou_line"; "btts_yes";
                                  "btts_no"] -> r1 !! k = None)).
  { subst r1.
    destruct (Client.get_odds_for_event api event_id (Some sport)).1 as [main|] eqn:E.
    2: { split; [left; split; apply lookup_empty|intros; apply lookup_empty]. }
    apply get_odds_for_event_fetched in E as [bt E].
    rewrite (fetched_odds_truthy _ _ _ _ E). rewrite (right_id_L ∅ (∪)).
    split.
    - right. apply fetched_odds_complete in E as ((h & a & Hh & Hhz & Ha & Haz) & _).
      eauto 10.
    - intros k Hk. eapply fetched_odds_keys; [exact E|].
      repeat (apply elem_of_cons in Hk as [->|Hk]; [notin_keys|]).
      by apply elem_of_nil in Hk. }
  destruct H1 as [Hmain Hfree].
  set (r2 := match Client.get_over_under_odds api event_id sport with
             | Some ou_odds => if dict_truthy ou_odds then _ else r1
             | None => r1
             end).
  assert (H2 : (forall k, k ∉ ["over_odds"; "under_odds"; "ou_line"; "ou_line_type"] ->
                  r2 !! k = r1 !! k)
               /\ (r2 !! "over_odds" = None /\ r2 !! "under_odds" = None
                   /\ r2 !! "ou_line" = None
                   \/ exists over under line,
                        r2 !! "over_odds" = Some (VFloat over) /\ ~ (over == 0)%Q
                        /\ r2 !! "under_odds" = Some (VFloat under) /\ ~ (under == 0)%Q
                        /\ r2 !! "ou_line" = Some (VStr line))).
  { assert (Hnone : r1 !! "over_odds" = None /\ r1 !! "under_odds" = None
                    /\ r1 !! "ou_line" = None).
    { split_ands; apply Hfree; in_list. }
    subst r2.
    destruct (Client.get_over_under_odds api event_id sport) as [ou|] eqn:E;
      [|split; [reflexivity|by left]].
    destruct (dict_truthy ou); [|split; [reflexivity|by left]].
    split.
    - intros k Hk. split_notin Hk. keep_lookup.
    - right. apply over_under_odds_line in E
        as (o & u & l & Ho & Hoz & Hu & Huz & Hl & _).
      exists o, u, l. unfold dget, dget_or. rewrite Ho, Hu, Hl.
      split_ands; try assumption; read_entry. }
  destruct H2 as [Hkeep2 Hou].
  assert (Hb2 : r2 !! "btts_yes" = None /\ r2 !! "btts_no" = None).
  { split; (rewrite Hkeep2 by notin_keys); apply Hfree; in_list. }
  assert (Hm2 : r2 !! "home_odds" = r1 !! "home_odds"
                /\ r2 !! "away_odds" = r1 !! "away_odds").
  { split; apply Hkeep2; notin_keys. }
  destruct Hm2 as [Hh2 Ha2].
  destruct (String.eqb_spec sport "football") as [Hs|Hs].
  2: { rewrite Hh2, Ha2. split_ands; [assumption|assumption|by left]. }
  destruct (Client.get_btts_odds api event_id) as [btts|] eqn:Eb.
  2: { rewrite Hh2, Ha2. split_ands; [assumption|assumption|by left]. }
  destruct (dict_truthy btts).
  2: { rewrite Hh2, Ha2. split_ands; [assumption|assumption|by left]. }
  apply btts_odds_complete in Eb as (y & n & Hy & Hyz & Hn & Hnz).
  unfold dget. rewrite Hy, Hn.
  rewrite !(lookup_insert_ne _ "btts_no") by done.
  rewrite !(lookup_insert_ne _ "btts_yes") by done.
  rewrite Hh2, Ha2. split_ands; [assumption|assumption|].
  right. split; [assumption|]. exists y, n.
  split_ands; try assumption; read_entry.
Qed.
